(** * Swarm: the turn-processing engine of [swarm/core.py]

    A shallow embedding of the [Swarm] class (construction, request
    building and invocation, result normalisation, tool-call dispatch, the
    blocking and the streaming turn loop) and the properties of its
    specification.

    Conventions of the embedding.
    - A Python [str] is a [string] whose characters are the code points
      U+0000..U+00FF.
    - A Python value that went through JSON (a message, the arguments of a
      tool call, a context variable) is a [json] tree; numbers are the
      integers, a lexeme with a fraction or an exponent is outside the
      embedding.
    - A Python [dict] is an association list in insertion order, updated
      in place ([dict_set]).
    - Code that can raise, or that calls the client or a tool function,
      lives in the monad [M]: a state monad over the state of the outside
      world with an exception layer.  [debug_print] and [print] only write
      to the console and are left out.
    - The loops are embedded twice: on values, and in [Store] on objects
      at addresses, where copies and in-place updates can be told apart. *)

From Stdlib Require Import String Ascii List ZArith Bool Arith Lia.
From Stdlib Require Import DecimalString.
Import ListNotations.
Open Scope string_scope.
Open Scope list_scope.

Set Implicit Arguments.
Set Warnings "-register-all".

(** ** Strings *)

Module Str.

(** [old] is a prefix of [s]: [s.startswith(old)]. *)
Fixpoint startswith (old s : string) : bool :=
  match old, s with
  | EmptyString, _ => true
  | String a old', String b s' => Ascii.eqb a b && startswith old' s'
  | String _ _, EmptyString => false
  end.

Fixpoint drop (n : nat) (s : string) : string :=
  match n, s with
  | O, _ => s
  | S n', String _ s' => drop n' s'
  | S _, EmptyString => EmptyString
  end.

(** [needle in hay] for two strings: substring test. *)
Fixpoint contains (needle hay : string) : bool :=
  startswith needle hay ||
  match hay with
  | EmptyString => false
  | String _ hay' => contains needle hay'
  end.

Fixpoint mem_char (c : ascii) (s : string) : bool :=
  match s with
  | EmptyString => false
  | String a s' => Ascii.eqb a c || mem_char c s'
  end.

Fixpoint replace_from (fuel : nat) (old new s : string) : string :=
  match fuel with
  | O => s
  | S fuel' =>
      if startswith old s
      then (new ++ replace_from fuel' old new (drop (String.length old) s))%string
      else match s with
           | EmptyString => EmptyString
           | String c s' => String c (replace_from fuel' old new s')
           end
  end.

(** [s.replace(old, new)] for a non-empty [old]: the occurrences are
    replaced from the left, without overlap. *)
Definition replace (old new s : string) : string :=
  match old with
  | EmptyString => s
  | _ => replace_from (S (String.length s)) old new s
  end.

Definition is_space (c : ascii) : bool :=
  let n := nat_of_ascii c in
  ((9 <=? n)%nat && (n <=? 13)%nat) || ((28 <=? n)%nat && (n <=? 32)%nat)
  || (n =? 133)%nat || (n =? 160)%nat.

Fixpoint lstrip (s : string) : string :=
  match s with
  | String c s' => if is_space c then lstrip s' else s
  | EmptyString => EmptyString
  end.

Fixpoint rev_onto (s acc : string) : string :=
  match s with
  | EmptyString => acc
  | String c s' => rev_onto s' (String c acc)
  end.

Definition rev (s : string) : string := rev_onto s EmptyString.

(** [s.strip()]: whitespace removed at both ends. *)
Definition strip (s : string) : string := rev (lstrip (rev (lstrip s))).

(** [s in (a, b, ...)]: membership in a tuple of strings. *)
Definition in_tuple (s : string) (t : list string) : bool :=
  existsb (String.eqb s) t.

(** Truth value of a string: [bool(s)]. *)
Definition truthy (s : string) : bool :=
  match s with EmptyString => false | _ => true end.

Definition opt_truthy (o : option string) : bool :=
  match o with Some s => truthy s | None => false end.

End Str.

(** ** Exceptions and outcomes *)

Inductive exn : Type :=
| ValueError (msg : string)
| TypeError (msg : string)
| KeyError (key : string)
| IndexError (msg : string)
| AttributeError (msg : string)
| JSONDecodeError (msg : string)
| OtherError (msg : string).

(** What a piece of code produces: a value, an exception, or no answer of
    the embedding (the loop fuel ran out, or the input lies outside the
    embedded fragment of Python). *)
Inductive outcome (A : Type) : Type :=
| Ok (a : A)
| Raise (e : exn)
| NoAnswer.

Arguments Ok {A} a.
Arguments Raise {A} e.
Arguments NoAnswer {A}.

Definition obind {A B} (o : outcome A) (k : A -> outcome B) : outcome B :=
  match o with
  | Ok a => k a
  | Raise e => Raise e
  | NoAnswer => NoAnswer
  end.

(** ** JSON values and dictionaries *)

Inductive json : Type :=
| JNull
| JBool (b : bool)
| JInt (z : Z)
| JStr (s : string)
| JList (l : list json)
| JDict (d : list (string * json)).

Definition pydict (V : Type) : Type := list (string * V).

Section Dict.
Context {V : Type}.

Fixpoint dict_get (k : string) (d : pydict V) : option V :=
  match d with
  | [] => None
  | (k', v) :: d' => if String.eqb k k' then Some v else dict_get k d'
  end.

Definition dict_mem (k : string) (d : pydict V) : bool :=
  match dict_get k d with Some _ => true | None => false end.

(** [d[k] = v]: the value is replaced where the key stands, a new key
    goes to the end. *)
Fixpoint dict_set (k : string) (v : V) (d : pydict V) : pydict V :=
  match d with
  | [] => [(k, v)]
  | (k', v') :: d' =>
      if String.eqb k k' then (k', v) :: d' else (k', v') :: dict_set k v d'
  end.

(** [d.update(u)]: the items of [u] are assigned in their order. *)
Definition dict_update (d u : pydict V) : pydict V :=
  fold_left (fun acc kv => dict_set (fst kv) (snd kv) acc) u d.

(** [d.pop(k, None)], the popped value dropped: the key is gone. *)
Definition dict_pop (k : string) (d : pydict V) : pydict V :=
  filter (fun kv => negb (String.eqb k (fst kv))) d.

Definition dict_keys (d : pydict V) : list string := map fst d.

(** [dict(pairs)]. *)
Definition dict_of_pairs (pairs : list (string * V)) : pydict V :=
  dict_update [] pairs.

End Dict.

(** [l.remove(x)]: the first occurrence goes. *)
Fixpoint list_remove (x : string) (l : list string) : list string :=
  match l with
  | [] => []
  | y :: l' => if String.eqb x y then l' else y :: list_remove x l'
  end.

Definition list_mem (x : string) (l : list string) : bool :=
  existsb (String.eqb x) l.

(** ** Python's [repr] and the JSON decoder *)

Definition dquote : ascii := ascii_of_nat 34.
Definition squote : ascii := ascii_of_nat 39.
Definition backslash : ascii := ascii_of_nat 92.

Definition char1 (c : ascii) : string := String c EmptyString.

(** Writes a text with backquotes where double quotes are meant. *)
Fixpoint dq (s : string) : string :=
  match s with
  | EmptyString => EmptyString
  | String c s' => String (if Ascii.eqb c "`"%char then dquote else c) (dq s')
  end.

Fixpoint join (sep : string) (l : list string) : string :=
  match l with
  | [] => ""
  | [x] => x
  | x :: l' => (x ++ sep ++ join sep l')%string
  end.

Definition string_of_Z (z : Z) : string := NilZero.string_of_int (Z.to_int z).

Module PyRepr.

Definition hex_digit (n : nat) : ascii :=
  match String.get n "0123456789abcdef" with
  | Some c => c
  | None => "0"%char
  end.

(** [str.isprintable] on U+0000..U+00FF. *)
Definition is_printable (c : ascii) : bool :=
  let n := nat_of_ascii c in
  ((32 <=? n)%nat && (n <=? 126)%nat)
  || ((161 <=? n)%nat && negb (n =? 173)%nat).

Definition repr_char (quote c : ascii) : string :=
  let n := nat_of_ascii c in
  if Ascii.eqb c quote || Ascii.eqb c backslash
  then String backslash (char1 c)
  else if (n =? 9)%nat then String backslash "t"
  else if (n =? 10)%nat then String backslash "n"
  else if (n =? 13)%nat then String backslash "r"
  else if is_printable c then char1 c
  else String backslash
         (String "x" (String (hex_digit (n / 16)) (char1 (hex_digit (n mod 16))))).

Fixpoint repr_chars (quote : ascii) (s : string) : string :=
  match s with
  | EmptyString => EmptyString
  | String c s' => (repr_char quote c ++ repr_chars quote s')%string
  end.

(** [repr] of a string: single quotes, unless the text holds a single
    quote and no double quote. *)
Definition repr_str (s : string) : string :=
  let quote :=
    if Str.mem_char squote s && negb (Str.mem_char dquote s)
    then dquote else squote in
  String quote (repr_chars quote s ++ char1 quote)%string.

(** [repr] (and [str]) of a value made of [None], booleans, integers,
    strings, lists and dicts. *)
Fixpoint repr (j : json) : string :=
  match j with
  | JNull => "None"
  | JBool true => "True"
  | JBool false => "False"
  | JInt z => string_of_Z z
  | JStr s => repr_str s
  | JList l => ("[" ++ join ", " (map repr l) ++ "]")%string
  | JDict d =>
      ("{" ++ join ", "
                (map (fun kv => let '(k, v) := kv in
                                (repr_str k ++ ": " ++ repr v)%string) d)
           ++ "}")%string
  end.

End PyRepr.

Example repr_message :
  PyRepr.repr (JDict [("content", JStr "it's"); ("refusal", JNull);
                      ("n", JInt (-12)); ("l", JList [JBool true; JStr (dq "a`b")])])
  = dq "{'content': `it's`, 'refusal': None, 'n': -12, 'l': [True, 'a`b']}".
Proof. reflexivity. Qed.

(** The decoder of [json.loads], as the scanner of the standard library
    proceeds: [scan_once], [JSONObject], [JSONArray] and [scanstring]
    (strict).  The text still to read stands for the position; the decoder
    answers with the value and the rest of the text. *)
Module Json.

Definition err {A} (msg : string) : outcome A := Raise (JSONDecodeError msg).

Definition is_ws (c : ascii) : bool :=
  let n := nat_of_ascii c in
  (n =? 32)%nat || (n =? 9)%nat || (n =? 10)%nat || (n =? 13)%nat.

Fixpoint skip_ws (s : string) : string :=
  match s with
  | String c s' => if is_ws c then skip_ws s' else s
  | EmptyString => EmptyString
  end.

Definition is_digit (c : ascii) : bool :=
  let n := nat_of_ascii c in (48 <=? n)%nat && (n <=? 57)%nat.

Fixpoint take_digits (s : string) : string * string :=
  match s with
  | String c s' =>
      if is_digit c
      then let '(ds, r) := take_digits s' in (String c ds, r)
      else (EmptyString, s)
  | EmptyString => (EmptyString, EmptyString)
  end.

Fixpoint Z_of_digits (acc : Z) (ds : string) : Z :=
  match ds with
  | EmptyString => acc
  | String c ds' => Z_of_digits (10 * acc + Z.of_nat (nat_of_ascii c - 48)) ds'
  end.

(** The integer part of [NUMBER_RE]: an optional minus sign, then a
    single zero or a digit from 1 to 9 followed by digits. *)
Definition match_integer (s : string) : option (Z * string) :=
  let '(neg, s1) :=
    match s with
    | String c r => if Ascii.eqb c "-"%char then (true, r) else (false, s)
    | EmptyString => (false, s)
    end in
  match s1 with
  | String c r =>
      if Ascii.eqb c "0"%char then Some (0%Z, r)
      else if is_digit c then
        let '(ds, r') := take_digits r in
        let z := Z_of_digits 0 (String c ds) in
        Some (if neg then (- z)%Z else z, r')
      else None
  | EmptyString => None
  end.

(** Whether a fraction (a dot and digits) or an exponent (e or E, an
    optional sign, digits) follows. *)
Definition float_follows (s : string) : bool :=
  match s with
  | String c r =>
      if Ascii.eqb c "."%char
      then Str.truthy (fst (take_digits r))
      else if Ascii.eqb c "e"%char || Ascii.eqb c "E"%char
      then match r with
           | String sg r' =>
               if Ascii.eqb sg "-"%char || Ascii.eqb sg "+"%char
               then Str.truthy (fst (take_digits r'))
               else Str.truthy (fst (take_digits r))
           | EmptyString => false
           end
      else false
  | EmptyString => false
  end.

Definition hex_val (c : ascii) : option nat :=
  let n := nat_of_ascii c in
  if is_digit c then Some (n - 48)
  else if (97 <=? n)%nat && (n <=? 102)%nat then Some (n - 87)
  else if (65 <=? n)%nat && (n <=? 70)%nat then Some (n - 55)
  else None.

(** The table [BACKSLASH] of the one-letter escapes. *)
Definition unescape (c : ascii) : option ascii :=
  let n := nat_of_ascii c in
  if Ascii.eqb c dquote then Some dquote
  else if Ascii.eqb c backslash then Some backslash
  else if Ascii.eqb c "/"%char then Some "/"%char
  else if Ascii.eqb c "b"%char then Some (ascii_of_nat 8)
  else if Ascii.eqb c "f"%char then Some (ascii_of_nat 12)
  else if Ascii.eqb c "n"%char then Some (ascii_of_nat 10)
  else if Ascii.eqb c "r"%char then Some (ascii_of_nat 13)
  else if Ascii.eqb c "t"%char then Some (ascii_of_nat 9)
  else None.

(** [scanstring], entered after the opening quote.  A [\u] escape of a
    code point above U+00FF has no answer in the embedding. *)
Fixpoint scanstring (s : string) : outcome (string * string) :=
  match s with
  | EmptyString => err "Unterminated string starting at"
  | String c r =>
      if Ascii.eqb c dquote then Ok (EmptyString, r)
      else if Ascii.eqb c backslash then
        match r with
        | EmptyString => err "Unterminated string starting at"
        | String esc r' =>
            if Ascii.eqb esc "u"%char then
              match r' with
              | String h1 (String h2 (String h3 (String h4 r''))) =>
                  match hex_val h1, hex_val h2, hex_val h3, hex_val h4 with
                  | Some a, Some b, Some c', Some d =>
                      if ((a =? 0) && (b =? 0))%nat
                      then obind (scanstring r'')
                             (fun p => Ok (String (ascii_of_nat (16 * c' + d)) (fst p), snd p))
                      else NoAnswer
                  | _, _, _, _ => err "Invalid \uXXXX escape"
                  end
              | _ => err "Invalid \uXXXX escape"
              end
            else
              match unescape esc with
              | Some ch => obind (scanstring r')
                             (fun p => Ok (String ch (fst p), snd p))
              | None => err "Invalid \escape"
              end
        end
      else if (nat_of_ascii c <? 32)%nat then err "Invalid control character at"
      else obind (scanstring r) (fun p => Ok (String c (fst p), snd p))
  end.

Definition head (s : string) : option ascii :=
  match s with String c _ => Some c | EmptyString => None end.

Definition head_is (c : ascii) (s : string) : bool :=
  match s with String a _ => Ascii.eqb a c | EmptyString => false end.

Definition tail (s : string) : string := Str.drop 1 s.

(** The scalars of [scan_once]: what is neither a string, an object nor
    an array. *)
Definition scan_scalar (s : string) : outcome (json * string) :=
  if Str.startswith "null" s then Ok (JNull, Str.drop 4 s)
  else if Str.startswith "true" s then Ok (JBool true, Str.drop 4 s)
  else if Str.startswith "false" s then Ok (JBool false, Str.drop 5 s)
  else match match_integer s with
       | Some (z, r) => if float_follows r then NoAnswer else Ok (JInt z, r)
       | None =>
           if Str.startswith "NaN" s || Str.startswith "Infinity" s
              || Str.startswith "-Infinity" s
           then NoAnswer
           else err "Expecting value"
       end.

Fixpoint scan_once (fuel : nat) (s : string) : outcome (json * string) :=
  match fuel with
  | O => NoAnswer
  | S fuel' =>
      match s with
      | EmptyString => err "Expecting value"
      | String c r =>
          if Ascii.eqb c dquote
          then obind (scanstring r) (fun p => Ok (JStr (fst p), snd p))
          else if Ascii.eqb c "{"%char then
            (* JSONObject *)
            let r1 := if head_is dquote r then r else skip_ws r in
            if head_is "}"%char r1 then Ok (JDict [], tail r1)
            else if head_is dquote r1
            then obind (object_items fuel' [] (tail r1))
                   (fun p => Ok (JDict (dict_of_pairs (fst p)), snd p))
            else err "Expecting property name enclosed in double quotes"
          else if Ascii.eqb c "["%char then
            (* JSONArray *)
            let r1 := skip_ws r in
            if head_is "]"%char r1 then Ok (JList [], tail r1)
            else obind (array_items fuel' [] r1)
                   (fun p => Ok (JList (fst p), snd p))
          else scan_scalar s
      end
  end

(** The loop of [JSONObject], entered after the quote that opens a key. *)
with object_items (fuel : nat) (pairs : list (string * json)) (s : string)
  : outcome (list (string * json) * string) :=
  match fuel with
  | O => NoAnswer
  | S fuel' =>
      obind (scanstring s) (fun ks =>
      let '(key, s1) := ks in
      let s2 := if head_is ":"%char s1 then s1 else skip_ws s1 in
      if negb (head_is ":"%char s2) then err "Expecting ':' delimiter"
      else
        obind (scan_once fuel' (skip_ws (tail s2))) (fun vs =>
        let '(value, s3) := vs in
        let pairs' := pairs ++ [(key, value)] in
        let s4 := skip_ws s3 in
        if head_is "}"%char s4 then Ok (pairs', tail s4)
        else if negb (head_is ","%char s4) then err "Expecting ',' delimiter"
        else
          let s5 := skip_ws (tail s4) in
          if negb (head_is dquote s5)
          then err "Expecting property name enclosed in double quotes"
          else object_items fuel' pairs' (tail s5)))
  end

(** The loop of [JSONArray], entered at the first character of a value. *)
with array_items (fuel : nat) (values : list json) (s : string)
  : outcome (list json * string) :=
  match fuel with
  | O => NoAnswer
  | S fuel' =>
      obind (scan_once fuel' s) (fun vs =>
      let '(value, s1) := vs in
      let values' := values ++ [value] in
      let s2 := skip_ws s1 in
      if head_is "]"%char s2 then Ok (values', tail s2)
      else if negb (head_is ","%char s2) then err "Expecting ',' delimiter"
      else array_items fuel' values' (skip_ws (tail s2)))
  end.

(** [json.loads(s)]. *)
Definition loads (s : string) : outcome json :=
  obind (scan_once (2 * String.length s + 2) (skip_ws s)) (fun p =>
  match skip_ws (snd p) with
  | EmptyString => Ok (fst p)
  | _ => err "Extra data"
  end).

(** [json.dumps] with its defaults ([ensure_ascii], separators [", "]
    and [": "]). *)
Definition dumps_char (c : ascii) : string :=
  let n := nat_of_ascii c in
  if Ascii.eqb c dquote || Ascii.eqb c backslash
  then String backslash (char1 c)
  else if (n =? 8)%nat then String backslash "b"
  else if (n =? 12)%nat then String backslash "f"
  else if (n =? 10)%nat then String backslash "n"
  else if (n =? 13)%nat then String backslash "r"
  else if (n =? 9)%nat then String backslash "t"
  else if (32 <=? n)%nat && (n <=? 126)%nat then char1 c
  else String backslash
         (String "u" (String "0" (String "0"
            (String (PyRepr.hex_digit (n / 16))
                    (char1 (PyRepr.hex_digit (n mod 16))))))).

Fixpoint dumps_chars (s : string) : string :=
  match s with
  | EmptyString => EmptyString
  | String c s' => (dumps_char c ++ dumps_chars s')%string
  end.

Definition dumps_str (s : string) : string :=
  String dquote (dumps_chars s ++ char1 dquote)%string.

Fixpoint dumps (j : json) : string :=
  match j with
  | JNull => "null"
  | JBool true => "true"
  | JBool false => "false"
  | JInt z => string_of_Z z
  | JStr s => dumps_str s
  | JList l => ("[" ++ join ", " (map dumps l) ++ "]")%string
  | JDict d =>
      ("{" ++ join ", "
                (map (fun kv => let '(k, v) := kv in
                                (dumps_str k ++ ": " ++ dumps v)%string) d)
           ++ "}")%string
  end.

End Json.

Example loads_object :
  Json.loads (dq "{`a`: 1, `b`: [true, null, `x\ny`], `a`: {}} ")
  = Ok (JDict [("a", JDict []);
               ("b", JList [JBool true; JNull;
                            JStr (String "x" (String (ascii_of_nat 10) "y"))])]).
Proof. reflexivity. Qed.

Example dumps_assistant :
  Json.dumps (JDict [("assistant", JStr (dq "Agent `B`"))])
  = dq "{`assistant`: `Agent \`B\``}".
Proof. reflexivity. Qed.

Example loads_bad_quote :
  Json.loads (dq "{`content`: `it`s`}")
  = Raise (JSONDecodeError "Expecting ',' delimiter").
Proof. reflexivity. Qed.

(** ** The monad of effectful code *)

(** A computation reads and writes a state [S] (the outside world: the
    backend behind the client, whatever the tool functions touch) and ends
    with an [outcome]. *)
Definition M (S A : Type) : Type := S -> outcome A * S.

Definition ret {S A} (a : A) : M S A := fun w => (Ok a, w).

Definition raise {S A} (e : exn) : M S A := fun w => (Raise e, w).

Definition lift {S A} (o : outcome A) : M S A := fun w => (o, w).

Definition bind {S A B} (m : M S A) (k : A -> M S B) : M S B :=
  fun w =>
    match m w with
    | (Ok a, w') => k a w'
    | (Raise e, w') => (Raise e, w')
    | (NoAnswer, w') => (NoAnswer, w')
    end.

(** [try: m except Exception as e: h e]. *)
Definition try_except {S A} (m : M S A) (h : exn -> M S A) : M S A :=
  fun w =>
    match m w with
    | (Raise e, w') => h e w'
    | r => r
    end.

Declare Scope monad_scope.
Delimit Scope monad_scope with monad.
Notation "x <- m ;; k" := (bind m (fun x => k))
  (at level 61, m at next level, right associativity) : monad_scope.
Notation "' p <- m ;; k" := (bind m (fun x => let 'p := x in k))
  (at level 61, p pattern, m at next level, right associativity) : monad_scope.
Open Scope monad_scope.

Lemma bind_ok {S A B} (m : M S A) (k : A -> M S B) w a w' :
  m w = (Ok a, w') -> bind m k w = k a w'.
Proof. unfold bind. intros ->. reflexivity. Qed.

Lemma bind_raise {S A B} (m : M S A) (k : A -> M S B) w e w' :
  m w = (Raise e, w') -> bind m k w = (Raise e, w').
Proof. unfold bind. intros ->. reflexivity. Qed.

Lemma bind_ext {S A B} (m : M S A) (k1 k2 : A -> M S B) w :
  (forall a w', k1 a w' = k2 a w') -> bind m k1 w = bind m k2 w.
Proof.
  intros H. unfold bind. destruct (m w) as [[a | e |] w']; auto.
Qed.

Lemma bind_assoc {S A B C} (m : M S A) (k : A -> M S B) (h : B -> M S C) w :
  bind (bind m k) h w = bind m (fun a => bind (k a) h) w.
Proof. unfold bind. destruct (m w) as [[a | e |] w']; reflexivity. Qed.

(** ** The data model *)

Definition __CTX_VARS_NAME__ : string := "context_variables".

(** A history entry, a delta and the arguments of a call are dicts of JSON
    values. *)
Definition Message : Type := pydict json.

(** A tool call of the model: [ChatCompletionMessageToolCall] with its
    [Function]. *)
Record Function : Type := mkFunction {
  fn_arguments : string;
  fn_name : string
}.

Record ChatCompletionMessageToolCall : Type := mkToolCall {
  tc_id : string;
  tc_function : Function;
  tc_type : string
}.

(** The message of a completion, with the fields that the client library
    declares and the extra attribute [sender] that [run] sets. *)
Record ChatCompletionMessage : Type := mkMessage {
  msg_content : option string;
  msg_refusal : option string;
  msg_role : string;
  msg_function_call : json;
  msg_tool_calls : option (list ChatCompletionMessageToolCall);
  msg_sender : option string
}.

Definition json_of_opt (o : option string) : json :=
  match o with Some s => JStr s | None => JNull end.

Definition dump_tool_call (tc : ChatCompletionMessageToolCall) : json :=
  JDict [("id", JStr (tc_id tc));
         ("function", JDict [("arguments", JStr (fn_arguments (tc_function tc)));
                             ("name", JStr (fn_name (tc_function tc)))]);
         ("type", JStr (tc_type tc))].

(** [json.loads(message.model_dump_json())]: the declared fields in their
    order, then the extra attribute when it is set.  On these values the
    way through the JSON text gives the dict back. *)
Definition model_dump (m : ChatCompletionMessage) : Message :=
  [("content", json_of_opt (msg_content m));
   ("refusal", json_of_opt (msg_refusal m));
   ("role", JStr (msg_role m));
   ("function_call", msg_function_call m);
   ("tool_calls", match msg_tool_calls m with
                  | Some tcs => JList (map dump_tool_call tcs)
                  | None => JNull
                  end)]
  ++ match msg_sender m with
     | Some s => [("sender", JStr s)]
     | None => []
     end.

(** What the client answers: a completion with its choices, or, for a
    streamed request, the chunks, each with the deltas of its choices
    ([json.loads(chunk.choices[i].delta.json())]). *)
Inductive Completion : Type :=
| ChatCompletion (choices : list ChatCompletionMessage)
| ChatStream (chunks : list (list Message)).

(** Modelled from the spec: the tool descriptor of the introspector,
    [{name, description, parameters: {properties, required}}] (section 6);
    [function_to_json] itself is taken as a parameter below. *)
Record Parameters : Type := mkParameters {
  properties : pydict json;
  required : list string
}.

Record ToolFunction : Type := mkToolFunction {
  tf_name : string;
  tf_description : string;
  parameters : Parameters
}.

Record Tool : Type := mkTool {
  tool_type : string;
  tool_function : ToolFunction
}.

(** A value of the request dict [create_params]. *)
Inductive param : Type :=
| PNone
| PBool (b : bool)
| PStr (s : string)
| PMessages (l : list Message)
| PTools (l : list Tool)
| PJson (j : json).

(** A value a tool function may return that is neither a [Result] nor an
    [Agent]: what [str] and [format] make of it. *)
Record PyObject : Type := mkPyObject {
  py_str : outcome string;
  py_format : outcome string
}.

Definition py_string (s : string) : PyObject :=
  {| py_str := Ok s; py_format := Ok s |}.

Section Engine.

(** The state of the outside world. *)
Variable World : Type.

Local Abbreviation M := (M World).

(** The client: [client.chat.completions.create], called with the items
    of [create_params] as keyword arguments. *)
Definition Client : Type := pydict param -> M Completion.

(** Modelled from the spec: the entities [Result], [Agent] and
    [Response] of [swarm/types.py] (section 3 of the specification). *)
Record Result_ (A : Type) : Type := mkResult {
  result_value : string;
  result_agent : option A;
  result_context_variables : pydict json
}.

(** The raw value that a tool function returns. *)
Inductive raw_ (A : Type) : Type :=
| RawResult (r : Result_ A)
| RawAgent (a : A)
| RawOther (o : PyObject).

Arguments RawOther {A} o.

(** A tool function: its [__name__], the [co_varnames] of its code
    object and what a call with keyword arguments does. *)
Record AgentFunction_ (A : Type) : Type := mkAgentFunction {
  __name__ : string;
  co_varnames : list string;
  call : pydict json -> M (raw_ A)
}.

Inductive Instructions : Type :=
| InstructionsStr (s : string)
| InstructionsFn (f : pydict json -> M string).

Inductive Agent : Type := mkAgent {
  agent_name : string;
  agent_model : option string;
  agent_instructions : Instructions;
  agent_functions : list (AgentFunction_ Agent);
  agent_tool_choice : option string;
  agent_parallel_tool_calls : bool
}.

Definition Result : Type := Result_ Agent.
Definition raw : Type := raw_ Agent.
Definition AgentFunction : Type := AgentFunction_ Agent.

Record Response : Type := mkResponse {
  response_messages : list Message;
  response_agent : option Agent;
  response_context_variables : pydict json
}.

Record Swarm : Type := mkSwarm {
  mode : string;
  client : option Client
}.

(** *** Construction *)

(** The constructor of the client library, [OpenAI(api_key=...,
    base_url=...)]; without arguments it reads its key from the
    environment and may raise. *)
Variable OpenAI : option string -> option string -> outcome Client.

Definition __init__ (client : option Client) (mode : string)
    (GEMINI_API_KEY : string) : outcome Swarm :=
  if negb (Str.truthy mode)
  then Raise (ValueError "Please set mode (e.g., openai, gemini, ollama).")
  else
    obind
      (match client with
       | Some c => Ok (Some c)
       | None =>
           if mode =? "ollama" then
             obind (OpenAI (Some "ollama") (Some "http://localhost:11434/v1"))
                   (fun c => Ok (Some c))
           else if mode =? "gemini" then
             if Str.truthy GEMINI_API_KEY then
               obind (OpenAI (Some GEMINI_API_KEY)
                        (Some "https://generativelanguage.googleapis.com/v1beta/openai/"))
                     (fun c => Ok (Some c))
             else Raise (ValueError "Please provide GEMINI_API_KEY !")
           else if mode =? "openai" then
             obind (OpenAI None None) (fun c => Ok (Some c))
           else Ok None
       end)
      (fun c => Ok {| mode := mode; client := c |}).

(** *** Building and sending the request *)

(** The introspector [function_to_json] of [swarm/util.py]. *)
Variable function_to_json : AgentFunction -> Tool.

Definition model_error : exn :=
  ValueError "Please provide either the agent model name or model_override that is compatible with the current mode.".

(** The body of the loop that hides [context_variables] from the model. *)
Definition hide_context_variables (tool : Tool) : Tool :=
  let params := parameters (tool_function tool) in
  let properties' := dict_pop __CTX_VARS_NAME__ (properties params) in
  let required' :=
    if list_mem __CTX_VARS_NAME__ (required params)
    then list_remove __CTX_VARS_NAME__ (required params)
    else required params in
  {| tool_type := tool_type tool;
     tool_function :=
       {| tf_name := tf_name (tool_function tool);
          tf_description := tf_description (tool_function tool);
          parameters := {| properties := properties'; required := required' |} |} |}.

Definition build_tools (agent : Agent) : list Tool :=
  map hide_context_variables (map function_to_json (agent_functions agent)).

Definition param_of_opt (o : option string) : param :=
  match o with Some s => PStr s | None => PNone end.

(** [self.client.chat.completions.create]; an engine without a client
    fails on the attribute access. *)
Definition create (self : Swarm) (create_params : pydict param) : M Completion :=
  match client self with
  | Some c => c create_params
  | None => raise (AttributeError "'NoneType' object has no attribute 'chat'")
  end.

(** Lines 57 to 84 of [get_chat_completion]: the request dict, with the
    tools it was built from. *)
Definition build_request (agent : Agent) (history : list Message)
    (context_variables : pydict json) (model_override : option string)
    (stream : bool) (model_config : pydict param)
  : M (pydict param * list Tool) :=
  instructions <-
    match agent_instructions agent with
    | InstructionsFn f => f context_variables
    | InstructionsStr s => ret s
    end ;;
  let messages :=
    [("role", JStr "system"); ("content", JStr instructions)] :: history in
  let tools := build_tools agent in
  if negb (Str.opt_truthy (agent_model agent))
     && negb (Str.opt_truthy model_override)
  then raise model_error
  else
    let create_params :=
      [("model", param_of_opt (if Str.opt_truthy model_override
                               then model_override else agent_model agent));
       ("messages", PMessages messages);
       ("tools", match tools with [] => PNone | _ => PTools tools end);
       ("tool_choice", param_of_opt (agent_tool_choice agent));
       ("stream", PBool stream)] in
    ret (dict_update create_params model_config, tools).

(** Lines 86 to 107 of [get_chat_completion]: the call of the client by
    mode.  In the first branch the handler of [Exception] runs the
    second call outside any [try]; the clause for [ValueError] that
    follows it in the source can never be entered.  A mode that is none
    of the three leaves the function without a value: [None]. *)
Definition invoke (self : Swarm) (agent : Agent) (tools : list Tool)
    (create_params : pydict param) : M (option Completion) :=
  if Str.in_tuple (mode self) ["ollama"; "openai"] then
    let create_params :=
      match tools with
      | [] => create_params
      | _ => dict_set "parallel_tool_calls"
               (PBool (agent_parallel_tool_calls agent)) create_params
      end in
    try_except
      (c <- create self create_params ;; ret (Some c))
      (fun e =>
         let create_params := dict_set "tools" PNone create_params in
         let create_params := dict_set "tool_choice" PNone create_params in
         c <- create self create_params ;; ret (Some c))
  else if mode self =? "gemini" then
    try_except
      (c <- create self create_params ;; ret (Some c))
      (fun _ => raise model_error)
  else ret None.

Definition get_chat_completion (self : Swarm) (agent : Agent)
    (history : list Message) (context_variables : pydict json)
    (model_override : option string) (stream : bool)
    (model_config : pydict param) : M (option Completion) :=
  '(create_params, tools) <-
    build_request agent history context_variables model_override stream
      model_config ;;
  invoke self agent tools create_params.

(** *** The result normaliser *)

(** [str(e)] of an exception. *)
Definition exn_str (e : exn) : string :=
  match e with
  | KeyError k => PyRepr.repr_str k
  | ValueError m | TypeError m | IndexError m | AttributeError m
  | JSONDecodeError m | OtherError m => m
  end.

(** The third case formats [result] into the message of the
    [TypeError]; when that formatting raises too, its exception leaves
    the handler. *)
Definition handle_function_result (result : raw) : outcome Result :=
  match result with
  | RawResult result => Ok result
  | RawAgent agent =>
      Ok {| result_value :=
              Json.dumps (JDict [("assistant", JStr (agent_name agent))]);
            result_agent := Some agent;
            result_context_variables := [] |}
  | RawOther o =>
      match py_str o with
      | Ok s => Ok {| result_value := s; result_agent := None;
                      result_context_variables := [] |}
      | Raise e =>
          obind (py_format o) (fun shown =>
          Raise (TypeError
                   ("Failed to cast response to string: " ++ shown
                    ++ ". Make sure agent functions return a string or Result object. Error: "
                    ++ exn_str e)%string))
      | NoAnswer => NoAnswer
      end
  end.

(** *** The tool-call dispatcher *)

(** [{f.__name__: f for f in functions}]. *)
Definition build_function_map (functions : list AgentFunction)
  : pydict AgentFunction :=
  dict_of_pairs (map (fun f => (__name__ f, f)) functions).

Definition append_message (partial_response : Response) (m : Message)
  : Response :=
  {| response_messages := response_messages partial_response ++ [m];
     response_agent := response_agent partial_response;
     response_context_variables :=
       response_context_variables partial_response |}.

Definition missing_tool_content (name : string) : string :=
  ("Error: Tool " ++ name ++ " not found.")%string.

(** [args[__CTX_VARS_NAME__] = context_variables] on what [json.loads]
    gave. *)
Definition inject_context_variables (context_variables : pydict json)
    (args : json) : outcome json :=
  match args with
  | JDict d => Ok (JDict (dict_set __CTX_VARS_NAME__ (JDict context_variables) d))
  | JList _ => Raise (TypeError "list indices must be integers or slices, not str")
  | _ => Raise (TypeError "object does not support item assignment")
  end.

(** The call of [func] with the items of [args] as keyword arguments. *)
Definition call_with (func : AgentFunction) (args : json) : M raw :=
  match args with
  | JDict d => call func d
  | _ => raise (TypeError "argument after ** must be a mapping")
  end.

Definition tool_result_content (name value : string) (args : json) : string :=
  ("Tool " ++ name ++ " returned: " ++ value ++ ". "
   ++ char1 (ascii_of_nat 10) ++ "Tool_call args: " ++ PyRepr.repr args)%string.

(** Lines 164 to 174: the arguments are decoded, the context variables
    are passed to a function that names them, the function is called and
    what it returns is normalised. *)
Definition call_tool (function_map : pydict AgentFunction)
    (context_variables : pydict json)
    (tool_call : ChatCompletionMessageToolCall) : M (json * Result) :=
  let name := fn_name (tc_function tool_call) in
  args <- lift (Json.loads (fn_arguments (tc_function tool_call))) ;;
  func <- match dict_get name function_map with
          | Some f => ret f
          | None => raise (KeyError name)
          end ;;
  args <- (if list_mem __CTX_VARS_NAME__ (co_varnames func)
           then lift (inject_context_variables context_variables args)
           else ret args) ;;
  raw_result <- call_with func args ;;
  result <- lift (handle_function_result raw_result) ;;
  ret (args, result).

(** Lines 176 to 196: the message of the result by mode, then the
    updates of the context variables and of the agent. *)
Definition record_result (self : Swarm) (partial_response : Response)
    (tool_call : ChatCompletionMessageToolCall) (args : json)
    (result : Result) : Response :=
  let name := fn_name (tc_function tool_call) in
  let partial_response :=
    if Str.in_tuple (mode self) ["ollama"; "openai"] then
      append_message partial_response
        [("role", JStr "tool");
         ("tool_call_id", JStr (tc_id tool_call));
         ("tool_name", JStr name);
         ("content", JStr (result_value result))]
    else if Str.contains (mode self) "gemini" then
      append_message partial_response
        [("role", JStr "assistant");
         ("content", JStr (tool_result_content name (result_value result) args))]
    else partial_response in
  {| response_messages := response_messages partial_response;
     response_agent :=
       match result_agent result with
       | Some a => Some a
       | None => response_agent partial_response
       end;
     response_context_variables :=
       dict_update (response_context_variables partial_response)
         (result_context_variables result) |}.

(** The message for a tool that is not in the function map, by mode;
    none when the mode is of neither family. *)
Definition missing_tool_message (self : Swarm)
    (tool_call : ChatCompletionMessageToolCall) : option Message :=
  let name := fn_name (tc_function tool_call) in
  if Str.in_tuple (mode self) ["ollama"; "openai"] then
    Some [("role", JStr "tool");
          ("tool_call_id", JStr (tc_id tool_call));
          ("tool_name", JStr name);
          ("content", JStr (missing_tool_content name))]
  else if Str.contains (mode self) "gemini" then
    Some [("role", JStr "assistant");
          ("content", JStr (missing_tool_content name))]
  else None.

(** One pass through the body of the loop of [handle_tool_calls].  A
    missing tool gets its message and the loop goes on ([continue]); in
    a mode of neither family nothing is appended and the body goes on to
    the call. *)
Definition handle_tool_call (self : Swarm)
    (function_map : pydict AgentFunction) (context_variables : pydict json)
    (partial_response : Response) (tool_call : ChatCompletionMessageToolCall)
  : M Response :=
  let name := fn_name (tc_function tool_call) in
  match (if dict_mem name function_map then None
         else missing_tool_message self tool_call) with
  | Some m => ret (append_message partial_response m)
  | None =>
      '(args, result) <- call_tool function_map context_variables tool_call ;;
      ret (record_result self partial_response tool_call args result)
  end.

(** [for x in l: acc = body acc x], an exception ending the loop. *)
Fixpoint for_each {A B : Type} (body : B -> A -> M B) (l : list A) (acc : B)
  : M B :=
  match l with
  | [] => ret acc
  | x :: l' => acc' <- body acc x ;; for_each body l' acc'
  end.

Definition handle_tool_calls (self : Swarm)
    (tool_calls : list ChatCompletionMessageToolCall)
    (functions : list AgentFunction) (context_variables : pydict json)
  : M Response :=
  let function_map := build_function_map functions in
  let partial_response :=
    {| response_messages := []; response_agent := None;
       response_context_variables := [] |} in
  for_each (handle_tool_call self function_map context_variables)
    tool_calls partial_response.

(** *** The stream accumulator *)

(** Modelled from the spec: [merge_chunk] of [swarm/util.py], the stream
    accumulator of section 4.4.  A string fragment is concatenated onto
    the string already there and set when none is there yet; a dict is
    merged field by field; a field that the fragment carries as [None]
    is left alone; another scalar is set when the field is not there
    yet. *)
Fixpoint merge_value (target source : json) {struct source} : json :=
  match source with
  | JNull => target
  | JStr s =>
      match target with
      | JStr t => JStr (t ++ s)
      | _ => JStr s
      end
  | JDict d =>
      JDict (fold_left
               (fun acc kv =>
                  let '(k, v) := kv in
                  match v with
                  | JNull => acc
                  | _ => dict_set k
                           (merge_value
                              (match dict_get k acc with
                               | Some t => t
                               | None => JNull
                               end) v) acc
                  end)
               d
               (match target with JDict td => td | _ => [] end))
  | _ => match target with JNull => source | _ => target end
  end.

Definition merge_fields (target source : Message) : Message :=
  match merge_value (JDict target) (JDict source) with
  | JDict d => d
  | _ => target
  end.

(** The entry that the [defaultdict] of [run_and_stream] makes for an
    index seen for the first time. *)
Definition new_tool_call : json :=
  JDict [("function", JDict [("arguments", JStr ""); ("name", JStr "")]);
         ("id", JStr ""); ("type", JStr "")].

(** The fragments of tool calls are merged each into the entry of its
    index; the [defaultdict] keyed by the index is a dict keyed by the
    index in decimal. *)
Definition merge_tool_call (calls : pydict json) (fragment : json)
  : outcome (pydict json) :=
  match fragment with
  | JDict f =>
      match dict_get "index" f with
      | Some (JInt i) =>
          let key := string_of_Z i in
          let entry := match dict_get key calls with
                       | Some e => e
                       | None => new_tool_call
                       end in
          Ok (dict_set key (merge_value entry (JDict (dict_pop "index" f))) calls)
      | _ => Raise (KeyError "index")
      end
  | _ => Raise (TypeError "tool-call fragment is not a dict")
  end.

Fixpoint merge_tool_calls (calls : pydict json) (fragments : list json)
  : outcome (pydict json) :=
  match fragments with
  | [] => Ok calls
  | f :: fragments' =>
      obind (merge_tool_call calls f) (fun calls' =>
      merge_tool_calls calls' fragments')
  end.

Definition merge_chunk (final_response delta : Message) : outcome Message :=
  let merged := merge_fields final_response (dict_pop "tool_calls" delta) in
  match dict_get "tool_calls" delta with
  | Some (JList fragments) =>
      let calls := match dict_get "tool_calls" merged with
                   | Some (JDict c) => c
                   | _ => []
                   end in
      obind (merge_tool_calls calls fragments) (fun calls' =>
      Ok (dict_set "tool_calls" (JDict calls') merged))
  | _ => Ok merged
  end.

(** *** The turn loop *)

(** [max_turns]: an integer, or [float("inf")] by default. *)
Inductive turns : Type :=
| Turns (n : Z)
| Infinity.

(** [len(history) - init_len < max_turns], from the two lengths. *)
Definition turns_left (len_history init_len : nat) (max_turns : turns) : bool :=
  match max_turns with
  | Turns n => (Z.of_nat len_history - Z.of_nat init_len <? n)%Z
  | Infinity => true
  end.

(** What the loop carries from one turn to the next. *)
Record loop_state : Type := mkLoop {
  l_active_agent : Agent;
  l_context_variables : pydict json;
  l_history : list Message
}.

(** The end of a turn with tool calls: the dispatch and what it changes. *)
Definition dispatch_turn (self : Swarm) (st : loop_state)
    (tool_calls : list ChatCompletionMessageToolCall) : M loop_state :=
  partial_response <-
    handle_tool_calls self tool_calls (agent_functions (l_active_agent st))
      (l_context_variables st) ;;
  ret {| l_active_agent :=
           match response_agent partial_response with
           | Some a => a
           | None => l_active_agent st
           end;
         l_context_variables :=
           dict_update (l_context_variables st)
             (response_context_variables partial_response);
         l_history := l_history st ++ response_messages partial_response |}.

(** [completion.choices[0].message]. *)
Definition first_message (completion : option Completion)
  : outcome ChatCompletionMessage :=
  match completion with
  | Some (ChatCompletion (m :: _)) => Ok m
  | Some (ChatCompletion []) => Raise (IndexError "list index out of range")
  | Some (ChatStream _) =>
      Raise (AttributeError "'Stream' object has no attribute 'choices'")
  | None =>
      Raise (AttributeError "'NoneType' object has no attribute 'choices'")
  end.

Definition set_sender (m : ChatCompletionMessage) (sender : string)
  : ChatCompletionMessage :=
  {| msg_content := msg_content m; msg_refusal := msg_refusal m;
     msg_role := msg_role m; msg_function_call := msg_function_call m;
     msg_tool_calls := msg_tool_calls m; msg_sender := Some sender |}.

(** The history entry of the mode ["gemini"]: the dumped message written
    out with [str] and patched into a JSON text. *)
Definition gemini_content (m : ChatCompletionMessage) : string :=
  Str.replace "None" "null"
    (Str.replace (char1 squote) (char1 dquote)
       (PyRepr.repr (JDict (model_dump m)))).

(** The entry that [run] appends for the message of a completion; none
    when the mode is of neither family. *)
Definition history_entry (self : Swarm) (m : ChatCompletionMessage)
  : option Message :=
  if Str.in_tuple (mode self) ["openai"; "ollama"]
  then Some (model_dump m)
  else if Str.contains (mode self) "gemini"
  then Some [("role", JStr (msg_role m)); ("content", JStr (gemini_content m))]
  else None.

Definition update_history (self : Swarm) (history : list Message)
    (m : ChatCompletionMessage) : list Message :=
  match history_entry self m with
  | Some entry => history ++ [entry]
  | None => history
  end.

Definition tool_calls_truthy (o : option (list ChatCompletionMessageToolCall))
  : bool :=
  match o with
  | Some (_ :: _) => true
  | _ => false
  end.

(** The [while] loop of [run].  The test of the loop is made before
    fuel is asked for; an [Agent] is always truthy. *)
Fixpoint run_loop (fuel : nat) (self : Swarm)
    (model_override : option string) (model_config : pydict param)
    (max_turns : turns) (execute_tools : bool) (init_len : nat)
    (st : loop_state) : M loop_state :=
  if negb (turns_left (length (l_history st)) init_len max_turns) then ret st
  else
    match fuel with
    | O => lift NoAnswer
    | S fuel' =>
        completion <-
          get_chat_completion self (l_active_agent st) (l_history st)
            (l_context_variables st) model_override false model_config ;;
        m <- lift (first_message completion) ;;
        let m := set_sender m (agent_name (l_active_agent st)) in
        let st := {| l_active_agent := l_active_agent st;
                     l_context_variables := l_context_variables st;
                     l_history := update_history self (l_history st) m |} in
        if negb (tool_calls_truthy (msg_tool_calls m)) || negb execute_tools
        then ret st
        else
          st' <- dispatch_turn self st
                   (match msg_tool_calls m with Some l => l | None => [] end) ;;
          run_loop fuel' self model_override model_config max_turns
            execute_tools init_len st'
    end.

(** [json.loads(text)["content"]] and [.strip()] on it. *)
Definition unwrap_content (content : json) : outcome string :=
  match content with
  | JStr text =>
      obind (Json.loads text) (fun decoded =>
      match decoded with
      | JDict d =>
          match dict_get "content" d with
          | Some (JStr last_content) => Ok (Str.strip last_content)
          | Some _ => Raise (AttributeError "object has no attribute 'strip'")
          | None => Raise (KeyError "content")
          end
      | JList _ => Raise (TypeError "list indices must be integers or slices, not str")
      | JStr _ => Raise (TypeError "string indices must be integers, not 'str'")
      | _ => Raise (TypeError "object is not subscriptable")
      end)
  | _ => Raise (TypeError "the JSON object must be str, bytes or bytearray")
  end.

(** The post-processing of the last output for Gemini: the last entry of
    [history[init_len:]] is a dict of [history] itself and is changed in
    place. *)
Definition postprocess (init_len : nat) (history : list Message)
  : outcome (list Message) :=
  match rev (skipn init_len history) with
  | [] => Raise (IndexError "list index out of range")
  | last :: _ =>
      match dict_get "content" last with
      | None => Raise (KeyError "content")
      | Some content =>
          obind (unwrap_content content) (fun stripped =>
          Ok (removelast history ++ [dict_set "content" (JStr stripped) last]))
      end
  end.

(** What the generator of [run_and_stream] yields: a dict (a delimiter
    or a delta, as it is when it is yielded) or the final response. *)
Inductive item : Type :=
| YieldDict (d : Message)
| YieldResponse (r : Response).

(** The dict that a turn of [run_and_stream] starts from; its sender is
    the name of [agent], the argument of the call. *)
Definition new_stream_message (agent : Agent) : Message :=
  [("content", JStr "");
   ("sender", JStr (agent_name agent));
   ("role", JStr "assistant");
   ("function_call", JNull);
   ("tool_calls", JDict [])].

(** The body of [for chunk in completion]. *)
Definition handle_chunk (active : Agent) (acc : Message * list item)
    (chunk : list Message) : M (Message * list item) :=
  let '(message, out) := acc in
  delta <- match chunk with
           | d :: _ => ret d
           | [] => raise (IndexError "list index out of range")
           end ;;
  role <- match dict_get "role" delta with
          | Some r => ret r
          | None => raise (KeyError "role")
          end ;;
  let delta := match role with
               | JStr "assistant" =>
                   dict_set "sender" (JStr (agent_name active)) delta
               | _ => delta
               end in
  let out := out ++ [YieldDict delta] in
  let delta := dict_pop "sender" (dict_pop "role" delta) in
  message <- lift (merge_chunk message delta) ;;
  ret (message, out).

(** [for chunk in completion]: only a stream is iterated chunk by chunk. *)
Definition chunks_of (completion : option Completion)
  : outcome (list (list Message)) :=
  match completion with
  | Some (ChatStream chunks) => Ok chunks
  | Some (ChatCompletion _) =>
      Raise (AttributeError "'tuple' object has no attribute 'choices'")
  | None => Raise (TypeError "'NoneType' object is not iterable")
  end.

(** [list(message.get("tool_calls", {}).values())], [None] when empty. *)
Definition close_tool_calls (message : Message) : outcome Message :=
  match dict_get "tool_calls" message with
  | Some (JDict calls) =>
      Ok (dict_set "tool_calls"
            (match calls with
             | [] => JNull
             | _ => JList (map snd calls)
             end) message)
  | None => Ok (dict_set "tool_calls" JNull message)
  | Some _ => Raise (AttributeError "object has no attribute 'values'")
  end.

Definition str_field (k : string) (d : pydict json) : outcome string :=
  match dict_get k d with
  | Some (JStr s) => Ok s
  | Some _ => Raise (OtherError "ValidationError")
  | None => Raise (KeyError k)
  end.

(** The conversion of a dict of [message["tool_calls"]] to an object. *)
Definition tool_call_object (tool_call : json)
  : outcome ChatCompletionMessageToolCall :=
  match tool_call with
  | JDict tc =>
      match dict_get "function" tc with
      | Some (JDict f) =>
          obind (str_field "arguments" f) (fun arguments =>
          obind (str_field "name" f) (fun name =>
          obind (str_field "id" tc) (fun id =>
          obind (str_field "type" tc) (fun type =>
          Ok {| tc_id := id;
                tc_function := {| fn_arguments := arguments; fn_name := name |};
                tc_type := type |}))))
      | Some _ => Raise (TypeError "object is not subscriptable")
      | None => Raise (KeyError "function")
      end
  | _ => Raise (TypeError "object is not subscriptable")
  end.

Fixpoint tool_call_objects (l : list json)
  : outcome (list ChatCompletionMessageToolCall) :=
  match l with
  | [] => Ok []
  | tc :: l' =>
      obind (tool_call_object tc) (fun o =>
      obind (tool_call_objects l') (fun os => Ok (o :: os)))
  end.

(** The [while] loop of [run_and_stream]; [out] collects what is
    yielded. *)
Fixpoint stream_loop (fuel : nat) (self : Swarm) (agent : Agent)
    (model_override : option string) (model_config : pydict param)
    (max_turns : turns) (execute_tools : bool) (init_len : nat)
    (st : loop_state) (out : list item) : M (loop_state * list item) :=
  if negb (turns_left (length (l_history st)) init_len max_turns)
  then ret (st, out)
  else
    match fuel with
    | O => lift NoAnswer
    | S fuel' =>
        let message := new_stream_message agent in
        completion <-
          get_chat_completion self (l_active_agent st) (l_history st)
            (l_context_variables st) model_override true model_config ;;
        let out := out ++ [YieldDict [("delim", JStr "start")]] in
        chunks <- lift (chunks_of completion) ;;
        '(message, out) <-
          for_each (handle_chunk (l_active_agent st)) chunks (message, out) ;;
        let out := out ++ [YieldDict [("delim", JStr "end")]] in
        message <- lift (close_tool_calls message) ;;
        let st := {| l_active_agent := l_active_agent st;
                     l_context_variables := l_context_variables st;
                     l_history := l_history st ++ [message] |} in
        match dict_get "tool_calls" message with
        | Some (JList (tc :: tcs)) =>
            if negb execute_tools then ret (st, out)
            else
              tool_calls <- lift (tool_call_objects (tc :: tcs)) ;;
              st' <- dispatch_turn self st tool_calls ;;
              stream_loop fuel' self agent model_override model_config
                max_turns execute_tools init_len st' out
        | _ => ret (st, out)
        end
    end.

(** [run_and_stream], the generator run to its end: what it yields, in
    order.  The inputs are deep-copied; on values the copy is the
    value. *)
Definition run_and_stream (fuel : nat) (self : Swarm) (agent : Agent)
    (messages : list Message) (context_variables : pydict json)
    (model_override : option string) (model_config : pydict param)
    (max_turns : turns) (execute_tools : bool) : M (list item) :=
  let st := {| l_active_agent := agent;
               l_context_variables := context_variables;
               l_history := messages |} in
  let init_len := length messages in
  '(st, out) <-
    stream_loop fuel self agent model_override model_config max_turns
      execute_tools init_len st [] ;;
  ret (out ++ [YieldResponse
                 {| response_messages := skipn init_len (l_history st);
                    response_agent := Some (l_active_agent st);
                    response_context_variables := l_context_variables st |}]).

(** What [run] gives back: a response, or, with [stream], the generator
    of [run_and_stream]. *)
Inductive run_output : Type :=
| Returned (r : Response)
| Generator (items : list item).

Definition run (fuel : nat) (self : Swarm) (agent : Agent)
    (messages : list Message) (context_variables : pydict json)
    (model_override : option string) (model_config : pydict param)
    (stream : bool) (max_turns : turns) (execute_tools : bool)
  : M run_output :=
  if stream then
    items <- run_and_stream fuel self agent messages context_variables
               model_override model_config max_turns execute_tools ;;
    ret (Generator items)
  else
    let st := {| l_active_agent := agent;
                 l_context_variables := context_variables;
                 l_history := messages |} in
    let init_len := length messages in
    st <- run_loop fuel self model_override model_config max_turns
            execute_tools init_len st ;;
    history <- (if Str.contains (mode self) "gemini"
                then lift (postprocess init_len (l_history st))
                else ret (l_history st)) ;;
    ret (Returned
           {| response_messages := skipn init_len history;
              response_agent := Some (l_active_agent st);
              response_context_variables := l_context_variables st |}).

End Engine.

Arguments RawOther {A} o.
Arguments InstructionsStr {World} s.
Arguments YieldDict {World} d.

(** * The objects of a run

    The embedding above works on values.  To see what a run does to the
    objects of its caller, the same loops are written once more over a
    store: the list of messages and the dict of context variables that the
    caller passes are objects at addresses, [copy.deepcopy] allocates new
    ones, and [append], [extend], [update] and the assignment of an item
    write at an address.  An object is a list of addresses or a dict of
    JSON values; a dict that is built during a turn is allocated when it
    enters the history.  The client and the tool functions act on the
    outside world as before: they are given the values of the objects. *)

Module Store.

Inductive obj : Type :=
| OList (items : list nat)
| ODict (d : pydict json).

Definition heap : Type := list obj.

(** [h[l] = o]. *)
Fixpoint set_nth (l : nat) (o : obj) (h : heap) : heap :=
  match h, l with
  | [], _ => []
  | _ :: h', O => o :: h'
  | x :: h', S l' => x :: set_nth l' o h'
  end.

Section Objects.
Variable World : Type.

(** The state: the outside world and the objects. *)
Definition St : Type := (World * heap)%type.

Local Abbreviation MW := (M World).
Local Abbreviation M := (M St).

Definition alloc (o : obj) : M nat :=
  fun s => (Ok (length (snd s)), (fst s, snd s ++ [o])).

(** An address that holds no object has no answer in the embedding. *)
Definition read (l : nat) : M obj :=
  fun s =>
    match nth_error (snd s) l with
    | Some o => (Ok o, s)
    | None => (NoAnswer, s)
    end.

Definition write (l : nat) (o : obj) : M unit :=
  fun s =>
    match nth_error (snd s) l with
    | Some _ => (Ok tt, (fst s, set_nth l o (snd s)))
    | None => (NoAnswer, s)
    end.

(** Code of the value embedding, which leaves the objects alone. *)
Definition external {A : Type} (m : MW A) : M A :=
  fun s => let (r, w') := m (fst s) in (r, (w', snd s)).

Definition read_list (l : nat) : M (list nat) :=
  o <- read l ;;
  match o with
  | OList items => ret items
  | ODict _ => lift NoAnswer
  end.

Definition read_dict (l : nat) : M (pydict json) :=
  o <- read l ;;
  match o with
  | ODict d => ret d
  | OList _ => lift NoAnswer
  end.

(** The values of the dicts of a list. *)
Definition snapshot (l : nat) : M (list Message) :=
  items <- read_list l ;;
  for_each (fun acc x => d <- read_dict x ;; ret (acc ++ [d])) items [].

(** [copy.deepcopy] of a dict and of a list of dicts. *)
Definition deepcopy_dict (l : nat) : M nat :=
  d <- read_dict l ;; alloc (ODict d).

Definition deepcopy_list (l : nat) : M nat :=
  items <- read_list l ;;
  copies <- for_each (fun acc x => c <- deepcopy_dict x ;; ret (acc ++ [c]))
              items [] ;;
  alloc (OList copies).

(** [l.extend(xs)]; [l.append(x)] is [l.extend([x])]. *)
Definition list_extend (l : nat) (xs : list nat) : M unit :=
  items <- read_list l ;; write l (OList (items ++ xs)).

(** The dicts of a list of values, allocated in order. *)
Definition alloc_dicts (ds : list Message) : M (list nat) :=
  for_each (fun acc d => x <- alloc (ODict d) ;; ret (acc ++ [x])) ds [].

Variable function_to_json : AgentFunction World -> Tool.

Record loop_state : Type := mkLoop {
  l_active_agent : Agent World;
  l_context_variables : nat;
  l_history : nat
}.

(** A response holds the addresses of its messages and of its mapping. *)
Record ResponseRef : Type := mkResponseRef {
  ref_messages : list nat;
  ref_agent : option (Agent World);
  ref_context_variables : nat
}.

Inductive yield : Type :=
| YDict (d : Message)
| YResponse (r : ResponseRef).

Inductive output : Type :=
| Returns (r : ResponseRef)
| Generates (items : list yield).

(** [history.extend(partial_response.messages)],
    [context_variables.update(partial_response.context_variables)] and the
    change of agent. *)
Definition dispatch_turn (self : Swarm World) (st : loop_state)
    (tool_calls : list ChatCompletionMessageToolCall) : M loop_state :=
  context_variables <- read_dict (l_context_variables st) ;;
  partial_response <-
    external (handle_tool_calls self tool_calls
                (agent_functions (l_active_agent st)) context_variables) ;;
  entries <- alloc_dicts (response_messages partial_response) ;;
  _ <- list_extend (l_history st) entries ;;
  context_variables <- read_dict (l_context_variables st) ;;
  _ <- write (l_context_variables st)
         (ODict (dict_update context_variables
                   (response_context_variables partial_response))) ;;
  ret {| l_active_agent :=
           match response_agent partial_response with
           | Some a => a
           | None => l_active_agent st
           end;
         l_context_variables := l_context_variables st;
         l_history := l_history st |}.

(** The request of a turn, made from the values of the objects. *)
Definition request_completion (self : Swarm World) (st : loop_state)
    (model_override : option string) (stream : bool)
    (model_config : pydict param) : M (option Completion) :=
  history <- snapshot (l_history st) ;;
  context_variables <- read_dict (l_context_variables st) ;;
  external (get_chat_completion function_to_json self (l_active_agent st)
              history context_variables model_override stream model_config).

(** [history.append(entry)] for a dict that is new. *)
Definition append_new (l : nat) (entry : Message) : M unit :=
  x <- alloc (ODict entry) ;; list_extend l [x].

Fixpoint run_loop (fuel : nat) (self : Swarm World)
    (model_override : option string) (model_config : pydict param)
    (max_turns : turns) (execute_tools : bool) (init_len : nat)
    (st : loop_state) : M loop_state :=
  items <- read_list (l_history st) ;;
  if negb (turns_left (length items) init_len max_turns) then ret st
  else
    match fuel with
    | O => lift NoAnswer
    | S fuel' =>
        completion <-
          request_completion self st model_override false model_config ;;
        m <- lift (first_message completion) ;;
        let m := set_sender m (agent_name (l_active_agent st)) in
        _ <- match history_entry self m with
             | Some entry => append_new (l_history st) entry
             | None => ret tt
             end ;;
        if negb (tool_calls_truthy (msg_tool_calls m)) || negb execute_tools
        then ret st
        else
          st' <- dispatch_turn self st
                   (match msg_tool_calls m with Some l => l | None => [] end) ;;
          run_loop fuel' self model_override model_config max_turns
            execute_tools init_len st'
    end.

(** The post-processing of the last output for Gemini: the content of the
    last dict of [history[init_len:]] is assigned. *)
Definition postprocess (init_len : nat) (history : nat) : M unit :=
  items <- read_list history ;;
  match rev (skipn init_len items) with
  | [] => raise (IndexError "list index out of range")
  | last :: _ =>
      d <- read_dict last ;;
      match dict_get "content" d with
      | None => raise (KeyError "content")
      | Some content =>
          stripped <- lift (unwrap_content content) ;;
          write last (ODict (dict_set "content" (JStr stripped) d))
      end
  end.

Fixpoint stream_loop (fuel : nat) (self : Swarm World) (agent : Agent World)
    (model_override : option string) (model_config : pydict param)
    (max_turns : turns) (execute_tools : bool) (init_len : nat)
    (st : loop_state) (out : list (item World))
  : M (loop_state * list (item World)) :=
  items <- read_list (l_history st) ;;
  if negb (turns_left (length items) init_len max_turns) then ret (st, out)
  else
    match fuel with
    | O => lift NoAnswer
    | S fuel' =>
        let message := new_stream_message agent in
        completion <-
          request_completion self st model_override true model_config ;;
        let out := out ++ [YieldDict [("delim", JStr "start")]] in
        chunks <- lift (chunks_of completion) ;;
        '(message, out) <-
          external (for_each (handle_chunk (l_active_agent st)) chunks
                      (message, out)) ;;
        let out := out ++ [YieldDict [("delim", JStr "end")]] in
        message <- lift (close_tool_calls message) ;;
        _ <- append_new (l_history st) message ;;
        match dict_get "tool_calls" message with
        | Some (JList (tc :: tcs)) =>
            if negb execute_tools then ret (st, out)
            else
              tool_calls <- lift (tool_call_objects (tc :: tcs)) ;;
              st' <- dispatch_turn self st tool_calls ;;
              stream_loop fuel' self agent model_override model_config
                max_turns execute_tools init_len st' out
        | _ => ret (st, out)
        end
    end.

(** The dicts that the generator yielded before its response. *)
Fixpoint yielded_dicts (out : list (item World)) : list yield :=
  match out with
  | [] => []
  | YieldDict d :: out' => YDict d :: yielded_dicts out'
  | YieldResponse _ :: out' => yielded_dicts out'
  end.

(** The entry of both loops: the two inputs are deep-copied, the length
    of the list of the caller is taken. *)
Definition enter (agent : Agent World) (messages context_variables : nat)
  : M (loop_state * nat) :=
  context_variables' <- deepcopy_dict context_variables ;;
  history <- deepcopy_list messages ;;
  items <- read_list messages ;;
  ret ({| l_active_agent := agent;
          l_context_variables := context_variables';
          l_history := history |}, length items).

Definition response_of (init_len : nat) (st : loop_state) : M ResponseRef :=
  items <- read_list (l_history st) ;;
  ret {| ref_messages := skipn init_len items;
         ref_agent := Some (l_active_agent st);
         ref_context_variables := l_context_variables st |}.

Definition run_and_stream (fuel : nat) (self : Swarm World)
    (agent : Agent World) (messages context_variables : nat)
    (model_override : option string) (model_config : pydict param)
    (max_turns : turns) (execute_tools : bool) : M (list yield) :=
  '(st, init_len) <- enter agent messages context_variables ;;
  '(st, out) <-
    stream_loop fuel self agent model_override model_config max_turns
      execute_tools init_len st [] ;;
  response <- response_of init_len st ;;
  ret (yielded_dicts out ++ [YResponse response]).

Definition run (fuel : nat) (self : Swarm World) (agent : Agent World)
    (messages context_variables : nat) (model_override : option string)
    (model_config : pydict param) (stream : bool) (max_turns : turns)
    (execute_tools : bool) : M output :=
  if stream then
    items <- run_and_stream fuel self agent messages context_variables
               model_override model_config max_turns execute_tools ;;
    ret (Generates items)
  else
    '(st, init_len) <- enter agent messages context_variables ;;
    st <- run_loop fuel self model_override model_config max_turns
            execute_tools init_len st ;;
    _ <- (if Str.contains (mode self) "gemini"
          then postprocess init_len (l_history st)
          else ret tt) ;;
    response <- response_of init_len st ;;
    ret (Returns response).

End Objects.

End Store.

(** * Scenarios

    Concrete worlds, clients, tools and agents on which the engine is run
    below. *)

Module Scenario.

(** The world is the log of the requests that reached the client. *)
Definition World : Type := list (pydict param).

(** A client that answers its n-th request with the n-th outcome of a
    script. *)
Definition scripted (script : list (outcome Completion)) : Client World :=
  fun create_params log =>
    (nth (length log) script (Raise (OtherError "Connection error.")),
     log ++ [create_params]).

(** A backend that rejects every request. *)
Definition failing_client : Client World := scripted [].

(** A client library that finds no key in the environment. *)
Definition no_OpenAI : option string -> option string -> outcome (Client World) :=
  fun _ _ => Raise (OtherError "The api_key client option must be set.").

(** An introspector that describes the variables of a function as
    required string parameters. *)
Definition describe (f : AgentFunction World) : Tool :=
  {| tool_type := "function";
     tool_function :=
       {| tf_name := __name__ f;
          tf_description := "";
          parameters :=
            {| properties :=
                 map (fun v => (v, JDict [("type", JStr "string")]))
                   (co_varnames f);
               required := co_varnames f |} |} |}.

Definition greet : AgentFunction World :=
  {| __name__ := "greet";
     co_varnames := ["context_variables"; "who"];
     call := fun _ => ret (RawOther (py_string "hello")) |}.

Definition agent_A : Agent World :=
  {| agent_name := "A";
     agent_model := Some "gpt-4o";
     agent_instructions := InstructionsStr "Be brief.";
     agent_functions := [greet];
     agent_tool_choice := Some "auto";
     agent_parallel_tool_calls := true |}.

Definition call_greet : ChatCompletionMessageToolCall :=
  {| tc_id := "call_1";
     tc_function := {| fn_arguments := dq "{`who`: `Ann`}"; fn_name := "greet" |};
     tc_type := "function" |}.

Definition call_foo : ChatCompletionMessageToolCall :=
  {| tc_id := "call_2";
     tc_function := {| fn_arguments := "{}"; fn_name := "foo" |};
     tc_type := "function" |}.

(** Two tools that write the same context variable. *)
Definition set_k (fname : string) (z : Z) : AgentFunction World :=
  {| __name__ := fname;
     co_varnames := [];
     call := fun _ =>
       ret (RawResult {| result_value := "done"; result_agent := None;
                         result_context_variables := [("k", JInt z)] |}) |}.

Definition call_to (id fname : string) : ChatCompletionMessageToolCall :=
  {| tc_id := id;
     tc_function := {| fn_arguments := "{}"; fn_name := fname |};
     tc_type := "function" |}.

Definition agent_K : Agent World :=
  {| agent_name := "K";
     agent_model := Some "gpt-4o";
     agent_instructions := InstructionsStr "Keep count.";
     agent_functions := [set_k "first" 1; set_k "second" 2; greet];
     agent_tool_choice := None;
     agent_parallel_tool_calls := true |}.

End Scenario.

(** * Properties *)

(** ** Dictionaries and lists *)

Section DictFacts.
Context {V : Type}.
Implicit Types (d u : pydict V) (k : string) (v : V).

Lemma dict_get_set_eq k v d : dict_get k (dict_set k v d) = Some v.
Proof.
  induction d as [| [k' v'] d IH]; simpl.
  - now rewrite String.eqb_refl.
  - destruct (String.eqb k k') eqn:E; simpl; rewrite E; auto.
Qed.

Lemma dict_get_set_ne k k' v d :
  k <> k' -> dict_get k (dict_set k' v d) = dict_get k d.
Proof.
  intros Hne. induction d as [| [k0 v0] d IH]; simpl.
  - apply String.eqb_neq in Hne. now rewrite Hne.
  - destruct (String.eqb k' k0) eqn:E; simpl.
    + apply String.eqb_eq in E. subst k0.
      apply String.eqb_neq in Hne. now rewrite Hne.
    + now rewrite IH.
Qed.

Lemma dict_get_set k k' v d :
  dict_get k (dict_set k' v d)
  = if String.eqb k k' then Some v else dict_get k d.
Proof.
  destruct (String.eqb k k') eqn:E.
  - apply String.eqb_eq in E. subst. apply dict_get_set_eq.
  - apply String.eqb_neq in E. now apply dict_get_set_ne.
Qed.

Lemma dict_get_not_key k d : ~ In k (dict_keys d) -> dict_get k d = None.
Proof.
  induction d as [| [k' v'] d IH]; simpl; intros H; [reflexivity |].
  destruct (String.eqb k k') eqn:E.
  - apply String.eqb_eq in E. subst. tauto.
  - apply IH. tauto.
Qed.

(** [d.update(u)] gives a key of [u] the value it has in [u], and leaves
    the other keys as they are in [d]. *)
Lemma dict_get_update k d u :
  NoDup (dict_keys u) ->
  dict_get k (dict_update d u)
  = match dict_get k u with
    | Some v => Some v
    | None => dict_get k d
    end.
Proof.
  unfold dict_update. revert d.
  induction u as [| [k' v'] u IH]; intros d Hnd; simpl; [reflexivity |].
  inversion Hnd as [| ? ? Hnotin Hnd']; subst.
  rewrite IH by assumption.
  destruct (String.eqb k k') eqn:E.
  - apply String.eqb_eq in E. subst k'.
    rewrite (dict_get_not_key _ _ Hnotin). now rewrite dict_get_set_eq.
  - apply String.eqb_neq in E. now rewrite dict_get_set_ne.
Qed.

Lemma dict_get_pop k d : dict_get k (dict_pop k d) = None.
Proof.
  unfold dict_pop. induction d as [| [k' v'] d IH]; simpl; [reflexivity |].
  destruct (String.eqb k k') eqn:E; simpl; [assumption |].
  now rewrite E.
Qed.

Lemma dict_get_pop_ne k k' d :
  k <> k' -> dict_get k (dict_pop k' d) = dict_get k d.
Proof.
  intros Hne. unfold dict_pop.
  induction d as [| [k0 v0] d IH]; simpl; [reflexivity |].
  destruct (String.eqb k' k0) eqn:E; simpl.
  - apply String.eqb_eq in E. subst k0.
    apply String.eqb_neq in Hne. now rewrite Hne.
  - now rewrite IH.
Qed.

Lemma dict_pop_keys k d : ~ In k (dict_keys (dict_pop k d)).
Proof.
  unfold dict_pop, dict_keys. rewrite in_map_iff.
  intros [[k' v'] [Hk Hin]]. simpl in Hk. subst k'.
  apply filter_In in Hin. destruct Hin as [_ Hneg]. simpl in Hneg.
  now rewrite String.eqb_refl in Hneg.
Qed.

End DictFacts.

Lemma list_mem_In x l : list_mem x l = true <-> In x l.
Proof.
  unfold list_mem. rewrite existsb_exists. split.
  - intros [y [Hin Heq]]. apply String.eqb_eq in Heq. now subst.
  - intros Hin. exists x. split; [assumption | apply String.eqb_refl].
Qed.

Lemma list_remove_NoDup x l : NoDup l -> ~ In x (list_remove x l).
Proof.
  induction l as [| y l IH]; simpl; intros Hnd; [tauto |].
  inversion Hnd as [| ? ? Hnotin Hnd']; subst.
  destruct (String.eqb x y) eqn:E.
  - apply String.eqb_eq in E. now subst.
  - apply String.eqb_neq in E. simpl. intros [H | H]; [congruence | now apply IH].
Qed.

(** ** Construction *)

Section Construction.
Context {World : Type}.
Variable OpenAI : option string -> option string -> outcome (Client World).

Lemma init_empty_mode client key :
  __init__ OpenAI client "" key
  = Raise (ValueError "Please set mode (e.g., openai, gemini, ollama).").
Proof. reflexivity. Qed.

Lemma eqb_of_not_in mode (l : list string) x :
  Str.in_tuple mode l = false -> In x l -> String.eqb mode x = false.
Proof.
  unfold Str.in_tuple. intros H Hin.
  destruct (String.eqb mode x) eqn:E; [| reflexivity].
  assert (existsb (String.eqb mode) l = true) as Hex
      by (apply existsb_exists; eauto).
  congruence.
Qed.

(** C2, as the constructor has it: an empty mode is refused at
    construction with a [ValueError]; a mode that is not empty and is
    none of ["openai"], ["gemini"], ["ollama"] is accepted: the engine is
    built with that mode and with the client it was given, none when
    none was given. *)
Theorem init_checks_only_emptiness client mode key :
  Str.in_tuple mode ["openai"; "gemini"; "ollama"] = false ->
  __init__ OpenAI client mode key
  = if Str.truthy mode
    then Ok {| mode := mode; client := client |}
    else Raise (ValueError "Please set mode (e.g., openai, gemini, ollama).").
Proof.
  intros Hnot. unfold __init__.
  destruct (Str.truthy mode) eqn:Hm; simpl; [| reflexivity].
  destruct client as [c |]; simpl; [reflexivity |].
  rewrite (eqb_of_not_in _ _ "ollama" Hnot) by (simpl; tauto).
  rewrite (eqb_of_not_in _ _ "gemini" Hnot) by (simpl; tauto).
  rewrite (eqb_of_not_in _ _ "openai" Hnot) by (simpl; tauto).
  reflexivity.
Qed.

End Construction.

Lemma init_checks_only_emptiness_witness :
  __init__ Scenario.no_OpenAI None "mistral" ""
  = Ok {| mode := "mistral"; client := None |}.
Proof.
  exact (init_checks_only_emptiness Scenario.no_OpenAI None "mistral" ""
           eq_refl).
Defined.

(** C2 fails on an unrecognised mode: the constructor returns an engine
    and raises nothing. *)
Lemma init_unrecognized_mode_not_refused :
  ~ In "mistral" ["openai"; "gemini"; "ollama"]
  /\ __init__ Scenario.no_OpenAI None "mistral" ""
     = Ok {| mode := "mistral"; client := None |}.
Proof.
  split; [| reflexivity].
  simpl. intros [E | [E | [E | []]]]; discriminate E.
Qed.

(** ** Sending the request *)

Section Invocation.
Context {World : Type}.
Implicit Types (self : Swarm World) (agent : Agent World) (w : World).

(** The request of the first attempt: [parallel_tool_calls] is added
    when there are tools. *)
Definition first_request agent (tools : list Tool)
    (create_params : pydict param) : pydict param :=
  match tools with
  | [] => create_params
  | _ => dict_set "parallel_tool_calls"
           (PBool (agent_parallel_tool_calls agent)) create_params
  end.

(** The request of the second attempt. *)
Definition stripped_request (create_params : pydict param) : pydict param :=
  dict_set "tool_choice" PNone (dict_set "tools" PNone create_params).

(** In the modes ["ollama"] and ["openai"] a request that succeeds is
    sent once. *)
Lemma invoke_first_success self agent tools create_params w c w1 :
  Str.in_tuple (mode self) ["ollama"; "openai"] = true ->
  create self (first_request agent tools create_params) w = (Ok c, w1) ->
  invoke self agent tools create_params w = (Ok (Some c), w1).
Proof.
  intros Hmode H1. unfold invoke. rewrite Hmode.
  fold (first_request agent tools create_params).
  unfold try_except, bind. rewrite H1. reflexivity.
Qed.

(** In these modes a request that fails is sent a second time, with
    [tools] and [tool_choice] set to [None], and whatever that second
    call does is the result: its exception is not replaced. *)
Lemma invoke_retries_once self agent tools create_params w e w1 :
  Str.in_tuple (mode self) ["ollama"; "openai"] = true ->
  create self (first_request agent tools create_params) w = (Raise e, w1) ->
  invoke self agent tools create_params w
  = match create self
            (stripped_request (first_request agent tools create_params)) w1
    with
    | (Ok c, w2) => (Ok (Some c), w2)
    | (Raise e2, w2) => (Raise e2, w2)
    | (NoAnswer, w2) => (NoAnswer, w2)
    end.
Proof.
  intros Hmode H1. unfold invoke. rewrite Hmode.
  fold (first_request agent tools create_params).
  unfold try_except. unfold bind at 1. rewrite H1.
  unfold bind, stripped_request, ret.
  destruct (create self _ w1) as [[c | e2 |] w2]; reflexivity.
Qed.

(** The retry keeps [parallel_tool_calls] in the request. *)
Lemma stripped_request_fields agent t tools create_params :
  let r := stripped_request (first_request agent (t :: tools) create_params) in
  dict_get "tools" r = Some PNone
  /\ dict_get "tool_choice" r = Some PNone
  /\ dict_get "parallel_tool_calls" r
     = Some (PBool (agent_parallel_tool_calls agent)).
Proof.
  unfold stripped_request, first_request. cbv zeta.
  repeat split.
  - rewrite dict_get_set_ne by discriminate. apply dict_get_set_eq.
  - apply dict_get_set_eq.
  - rewrite dict_get_set_ne by discriminate.
    rewrite dict_get_set_ne by discriminate.
    apply dict_get_set_eq.
Qed.

(** In the mode ["gemini"] a request that fails is not sent again: the
    configuration error is raised at once. *)
Lemma invoke_gemini_no_retry self agent tools create_params w e w1 :
  mode self = "gemini" ->
  create self create_params w = (Raise e, w1) ->
  invoke self agent tools create_params w = (Raise model_error, w1).
Proof.
  intros Hmode H1. unfold invoke. rewrite Hmode. simpl.
  unfold try_except, bind. rewrite H1. reflexivity.
Qed.

End Invocation.

(** C1 at a backend that rejects every request, in the mode ["openai"]:
    the request is sent twice, the second time with [tools] and
    [tool_choice] set to [None] and [parallel_tool_calls] still in it, and
    the exception of the second call leaves [get_chat_completion] as it
    is: no configuration error is raised. *)
Theorem second_failure_is_not_a_configuration_error :
  let self := {| mode := "openai"; client := Some Scenario.failing_client |} in
  exists first second,
    get_chat_completion Scenario.describe self Scenario.agent_A [] [] None
      false [] []
    = (Raise (OtherError "Connection error."), [first; second])
    /\ OtherError "Connection error." <> model_error
    /\ second = stripped_request first
    /\ dict_get "tools" second = Some PNone
    /\ dict_get "tool_choice" second = Some PNone
    /\ dict_get "parallel_tool_calls" second = Some (PBool true).
Proof.
  cbv zeta. eexists. eexists.
  split; [vm_compute; reflexivity |].
  repeat split; solve [discriminate | reflexivity].
Qed.

(** ** The tool descriptors of the request *)

Section Descriptors.
Context {World : Type}.
Variable function_to_json : AgentFunction World -> Tool.

(** A descriptor without the hidden parameter. *)
Definition hidden (tool : Tool) : Prop :=
  dict_mem __CTX_VARS_NAME__ (properties (parameters (tool_function tool)))
  = false
  /\ ~ In __CTX_VARS_NAME__ (required (parameters (tool_function tool))).

Lemma hide_context_variables_hidden tool :
  NoDup (required (parameters (tool_function tool))) ->
  hidden (hide_context_variables tool).
Proof.
  intros Hnd. unfold hidden, hide_context_variables. simpl. split.
  - unfold dict_mem. now rewrite dict_get_pop.
  - destruct (list_mem __CTX_VARS_NAME__
                (required (parameters (tool_function tool)))) eqn:E.
    + now apply list_remove_NoDup.
    + intros Hin. apply list_mem_In in Hin. congruence.
Qed.

(** C7: in every request that is built, no tool descriptor has the
    hidden parameter [context_variables], neither among its properties
    nor in its list of required fields; the descriptors are the ones that
    the request carries under ["tools"] unless [model_config] replaces
    that field.  The introspector lists every parameter name once. *)
Theorem context_variables_hidden_from_model (agent : Agent World)
    history context_variables model_override stream model_config w
    create_params tools w' :
  (forall f, In f (agent_functions agent) ->
             NoDup (required (parameters (tool_function (function_to_json f))))) ->
  build_request function_to_json agent history context_variables
    model_override stream model_config w = (Ok (create_params, tools), w') ->
  (forall tool, In tool tools -> hidden tool)
  /\ (dict_mem "tools" model_config = false ->
      dict_get "tools" create_params
      = Some (match tools with [] => PNone | _ => PTools tools end)).
Proof.
  intros Hnd Hreq. unfold build_request in Hreq.
  unfold bind in Hreq.
  destruct (match agent_instructions agent with
            | InstructionsFn f => f context_variables
            | InstructionsStr s => ret s
            end w) as [[instructions | e |] w1]; try discriminate.
  destruct (negb (Str.opt_truthy (agent_model agent))
            && negb (Str.opt_truthy model_override)); [discriminate |].
  unfold ret in Hreq. inversion Hreq; subst; clear Hreq.
  split.
  - intros tool Hin. unfold build_tools in Hin.
    apply in_map_iff in Hin. destruct Hin as [t [Ht Hin]].
    apply in_map_iff in Hin. destruct Hin as [f [Hf Hin]].
    subst tool t.
    apply hide_context_variables_hidden. now apply Hnd.
  - intros Hcfg. unfold dict_mem in Hcfg.
    destruct (dict_get "tools" model_config) eqn:E; [discriminate |].
    clear Hcfg. revert E.
    generalize (build_tools function_to_json agent) as tools.
    intros tools E.
    set (base := [("model", _); ("messages", _); ("tools", _);
                  ("tool_choice", _); ("stream", _)]).
    assert (dict_get "tools" base
            = Some (match tools with [] => PNone | _ => PTools tools end))
      as Hbase by reflexivity.
    revert Hbase. generalize base as d. clear base.
    unfold dict_update.
    induction model_config as [| [k v] cfg IH]; intros d Hd;
      cbn [fold_left fst snd]; [assumption |].
    change (dict_get "tools" ((k, v) :: cfg))
      with (if String.eqb "tools" k then Some v else dict_get "tools" cfg) in E.
    destruct (String.eqb "tools" k) eqn:Ek; [discriminate |].
    apply IH; [assumption |].
    rewrite dict_get_set_ne; [assumption |].
    now apply String.eqb_neq.
Qed.

End Descriptors.

Lemma context_variables_hidden_from_model_witness :
  hidden (hide_context_variables (Scenario.describe Scenario.greet))
  /\ required (parameters (tool_function
                 (hide_context_variables (Scenario.describe Scenario.greet))))
     = ["who"].
Proof.
  split; [| reflexivity].
  assert (forall f, In f (agent_functions Scenario.agent_A) ->
            NoDup (required (parameters (tool_function (Scenario.describe f)))))
    as Hnd.
  { intros f [<- | []]. simpl.
    repeat constructor; simpl; intuition discriminate. }
  destruct (context_variables_hidden_from_model Scenario.describe
              Scenario.agent_A [] [] None false [] [] Hnd eq_refl)
    as [Hall _].
  apply Hall. left. reflexivity.
Defined.

(** ** The JSON text that names an agent *)








(** ** The result normaliser *)

Section Normaliser.
Context {World : Type}.



End Normaliser.

Module NormaliserScenario.


End NormaliserScenario.


Example agent_result_value :
  obind (handle_function_result (RawAgent Scenario.agent_A))
        (fun r => Ok (result_value r, result_context_variables r))
  = Ok (dq "{`assistant`: `A`}", []).
Proof. reflexivity. Qed.

(** ** A run of no turn *)

Section ZeroTurns.
Context {World : Type}.
Variable function_to_json : AgentFunction World -> Tool.
Implicit Types (self : Swarm World) (agent : Agent World).

Lemma turns_left_zero (n : nat) : turns_left n n (Turns 0) = false.
Proof. unfold turns_left. apply Z.ltb_ge. lia. Qed.

Lemma run_loop_zero fuel self model_override model_config execute_tools
    agent messages context_variables w :
  let st := {| l_active_agent := agent;
               l_context_variables := context_variables;
               l_history := messages |} in
  run_loop function_to_json fuel self model_override model_config (Turns 0)
    execute_tools (length messages) st w
  = (Ok st, w).
Proof.
  cbv zeta.
  destruct fuel; cbn [run_loop l_history]; rewrite turns_left_zero;
    reflexivity.
Qed.

(** With [max_turns=0], in a mode that is not part of the text
    ["gemini"], [run] returns at once: no message, the agent of the call,
    the context variables of the call. *)
Lemma run_zero_turns fuel self agent messages context_variables
    model_override model_config execute_tools w :
  Str.contains (mode self) "gemini" = false ->
  run function_to_json fuel self agent messages context_variables
    model_override model_config false (Turns 0) execute_tools w
  = (Ok (Returned {| response_messages := [];
                     response_agent := Some agent;
                     response_context_variables := context_variables |}), w).
Proof.
  intros Hmode. unfold run.
  rewrite (bind_ok _ _ _ (run_loop_zero _ _ _ _ _ _ _ _ _)).
  rewrite Hmode. cbn [l_history l_active_agent l_context_variables].
  unfold bind, ret. now rewrite skipn_all.
Qed.

(** C3 in the mode ["gemini"]: with [max_turns=0] the loop is not
    entered, the post-processing of the last output indexes the empty
    list [history[init_len:]], and [run] raises an [IndexError] instead of
    returning a response, whatever the agent and the messages. *)
Theorem run_zero_turns_gemini_raises fuel client agent messages
    context_variables model_override model_config execute_tools w :
  run function_to_json fuel {| mode := "gemini"; client := client |} agent
    messages context_variables model_override model_config false (Turns 0)
    execute_tools w
  = (Raise (IndexError "list index out of range"), w).
Proof.
  unfold run.
  rewrite (bind_ok _ _ _ (run_loop_zero _ _ _ _ _ _ _ _ _)).
  cbn [l_history l_active_agent l_context_variables mode].
  replace (Str.contains "gemini" "gemini") with true by reflexivity.
  unfold bind, lift, postprocess. now rewrite skipn_all.
Qed.

End ZeroTurns.

Example run_zero_turns_openai :
  run Scenario.describe 0
    {| mode := "openai"; client := Some Scenario.failing_client |}
    Scenario.agent_A [[("role", JStr "user"); ("content", JStr "Hi")]] []
    None [] false (Turns 0) true []
  = (Ok (Returned {| response_messages := [];
                     response_agent := Some Scenario.agent_A;
                     response_context_variables := [] |}), []).
Proof. reflexivity. Qed.

(** ** The tool-call dispatcher *)

Section DictKeys.
Context {V : Type}.
Implicit Types (d u : pydict V) (k : string) (v : V).

Lemma dict_get_None_iff k d : dict_get k d = None <-> ~ In k (dict_keys d).
Proof.
  split; [| apply dict_get_not_key].
  induction d as [| [k' v'] d IH]; simpl; [tauto |].
  destruct (String.eqb k k') eqn:E; [discriminate |].
  apply String.eqb_neq in E. intros H [Heq | Hin]; [congruence | tauto].
Qed.

Lemma dict_keys_set k v d :
  dict_keys (dict_set k v d)
  = if dict_mem k d then dict_keys d else dict_keys d ++ [k].
Proof.
  unfold dict_mem. induction d as [| [k' v'] d IH]; simpl; [reflexivity |].
  destruct (String.eqb k k') eqn:E; simpl; [reflexivity |].
  rewrite IH. now destruct (dict_get k d).
Qed.

Lemma dict_set_NoDup k v d :
  NoDup (dict_keys d) -> NoDup (dict_keys (dict_set k v d)).
Proof.
  intros Hnd. rewrite dict_keys_set. unfold dict_mem.
  destruct (dict_get k d) eqn:E; [assumption |].
  apply dict_get_None_iff in E.
  apply NoDup_app; [assumption | repeat constructor; simpl; tauto |].
  intros x Hx [<- | []]. contradiction.
Qed.

Lemma dict_update_NoDup d u :
  NoDup (dict_keys d) -> NoDup (dict_keys (dict_update d u)).
Proof.
  unfold dict_update. revert d.
  induction u as [| [k v] u IH]; intros d Hnd; simpl; [assumption |].
  apply IH. now apply dict_set_NoDup.
Qed.

(** A key that [u] does not have keeps its value through [d.update(u)]. *)
Lemma dict_get_update_other k d u :
  dict_get k u = None -> dict_get k (dict_update d u) = dict_get k d.
Proof.
  unfold dict_update. revert d.
  induction u as [| [k' v'] u IH]; intros d Hu; simpl; [reflexivity |].
  simpl in Hu. destruct (String.eqb k k') eqn:E; [discriminate |].
  rewrite IH by assumption. apply dict_get_set_ne. now apply String.eqb_neq.
Qed.

Lemma dict_of_pairs_get_None k (pairs : list (string * V)) :
  ~ In k (map fst pairs) -> dict_get k (dict_of_pairs pairs) = None.
Proof.
  intros Hnotin. unfold dict_of_pairs.
  rewrite dict_get_update_other; [reflexivity |].
  now apply dict_get_None_iff.
Qed.

End DictKeys.

Section Dispatch.
Context {World : Type}.
Implicit Types (self : Swarm World) (w : World)
  (functions : list (AgentFunction World))
  (tool_call : ChatCompletionMessageToolCall).

Definition empty_response : Response World :=
  {| response_messages := []; response_agent := None;
     response_context_variables := [] |}.

(** The loop of [handle_tool_calls], entered with a partial response. *)
Definition dispatch_from self functions (context_variables : pydict json)
    (partial_response : Response World)
    (tool_calls : list ChatCompletionMessageToolCall) : M World (Response World) :=
  for_each
    (handle_tool_call self (build_function_map functions) context_variables)
    tool_calls partial_response.

Lemma handle_tool_calls_dispatch self tool_calls functions context_variables :
  handle_tool_calls self tool_calls functions context_variables
  = dispatch_from self functions context_variables empty_response tool_calls.
Proof. reflexivity. Qed.

Lemma for_each_app {A B : Type} (body : B -> A -> M World B) l1 l2 acc w :
  for_each body (l1 ++ l2) acc w
  = bind (for_each body l1 acc) (fun acc' => for_each body l2 acc') w.
Proof.
  revert acc w. induction l1 as [| x l1 IH]; intros acc w; simpl.
  - reflexivity.
  - rewrite bind_assoc. apply bind_ext. intros acc' w'. apply IH.
Qed.

Lemma build_function_map_missing functions name :
  ~ In name (map (@__name__ World _) functions) ->
  dict_mem name (build_function_map functions) = false.
Proof.
  intros Hnotin. unfold dict_mem, build_function_map.
  rewrite dict_of_pairs_get_None; [reflexivity |].
  now rewrite map_map.
Qed.

(** A mode of one of the two families of dialects. *)
Definition dialect_mode self : bool :=
  Str.in_tuple (mode self) ["ollama"; "openai"]
  || Str.contains (mode self) "gemini".

Lemma missing_tool_message_content self tool_call :
  dialect_mode self = true ->
  exists m,
    missing_tool_message self tool_call = Some m
    /\ dict_get "content" m
       = Some (JStr (missing_tool_content (fn_name (tc_function tool_call)))).
Proof.
  unfold dialect_mode, missing_tool_message. intros Hmode.
  destruct (Str.in_tuple (mode self) ["ollama"; "openai"]).
  - eexists. split; reflexivity.
  - cbn [orb] in Hmode. rewrite Hmode. eexists. split; reflexivity.
Qed.

(** C5: in a batch [pre ++ tool_call :: post] whose call [tool_call]
    names a function that the agent does not have, once the calls of
    [pre] are dispatched, the pass for [tool_call] leaves the world as it
    is (no function runs), appends one message, the message of the dialect
    whose content is ["Error: Tool <name> not found."], changes nothing
    else in the partial response, and the batch goes on with the calls of
    [post]. *)
Theorem missing_tool_reported_and_batch_continues self functions
    context_variables pre tool_call post w partial_response w1 :
  dialect_mode self = true ->
  ~ In (fn_name (tc_function tool_call)) (map (@__name__ World _) functions) ->
  dispatch_from self functions context_variables empty_response pre w
  = (Ok partial_response, w1) ->
  exists m,
    missing_tool_message self tool_call = Some m
    /\ dict_get "content" m
       = Some (JStr ("Error: Tool " ++ fn_name (tc_function tool_call)
                     ++ " not found."))
    /\ handle_tool_call self (build_function_map functions) context_variables
         partial_response tool_call w1
       = (Ok (append_message partial_response m), w1)
    /\ response_messages (append_message partial_response m)
       = response_messages partial_response ++ [m]
    /\ handle_tool_calls self (pre ++ tool_call :: post) functions
         context_variables w
       = dispatch_from self functions context_variables
           (append_message partial_response m) post w1.
Proof.
  intros Hmode Hmissing Hpre.
  destruct (missing_tool_message_content self tool_call Hmode)
    as [m [Hm Hcontent]].
  assert (handle_tool_call self (build_function_map functions)
            context_variables partial_response tool_call w1
          = (Ok (append_message partial_response m), w1)) as Hstep.
  { unfold handle_tool_call.
    rewrite (build_function_map_missing _ _ Hmissing), Hm. reflexivity. }
  exists m. repeat split; try assumption.
  rewrite handle_tool_calls_dispatch. unfold dispatch_from in *.
  rewrite for_each_app. rewrite (bind_ok _ _ _ Hpre).
  cbn [for_each]. now rewrite (bind_ok _ _ _ Hstep).
Qed.

(** The values that the variable [result] of the loop takes, in the
    order of the calls: a call of a missing tool has none. *)
Fixpoint batch_results self (function_map : pydict (AgentFunction World))
    (context_variables : pydict json)
    (tool_calls : list ChatCompletionMessageToolCall)
  : M World (list (Result World)) :=
  match tool_calls with
  | [] => ret []
  | tool_call :: tool_calls' =>
      match (if dict_mem (fn_name (tc_function tool_call)) function_map
             then None else missing_tool_message self tool_call) with
      | Some _ => batch_results self function_map context_variables tool_calls'
      | None =>
          '(_, result) <- call_tool function_map context_variables tool_call ;;
          results <-
            batch_results self function_map context_variables tool_calls' ;;
          ret (result :: results)
      end
  end.

(** The updates of the results, merged in their order into a mapping. *)
Definition merge_updates (d : pydict json) (results : list (Result World))
  : pydict json :=
  fold_left (fun acc r => dict_update acc (result_context_variables r))
    results d.

Lemma record_result_context self partial_response tool_call args result :
  response_context_variables
    (record_result self partial_response tool_call args result)
  = dict_update (response_context_variables partial_response)
      (result_context_variables result).
Proof.
  unfold record_result. cbn [response_context_variables].
  destruct (Str.in_tuple (mode self) ["ollama"; "openai"]); [reflexivity |].
  destruct (Str.contains (mode self) "gemini"); reflexivity.
Qed.

(** The mapping of a partial response is the merge of the updates of the
    results of the batch. *)
Lemma dispatch_context self function_map context_variables tool_calls :
  forall partial_response w partial_response' w',
    for_each (handle_tool_call self function_map context_variables)
      tool_calls partial_response w = (Ok partial_response', w') ->
    exists results,
      batch_results self function_map context_variables tool_calls w
      = (Ok results, w')
      /\ response_context_variables partial_response'
         = merge_updates (response_context_variables partial_response) results.
Proof.
  induction tool_calls as [| tool_call tool_calls IH];
    intros partial_response w partial_response' w' H.
  - cbn in H. injection H as <- <-. exists []. split; reflexivity.
  - cbn [for_each] in H. unfold handle_tool_call in H.
    cbn [batch_results].
    destruct (if dict_mem (fn_name (tc_function tool_call)) function_map
              then None else missing_tool_message self tool_call) as [m |].
    + unfold bind, ret in H.
      destruct (IH _ _ _ _ H) as [results [Hres Hctx]].
      exists results. split; assumption.
    + unfold bind in H. unfold bind.
      destruct (call_tool function_map context_variables tool_call w)
        as [[[args result] | e |] w1]; try discriminate.
      unfold ret in H.
      destruct (IH _ _ _ _ H) as [results [Hres Hctx]].
      rewrite Hres. exists (result :: results). split; [reflexivity |].
      rewrite Hctx. now rewrite record_result_context.
Qed.

Lemma merge_updates_app d (l1 l2 : list (Result World)) :
  merge_updates d (l1 ++ l2) = merge_updates (merge_updates d l1) l2.
Proof. unfold merge_updates. apply fold_left_app. Qed.

Lemma merge_updates_untouched k (results : list (Result World)) :
  forall d,
    (forall r, In r results -> dict_get k (result_context_variables r) = None) ->
    dict_get k (merge_updates d results) = dict_get k d.
Proof.
  induction results as [| r results IH]; intros d Hnone; [reflexivity |].
  cbn [merge_updates fold_left].
  fold (merge_updates (dict_update d (result_context_variables r)) results).
  rewrite IH by (intros r' Hin; apply Hnone; now right).
  apply dict_get_update_other. apply Hnone. now left.
Qed.

Lemma merge_updates_NoDup (results : list (Result World)) :
  forall d, NoDup (dict_keys d) -> NoDup (dict_keys (merge_updates d results)).
Proof.
  induction results as [| r results IH]; intros d Hnd; [assumption |].
  cbn [merge_updates fold_left]. apply IH. now apply dict_update_NoDup.
Qed.

(** The value of the last result that writes a key is the value of the
    key after the merge. *)
Lemma merge_updates_last_write k v d (before after : list (Result World)) r :
  NoDup (dict_keys (result_context_variables r)) ->
  dict_get k (result_context_variables r) = Some v ->
  (forall r', In r' after -> dict_get k (result_context_variables r') = None) ->
  dict_get k (merge_updates d (before ++ r :: after)) = Some v.
Proof.
  intros Hnd Hr Hafter.
  rewrite merge_updates_app.
  change (merge_updates (merge_updates d before) (r :: after))
    with (merge_updates
            (dict_update (merge_updates d before) (result_context_variables r))
            after).
  rewrite merge_updates_untouched by assumption.
  rewrite dict_get_update by assumption. now rewrite Hr.
Qed.

(** C6: when a batch is dispatched and a result [r] of it writes the key
    [k], no result of a later call of the batch writing [k], the mapping
    of the partial response has for [k] the value of [r], whatever the
    results of the earlier calls wrote; and the merge into the running
    mapping of the loop gives [k] that value, whatever earlier batches had
    left there. *)
Theorem context_updates_last_write_wins self (st : loop_state World)
    tool_calls w partial_response w' before r after k v :
  handle_tool_calls self tool_calls (agent_functions (l_active_agent st))
    (l_context_variables st) w = (Ok partial_response, w') ->
  batch_results self (build_function_map (agent_functions (l_active_agent st)))
    (l_context_variables st) tool_calls w = (Ok (before ++ r :: after), w') ->
  NoDup (dict_keys (result_context_variables r)) ->
  dict_get k (result_context_variables r) = Some v ->
  (forall r', In r' after -> dict_get k (result_context_variables r') = None) ->
  dict_get k (response_context_variables partial_response) = Some v
  /\ exists st',
       dispatch_turn self st tool_calls w = (Ok st', w')
       /\ dict_get k (l_context_variables st') = Some v.
Proof.
  intros Hrun Hres Hnd Hr Hafter.
  assert (dict_get k (response_context_variables partial_response) = Some v
          /\ NoDup (dict_keys (response_context_variables partial_response)))
    as [Hk Hkeys].
  { unfold handle_tool_calls in Hrun.
    destruct (dispatch_context _ _ _ _ _ _ Hrun) as [results [Hres' Hctx]].
    rewrite Hres in Hres'. injection Hres' as <-.
    rewrite Hctx. cbn [response_context_variables]. split.
    - now apply merge_updates_last_write.
    - apply merge_updates_NoDup. constructor. }
  split; [assumption |].
  unfold dispatch_turn. rewrite (bind_ok _ _ _ Hrun).
  eexists. split; [reflexivity |].
  cbn [l_context_variables].
  rewrite dict_get_update by assumption. now rewrite Hk.
Qed.

End Dispatch.


Module DispatchScenario.
Import Scenario.

Definition openai : Swarm World :=
  {| mode := "openai"; client := Some failing_client |}.

(** The partial response after the call of [greet]. *)
Definition after_greet : Response World :=
  {| response_messages :=
       [[("role", JStr "tool"); ("tool_call_id", JStr "call_1");
         ("tool_name", JStr "greet"); ("content", JStr "hello")]];
     response_agent := None;
     response_context_variables := [] |}.

Definition foo_not_found : Message :=
  [("role", JStr "tool"); ("tool_call_id", JStr "call_2");
   ("tool_name", JStr "foo"); ("content", JStr "Error: Tool foo not found.")].

(** The results of [first] and [second]. *)
Definition wrote (z : Z) : Result World :=
  {| result_value := "done"; result_agent := None;
     result_context_variables := [("k", JInt z)] |}.

(** A loop state whose running mapping already has a value for [k]. *)
Definition state_K : loop_state World :=
  {| l_active_agent := agent_K;
     l_context_variables := [("k", JInt 0); ("user", JStr "Ann")];
     l_history := [] |}.

(** The partial response of the batch [first], [second], [greet]. *)
Definition after_batch : Response World :=
  {| response_messages :=
       [[("role", JStr "tool"); ("tool_call_id", JStr "c1");
         ("tool_name", JStr "first"); ("content", JStr "done")];
        [("role", JStr "tool"); ("tool_call_id", JStr "c2");
         ("tool_name", JStr "second"); ("content", JStr "done")];
        [("role", JStr "tool"); ("tool_call_id", JStr "call_1");
         ("tool_name", JStr "greet"); ("content", JStr "hello")]];
     response_agent := None;
     response_context_variables := [("k", JInt 2)] |}.

End DispatchScenario.

Lemma missing_tool_reported_and_batch_continues_witness :
  handle_tool_calls DispatchScenario.openai
    [Scenario.call_greet; Scenario.call_foo; Scenario.call_greet]
    [Scenario.greet] [] []
  = dispatch_from DispatchScenario.openai [Scenario.greet] []
      (append_message DispatchScenario.after_greet
         DispatchScenario.foo_not_found)
      [Scenario.call_greet] [].
Proof.
  destruct (missing_tool_reported_and_batch_continues
              DispatchScenario.openai [Scenario.greet] [] [Scenario.call_greet]
              Scenario.call_foo [Scenario.call_greet] []
              (partial_response := DispatchScenario.after_greet) (w1 := []))
    as [m (Hm & _ & _ & _ & Hall)].
  - reflexivity.
  - simpl. intros [E | []]. discriminate E.
  - reflexivity.
  - injection Hm as <-. exact Hall.
Defined.

Example batch_with_missing_tool :
  handle_tool_calls DispatchScenario.openai
    [Scenario.call_greet; Scenario.call_foo; Scenario.call_greet]
    [Scenario.greet] [] []
  = (Ok {| response_messages :=
             [[("role", JStr "tool"); ("tool_call_id", JStr "call_1");
               ("tool_name", JStr "greet"); ("content", JStr "hello")];
              DispatchScenario.foo_not_found;
              [("role", JStr "tool"); ("tool_call_id", JStr "call_1");
               ("tool_name", JStr "greet"); ("content", JStr "hello")]];
           response_agent := None;
           response_context_variables := [] |}, []).
Proof. reflexivity. Qed.

Lemma context_updates_last_write_wins_witness :
  dict_get "k" (response_context_variables DispatchScenario.after_batch)
  = Some (JInt 2)
  /\ exists st',
       dispatch_turn DispatchScenario.openai DispatchScenario.state_K
         [Scenario.call_to "c1" "first"; Scenario.call_to "c2" "second";
          Scenario.call_greet] []
       = (Ok st', [])
       /\ dict_get "k" (l_context_variables st') = Some (JInt 2).
Proof.
  apply (@context_updates_last_write_wins Scenario.World
           DispatchScenario.openai DispatchScenario.state_K
           [Scenario.call_to "c1" "first"; Scenario.call_to "c2" "second";
            Scenario.call_greet] [] DispatchScenario.after_batch []
           [DispatchScenario.wrote 1]
           (DispatchScenario.wrote 2)
           [{| result_value := "hello"; result_agent := None;
               result_context_variables := [] |}]
           "k" (JInt 2)).
  - reflexivity.
  - reflexivity.
  - simpl. repeat constructor. simpl. tauto.
  - reflexivity.
  - intros r' [<- | []]. reflexivity.
Defined.

(** ** The sender of the assistant messages *)

Section Sender.
Context {World : Type}.

(** In [run], modes ["openai"] and ["ollama"]: the entry appended for the
    message of a turn has for sender the name of the active agent. *)
Lemma run_entry_sender (self : Swarm World) history m (active : Agent World) :
  Str.in_tuple (mode self) ["openai"; "ollama"] = true ->
  exists entry,
    update_history self history (set_sender m (agent_name active))
    = history ++ [entry]
    /\ dict_get "sender" entry = Some (JStr (agent_name active)).
Proof.
  intros Hmode. unfold update_history, history_entry. rewrite Hmode.
  eexists. split; reflexivity.
Qed.

(** The accumulator leaves alone a field that the delta does not have. *)
Lemma merge_fold_other k (source : pydict json) :
  dict_get k source = None ->
  forall target : pydict json,
    dict_get k
      (fold_left
         (fun acc kv =>
            let '(k', v) := kv in
            match v with
            | JNull => acc
            | _ => dict_set k'
                     (merge_value
                        (match dict_get k' acc with
                         | Some t => t
                         | None => JNull
                         end) v) acc
            end) source target)
    = dict_get k target.
Proof.
  induction source as [| [k' v] source IH]; intros Hk target;
    cbn [fold_left]; [reflexivity |].
  change (dict_get k ((k', v) :: source))
    with (if String.eqb k k' then Some v else dict_get k source) in Hk.
  destruct (String.eqb k k') eqn:E; [discriminate |].
  apply String.eqb_neq in E.
  rewrite IH by assumption.
  destruct v; try reflexivity; now apply dict_get_set_ne.
Qed.

Lemma merge_fields_other k (target source : Message) :
  dict_get k source = None ->
  dict_get k (merge_fields target source) = dict_get k target.
Proof.
  intros Hk. unfold merge_fields. cbn [merge_value].
  now apply merge_fold_other.
Qed.

(** [merge_chunk] keeps the sender that the message of the turn started
    with: the delta it is given has lost its own. *)
Lemma merge_chunk_keeps_sender (message delta message' : Message) :
  merge_chunk message (dict_pop "sender" (dict_pop "role" delta))
  = Ok message' ->
  dict_get "sender" message' = dict_get "sender" message.
Proof.
  unfold merge_chunk. set (d := dict_pop "sender" (dict_pop "role" delta)).
  assert (dict_get "sender" (dict_pop "tool_calls" d) = None) as Hd.
  { rewrite dict_get_pop_ne by discriminate. apply dict_get_pop. }
  intros H.
  destruct (dict_get "tool_calls" d) as [[| | | | fragments |] |];
    try (injection H as <-; now apply merge_fields_other).
  destruct (merge_tool_calls _ fragments) as [calls' | |];
    try discriminate.
  cbn [obind] in H. injection H as <-.
  rewrite dict_get_set_ne by discriminate.
  now apply merge_fields_other.
Qed.

(** Through the chunks of a turn the message keeps its sender, whoever
    the active agent is. *)
Lemma handle_chunks_keep_sender (active : Agent World) chunks :
  forall (message : Message) (out : list (item World)) (w : World)
         message' out' w',
    for_each (handle_chunk active) chunks (message, out) w
    = (Ok (message', out'), w') ->
    dict_get "sender" message' = dict_get "sender" message.
Proof.
  induction chunks as [| chunk chunks IH];
    intros message out w message' out' w' H.
  - cbn in H. now injection H as <- <- <-.
  - cbn [for_each] in H. unfold bind at 1 in H.
    destruct (handle_chunk active (message, out) chunk w)
      as [[[message1 out1] | e |] w1] eqn:Hstep; try discriminate.
    rewrite (IH _ _ _ _ _ _ H).
    unfold handle_chunk in Hstep.
    destruct chunk as [| delta chunk']; [discriminate |].
    unfold bind, ret, raise, lift in Hstep.
    destruct (dict_get "role" delta) as [role |]; [| discriminate].
    match type of Hstep with
    | context [merge_chunk message (dict_pop "sender" (dict_pop "role" ?d))] =>
        destruct (merge_chunk message (dict_pop "sender" (dict_pop "role" d)))
          as [merged | |] eqn:Hmerge; try discriminate
    end.
    injection Hstep as <- <- <-.
    now apply merge_chunk_keeps_sender in Hmerge.
Qed.

Lemma close_tool_calls_keeps_sender (message message' : Message) :
  close_tool_calls message = Ok message' ->
  dict_get "sender" message' = dict_get "sender" message.
Proof.
  unfold close_tool_calls. intros H.
  destruct (dict_get "tool_calls" message) as [[| | | | |] |];
    try discriminate; injection H as <-;
    now rewrite dict_get_set_ne by discriminate.
Qed.

(** The message that a turn of [run_and_stream] appends has for sender
    the name of [agent], the agent the call was made with, not the name of
    the active agent of the turn. *)
Lemma stream_turn_sender (agent active : Agent World) chunks out w
    message out' w' entry :
  for_each (handle_chunk active) chunks (new_stream_message agent, out) w
  = (Ok (message, out'), w') ->
  close_tool_calls message = Ok entry ->
  dict_get "sender" entry = Some (JStr (agent_name agent)).
Proof.
  intros Hchunks Hclose.
  rewrite (close_tool_calls_keeps_sender _ Hclose).
  now rewrite (handle_chunks_keep_sender _ _ _ _ _ Hchunks).
Qed.

End Sender.

Module HandoffScenario.
Import Scenario.

Definition agent_B : Agent World :=
  {| agent_name := "B";
     agent_model := Some "gpt-4o";
     agent_instructions := InstructionsStr "You are B.";
     agent_functions := [];
     agent_tool_choice := None;
     agent_parallel_tool_calls := true |}.

(** A tool that hands the conversation to [agent_B]. *)
Definition transfer_to_B : AgentFunction World :=
  {| __name__ := "transfer_to_B";
     co_varnames := [];
     call := fun _ => ret (RawAgent agent_B) |}.

Definition agent_A : Agent World :=
  {| agent_name := "A";
     agent_model := Some "gpt-4o";
     agent_instructions := InstructionsStr "You are A.";
     agent_functions := [transfer_to_B];
     agent_tool_choice := None;
     agent_parallel_tool_calls := true |}.

(** The stream of the first turn: one chunk, a call of [transfer_to_B]. *)
Definition first_stream : Completion :=
  ChatStream
    [[[("content", JNull); ("function_call", JNull);
       ("role", JStr "assistant");
       ("tool_calls",
        JList [JDict [("index", JInt 0); ("id", JStr "call_1");
                      ("function", JDict [("arguments", JStr "{}");
                                          ("name", JStr "transfer_to_B")]);
                      ("type", JStr "function")]])]]].

(** The stream of the second turn: a text in two chunks. *)
Definition second_stream : Completion :=
  ChatStream
    [[[("content", JStr "Hello "); ("function_call", JNull);
       ("role", JStr "assistant"); ("tool_calls", JNull)]];
     [[("content", JStr "from B"); ("function_call", JNull);
       ("role", JNull); ("tool_calls", JNull)]]].

Definition engine : Swarm World :=
  {| mode := "openai";
     client := Some (scripted [Ok first_stream; Ok second_stream]) |}.

Definition user_says_hi : Message :=
  [("role", JStr "user"); ("content", JStr "Hi")].

(** The three messages of the run: the call of the tool, its result, and
    the text of the second turn. *)
Definition turn1_message : Message :=
  [("content", JStr ""); ("sender", JStr "A"); ("role", JStr "assistant");
   ("function_call", JNull);
   ("tool_calls",
    JList [JDict [("function", JDict [("arguments", JStr "{}");
                                      ("name", JStr "transfer_to_B")]);
                  ("id", JStr "call_1"); ("type", JStr "function")]])].

Definition tool_message : Message :=
  [("role", JStr "tool"); ("tool_call_id", JStr "call_1");
   ("tool_name", JStr "transfer_to_B");
   ("content", JStr (dq "{`assistant`: `B`}"))].

Definition turn2_message : Message :=
  [("content", JStr "Hello from B"); ("sender", JStr "A");
   ("role", JStr "assistant"); ("function_call", JNull);
   ("tool_calls", JNull)].

(** The first delta of the second turn, as it is yielded. *)
Definition turn2_delta : Message :=
  [("content", JStr "Hello "); ("function_call", JNull);
   ("role", JStr "assistant"); ("tool_calls", JNull); ("sender", JStr "B")].

(** What the generator yields before the response. *)
Definition yielded : list (item World) :=
  [YieldDict [("delim", JStr "start")];
   YieldDict
     [("content", JNull); ("function_call", JNull);
      ("role", JStr "assistant");
      ("tool_calls",
       JList [JDict [("index", JInt 0); ("id", JStr "call_1");
                     ("function", JDict [("arguments", JStr "{}");
                                         ("name", JStr "transfer_to_B")]);
                     ("type", JStr "function")]]);
      ("sender", JStr "A")];
   YieldDict [("delim", JStr "end")];
   YieldDict [("delim", JStr "start")];
   YieldDict turn2_delta;
   YieldDict
     [("content", JStr "from B"); ("function_call", JNull);
      ("role", JNull); ("tool_calls", JNull)];
   YieldDict [("delim", JStr "end")]].

End HandoffScenario.

(** C4 on the streaming loop after a handoff: the first turn of agent
    ["A"] calls a tool that returns agent ["B"]; in the second turn the
    active agent is ["B"] (its name is on the delta that is yielded, and
    it is the agent of the response), and the assistant message appended
    to the history has the sender ["A"], the name of the agent the call
    was made with. *)
Theorem stream_message_sender_after_handoff :
  fst (run_and_stream Scenario.describe 2 HandoffScenario.engine
         HandoffScenario.agent_A [HandoffScenario.user_says_hi] [] None []
         Infinity true [])
  = Ok (HandoffScenario.yielded
        ++ [YieldResponse
              {| response_messages :=
                   [HandoffScenario.turn1_message;
                    HandoffScenario.tool_message;
                    HandoffScenario.turn2_message];
                 response_agent := Some HandoffScenario.agent_B;
                 response_context_variables := [] |}])
  /\ In (YieldDict HandoffScenario.turn2_delta) HandoffScenario.yielded
  /\ dict_get "sender" HandoffScenario.turn2_delta = Some (JStr "B")
  /\ dict_get "sender" HandoffScenario.turn2_message = Some (JStr "A")
  /\ agent_name HandoffScenario.agent_B = "B".
Proof.
  split; [vm_compute; reflexivity |].
  repeat split; try reflexivity.
  simpl. tauto.
Qed.

(** ** The last output in the mode ["gemini"] *)

Module GeminiScenario.
Import Scenario.

(** The message of a completion that only has a text. *)
Definition text_message (content : string) : ChatCompletionMessage :=
  {| msg_content := Some content; msg_refusal := None;
     msg_role := "assistant"; msg_function_call := JNull;
     msg_tool_calls := None; msg_sender := None |}.

(** An engine whose backend answers the first request with that text. *)
Definition engine (content : string) : Swarm World :=
  {| mode := "gemini";
     client := Some (scripted [Ok (ChatCompletion [text_message content])]) |}.

Definition agent_G : Agent World :=
  {| agent_name := "G";
     agent_model := Some "gemini-2.0-flash";
     agent_instructions := InstructionsStr "You are G.";
     agent_functions := [];
     agent_tool_choice := None;
     agent_parallel_tool_calls := true |}.

Definition user_says_hi : Message :=
  [("role", JStr "user"); ("content", JStr "Hi")].

(** The state of the loop of [run] when it ends, and the history entry
    of its only turn. *)
Definition final_state (content : string) : outcome (loop_state World) :=
  fst (run_loop describe 1 (engine content) None [] Infinity true 1
         {| l_active_agent := agent_G; l_context_variables := [];
            l_history := [user_says_hi] |} []).

Definition stored_entry (content : string) : Message :=
  [("role", JStr "assistant");
   ("content", JStr (gemini_content (set_sender (text_message content) "G")))].

End GeminiScenario.

Example gemini_entry_text :
  gemini_content (set_sender (GeminiScenario.text_message "it's") "G")
  = dq "{`content`: `it`s`, `refusal`: null, `role`: `assistant`, `function_call`: null, `tool_calls`: null, `sender`: `G`}".
Proof. reflexivity. Qed.

(** C10: there is a content, the text [it's], for which in the mode
    ["gemini"] the only turn of a run succeeds (the backend answers, the
    loop ends normally with the entry in the history), the content of the
    stored entry is not a JSON text, and [run] ends with the error of the
    decoder raised by the post-processing of the last output. *)
Theorem gemini_postprocessing_can_abort_the_run :
  exists content : string,
    Str.mem_char squote content = true
    /\ GeminiScenario.final_state content
       = Ok {| l_active_agent := GeminiScenario.agent_G;
               l_context_variables := [];
               l_history := [GeminiScenario.user_says_hi;
                             GeminiScenario.stored_entry content] |}
    /\ Json.loads
         (gemini_content (set_sender (GeminiScenario.text_message content) "G"))
       = Raise (JSONDecodeError "Expecting ',' delimiter")
    /\ fst (run Scenario.describe 1 (GeminiScenario.engine content)
              GeminiScenario.agent_G [GeminiScenario.user_says_hi] [] None []
              false Infinity true [])
       = Raise (JSONDecodeError "Expecting ',' delimiter").
Proof.
  exists "it's". repeat split; vm_compute; reflexivity.
Qed.

(** The text [None] alone does not abort the run: the patched entry is a
    JSON text, and the content comes back as [null]. *)
Example gemini_none_is_rewritten :
  fst (run Scenario.describe 1 (GeminiScenario.engine "None")
         GeminiScenario.agent_G [GeminiScenario.user_says_hi] [] None []
         false Infinity true [])
  = Ok (Returned
          {| response_messages :=
               [[("role", JStr "assistant"); ("content", JStr "null")]];
             response_agent := Some GeminiScenario.agent_G;
             response_context_variables := [] |}).
Proof. vm_compute. reflexivity. Qed.

(** A plain text comes back unwrapped and stripped. *)
Example gemini_plain_text :
  fst (run Scenario.describe 1 (GeminiScenario.engine " Hello there ")
         GeminiScenario.agent_G [GeminiScenario.user_says_hi] [] None []
         false Infinity true [])
  = Ok (Returned
          {| response_messages :=
               [[("role", JStr "assistant"); ("content", JStr "Hello there")]];
             response_agent := Some GeminiScenario.agent_G;
             response_context_variables := [] |}).
Proof. vm_compute. reflexivity. Qed.

(** ** The objects of the caller *)

Arguments Store.YDict {World} d.

Section Frame.
Context {World : Type}.
Import Store.

(** The objects that exist when the call is made are the objects at the
    addresses below [n0]. *)
Variable n0 : nat.

Definition unchanged_below (h h' : heap) : Prop :=
  forall l, l < n0 -> nth_error h' l = nth_error h l.

Lemma unchanged_refl h : unchanged_below h h.
Proof. intros l _. reflexivity. Qed.

Lemma unchanged_trans h1 h2 h3 :
  unchanged_below h1 h2 -> unchanged_below h2 h3 -> unchanged_below h1 h3.
Proof. intros H12 H23 l Hl. rewrite H23, H12; auto. Qed.

Definition new (l : nat) : Prop := n0 <= l.

(** From a heap that satisfies [P], the computation leaves the objects
    below [n0] as they are, and when it returns a value, [Q] holds of the
    value and of the heap. *)
Definition triple (P : heap -> Prop) {A : Type} (m : M (St World) A)
    (Q : A -> heap -> Prop) : Prop :=
  forall s, P (snd s) ->
    unchanged_below (snd s) (snd (snd (m s)))
    /\ forall a, fst (m s) = Ok a -> Q a (snd (snd (m s))).

Lemma triple_bind {A B : Type} P (Q : A -> heap -> Prop)
    (R : B -> heap -> Prop) (m : M (St World) A) (k : A -> M (St World) B) :
  triple P m Q -> (forall a, triple (Q a) (k a) R) -> triple P (bind m k) R.
Proof.
  intros Hm Hk s HP. unfold bind.
  destruct (Hm s HP) as [Hframe HQ].
  destruct (m s) as [[a | e |] s1]; cbn [fst snd] in *.
  - destruct (Hk a s1 (HQ a eq_refl)) as [Hframe' HR].
    split; [eapply unchanged_trans; eassumption | exact HR].
  - split; [assumption | discriminate].
  - split; [assumption | discriminate].
Qed.

Lemma triple_conseq {A : Type} (P P' : heap -> Prop)
    (Q Q' : A -> heap -> Prop) (m : M (St World) A) :
  triple P m Q ->
  (forall h, P' h -> P h) -> (forall a h, Q a h -> Q' a h) ->
  triple P' m Q'.
Proof.
  intros Hm HP HQ s Hs. destruct (Hm s (HP _ Hs)) as [Hframe Hpost].
  split; [assumption | intros a Ha; apply HQ; now apply Hpost].
Qed.

(** A computation that does not touch the objects. *)
Definition reads_only {A : Type} (m : M (St World) A) : Prop :=
  forall s, snd (snd (m s)) = snd s.

Lemma triple_reads_only {A : Type} P (m : M (St World) A) :
  reads_only m -> triple P m (fun _ => P).
Proof.
  intros Hm s HP.
  split; [rewrite Hm; apply unchanged_refl | intros a _; now rewrite Hm].
Qed.

Lemma reads_only_bind {A B : Type} (m : M (St World) A)
    (k : A -> M (St World) B) :
  reads_only m -> (forall a, reads_only (k a)) -> reads_only (bind m k).
Proof.
  intros Hm Hk s. unfold bind. specialize (Hm s).
  destruct (m s) as [[a | e |] s1]; cbn [snd] in *; try assumption.
  now rewrite Hk.
Qed.

Lemma reads_only_ret {A : Type} (a : A) : reads_only (ret a).
Proof. intros s. reflexivity. Qed.

Lemma reads_only_lift {A : Type} (o : outcome A) : reads_only (lift o).
Proof. intros s. reflexivity. Qed.

Lemma reads_only_raise {A : Type} (e : exn) :
  reads_only (raise (A := A) e).
Proof. intros s. reflexivity. Qed.

Lemma reads_only_read l : reads_only (read (World := World) l).
Proof. intros s. unfold read. now destruct (nth_error (snd s) l). Qed.

Lemma reads_only_external {A : Type} (m : M World A) :
  reads_only (external m).
Proof. intros s. unfold external. now destruct (m (fst s)). Qed.

Lemma reads_only_read_list l : reads_only (read_list (World := World) l).
Proof.
  apply reads_only_bind; [apply reads_only_read |].
  intros [items | d]; [apply reads_only_ret | apply reads_only_lift].
Qed.

Lemma reads_only_read_dict l : reads_only (read_dict (World := World) l).
Proof.
  apply reads_only_bind; [apply reads_only_read |].
  intros [items | d]; [apply reads_only_lift | apply reads_only_ret].
Qed.

Lemma reads_only_for_each {A B : Type} (body : B -> A -> M (St World) B) l :
  (forall acc x, reads_only (body acc x)) ->
  forall acc, reads_only (for_each body l acc).
Proof.
  intros Hbody. induction l as [| x l IH]; intros acc; cbn [for_each].
  - apply reads_only_ret.
  - apply reads_only_bind; [apply Hbody | apply IH].
Qed.

Lemma reads_only_snapshot l : reads_only (snapshot (World := World) l).
Proof.
  apply reads_only_bind; [apply reads_only_read_list |].
  intros items. apply reads_only_for_each. intros acc x.
  apply reads_only_bind; [apply reads_only_read_dict |].
  intros d. apply reads_only_ret.
Qed.

Lemma nth_error_set_nth_ne l l' o (h : heap) :
  l <> l' -> nth_error (set_nth l o h) l' = nth_error h l'.
Proof.
  revert l l'. induction h as [| x h IH]; intros [| l] [| l'] Hne;
    cbn; try reflexivity; try congruence.
  apply IH. congruence.
Qed.

Lemma nth_error_set_nth_eq l o (h : heap) :
  l < length h -> nth_error (set_nth l o h) l = Some o.
Proof.
  revert l. induction h as [| x h IH]; intros [| l] Hl; cbn in *;
    try lia; [reflexivity |].
  apply IH. lia.
Qed.

Lemma length_set_nth l o (h : heap) : length (set_nth l o h) = length h.
Proof.
  revert l. induction h as [| x h IH]; intros [| l]; cbn; auto.
Qed.

Lemma alloc_triple (P : heap -> Prop) (Q : nat -> heap -> Prop) o :
  (forall h, P h -> n0 <= length h /\ Q (length h) (h ++ [o])) ->
  triple P (alloc o) Q.
Proof.
  intros H [w h] HP. cbn in *. destruct (H h HP) as [Hlen HQ]. split.
  - intros l Hl. apply nth_error_app1. lia.
  - intros a Ha. injection Ha as <-. exact HQ.
Qed.

Lemma write_triple (P : heap -> Prop) (Q : unit -> heap -> Prop) l o :
  (forall h, P h -> new l /\ (l < length h -> Q tt (set_nth l o h))) ->
  triple P (write l o) Q.
Proof.
  intros H [w h] HP. unfold write. cbn [snd fst].
  destruct (H h HP) as [Hnew HQ].
  destruct (nth_error h l) as [old |] eqn:Hl; cbn [snd fst].
  - assert (l < length h) as Hlt by (apply nth_error_Some; congruence).
    split.
    + intros l' Hl'. apply nth_error_set_nth_ne. unfold new in Hnew. lia.
    + intros [] _. now apply HQ.
  - split; [apply unchanged_refl | discriminate].
Qed.

(** The objects of the loop: the list of the history at [hl], made of new
    dicts, and the dict of the context variables at [cl], both new. *)
Definition good (hl cl : nat) (h : heap) : Prop :=
  new hl /\ new cl /\ hl <> cl
  /\ exists items, nth_error h hl = Some (OList items) /\ Forall new items.

Lemma good_length hl cl h : good hl cl h -> n0 <= length h.
Proof.
  intros (Hhl & _ & _ & items & Hitems & _).
  assert (hl < length h) by (apply nth_error_Some; congruence).
  unfold new in Hhl. lia.
Qed.

Lemma good_alloc hl cl h o : good hl cl h -> good hl cl (h ++ [o]).
Proof.
  intros (Hhl & Hcl & Hne & items & Hitems & Hnew).
  repeat split; try assumption.
  exists items. split; [| assumption].
  rewrite nth_error_app1; [assumption |].
  apply nth_error_Some. congruence.
Qed.

Lemma alloc_good hl cl o :
  triple (good hl cl) (alloc o) (fun l h => good hl cl h /\ new l).
Proof.
  apply alloc_triple. intros h Hgood.
  pose proof (good_length Hgood) as Hlen.
  split; [assumption |]. split; [now apply good_alloc | exact Hlen].
Qed.

Lemma read_list_good hl cl :
  triple (good hl cl) (read_list hl)
    (fun items h => good hl cl h /\ Forall new items).
Proof.
  intros [w h] Hgood. cbn [snd] in Hgood.
  pose proof (reads_only_read_list hl (w, h)) as Heq. cbn [snd] in Heq.
  split; [rewrite Heq; apply unchanged_refl |].
  intros items Hread. rewrite Heq. split; [assumption |].
  destruct Hgood as (_ & _ & _ & items' & Hitems & Hnew).
  unfold read_list, bind, read in Hread. cbn [snd fst] in Hread.
  rewrite Hitems in Hread. cbn in Hread. now injection Hread as <-.
Qed.

Lemma good_set_list hl cl h items :
  good hl cl h -> hl < length h -> Forall new items ->
  good hl cl (set_nth hl (OList items) h).
Proof.
  intros (Hhl & Hcl & Hne & _) Hlt Hitems.
  repeat split; try assumption.
  exists items. split; [now apply nth_error_set_nth_eq | assumption].
Qed.

Lemma good_set_other hl cl h l o :
  good hl cl h -> l <> hl -> good hl cl (set_nth l o h).
Proof.
  intros (Hhl & Hcl & Hne & items & Hitems & Hnew) Hl.
  repeat split; try assumption.
  exists items. split; [| assumption].
  now rewrite nth_error_set_nth_ne.
Qed.

Lemma list_extend_good hl cl xs :
  Forall new xs ->
  triple (good hl cl) (list_extend hl xs) (fun _ => good hl cl).
Proof.
  intros Hxs. unfold list_extend.
  eapply triple_bind; [apply read_list_good |].
  intros items. apply write_triple.
  intros h [Hgood Hitems]. split; [apply Hgood |].
  intros Hlt. apply good_set_list; try assumption.
  apply Forall_app. now split.
Qed.

Lemma append_new_good hl cl entry :
  triple (good hl cl) (append_new hl entry) (fun _ => good hl cl).
Proof.
  unfold append_new.
  eapply triple_bind; [apply alloc_good |].
  intros x.
  intros s [Hgood Hx].
  apply (list_extend_good (hl := hl) (cl := cl) (xs := [x])); [| assumption].
  now constructor.
Qed.

Lemma alloc_dicts_good hl cl ds :
  forall acc,
    Forall new acc ->
    triple (good hl cl)
      (for_each (fun acc d => x <- alloc (ODict d) ;; ret (acc ++ [x])) ds acc)
      (fun xs h => good hl cl h /\ Forall new xs).
Proof.
  induction ds as [| d ds IH]; intros acc Hacc; cbn [for_each].
  - intros s Hgood. cbn. split; [apply unchanged_refl |].
    intros a Ha. injection Ha as <-. now split.
  - apply (triple_bind
             (Q := fun acc' h => good hl cl h /\ Forall new acc')).
    + eapply triple_bind; [apply alloc_good |].
      intros x s [Hgood Hx]. cbn. split; [apply unchanged_refl |].
      intros a Ha. injection Ha as <-.
      split; [assumption |].
      apply Forall_app. split; [assumption | now constructor].
    + intros acc' s [Hgood Hacc']. now apply IH.
Qed.

Lemma write_context_good hl cl d :
  triple (good hl cl) (write cl (ODict d)) (fun _ => good hl cl).
Proof.
  apply write_triple. intros h Hgood. split; [apply Hgood |].
  intros _. apply good_set_other; [assumption |].
  destruct Hgood as (_ & _ & Hne & _). congruence.
Qed.

Lemma triple_ret {A : Type} (P : heap -> Prop) (Q : A -> heap -> Prop) a :
  (forall h, P h -> Q a h) -> triple P (ret a) Q.
Proof.
  intros H s HP. cbn. split; [apply unchanged_refl |].
  intros a' Ha. injection Ha as <-. now apply H.
Qed.

Lemma triple_lift {A : Type} (P : heap -> Prop) (Q : A -> heap -> Prop) o :
  (forall a h, o = Ok a -> P h -> Q a h) -> triple P (lift o) Q.
Proof.
  intros H s HP. cbn. split; [apply unchanged_refl |].
  intros a Ha. now apply H.
Qed.

Lemma triple_raise {A : Type} (P : heap -> Prop) (Q : A -> heap -> Prop) e :
  triple P (raise e) Q.
Proof.
  intros s HP. cbn. split; [apply unchanged_refl | discriminate].
Qed.

Variable function_to_json : AgentFunction World -> Tool.

(** The state of the loop keeps the addresses [hl] and [cl]. *)
Definition at_objects (hl cl : nat) (st : loop_state World) (h : heap)
  : Prop :=
  good hl cl h /\ l_history st = hl /\ l_context_variables st = cl.

Lemma dispatch_turn_good self (st : loop_state World) tool_calls :
  triple (good (l_history st) (l_context_variables st))
    (dispatch_turn self st tool_calls)
    (at_objects (l_history st) (l_context_variables st)).
Proof.
  unfold dispatch_turn.
  eapply triple_bind;
    [apply triple_reads_only, reads_only_read_dict |]. intros context_variables.
  eapply triple_bind;
    [apply triple_reads_only, reads_only_external |]. intros partial_response.
  eapply triple_bind; [apply alloc_dicts_good; constructor |]. intros entries.
  apply (triple_bind
           (Q := fun _ => good (l_history st) (l_context_variables st))).
  { intros s [Hgood Hentries]. now apply list_extend_good. }
  intros ?.
  eapply triple_bind;
    [apply triple_reads_only, reads_only_read_dict |]. intros context_variables'.
  eapply triple_bind; [apply write_context_good |]. intros ?.
  apply triple_ret. intros h Hgood.
  split; [exact Hgood | split; solve [reflexivity | assumption]].
Qed.

Lemma request_completion_reads_only self (st : loop_state World)
    model_override stream model_config :
  reads_only
    (request_completion function_to_json self st model_override stream
       model_config).
Proof.
  unfold request_completion.
  apply reads_only_bind; [apply reads_only_snapshot |]. intros history.
  apply reads_only_bind; [apply reads_only_read_dict |]. intros cv.
  apply reads_only_external.
Qed.

(** The loop of [run] writes at its own objects only. *)
Lemma run_loop_good self model_override model_config max_turns
    execute_tools init_len hl cl fuel :
  forall st : loop_state World,
    l_history st = hl -> l_context_variables st = cl ->
    triple (good hl cl)
      (run_loop function_to_json fuel self model_override model_config
         max_turns execute_tools init_len st)
      (fun st' => at_objects hl cl st').
Proof.
  induction fuel as [| fuel IH]; intros st Hhl Hcl; cbn [run_loop].
  - eapply triple_bind;
      [apply triple_reads_only, reads_only_read_list |]. intros items.
    destruct (negb (turns_left (length items) init_len max_turns)).
    + apply triple_ret. intros h Hgood.
  split; [exact Hgood | split; solve [reflexivity | assumption]].
    + apply triple_lift. discriminate.
  - eapply triple_bind;
      [apply triple_reads_only, reads_only_read_list |]. intros items.
    destruct (negb (turns_left (length items) init_len max_turns)).
    { apply triple_ret. intros h Hgood.
  split; [exact Hgood | split; solve [reflexivity | assumption]]. }
    eapply triple_bind;
      [apply triple_reads_only, request_completion_reads_only |].
    intros completion.
    eapply triple_bind; [apply triple_reads_only, reads_only_lift |].
    intros m.
    apply (triple_bind (Q := fun _ => good hl cl)).
    { destruct (history_entry self _) as [entry |].
      - rewrite Hhl. apply append_new_good.
      - apply triple_ret. auto. }
    intros ?.
    destruct (negb (tool_calls_truthy _) || negb execute_tools).
    { apply triple_ret. intros h Hgood.
  split; [exact Hgood | split; solve [reflexivity | assumption]]. }
    apply (triple_bind (Q := fun st' => at_objects hl cl st')).
    { rewrite <- Hhl, <- Hcl. apply dispatch_turn_good. }
    intros st' s (Hgood & Hhl' & Hcl'). now apply IH.
Qed.

(** So does the loop of [run_and_stream]. *)
Lemma stream_loop_good self agent model_override model_config max_turns
    execute_tools init_len hl cl fuel :
  forall (st : loop_state World) out,
    l_history st = hl -> l_context_variables st = cl ->
    triple (good hl cl)
      (stream_loop function_to_json fuel self agent model_override
         model_config max_turns execute_tools init_len st out)
      (fun r => at_objects hl cl (fst r)).
Proof.
  induction fuel as [| fuel IH]; intros st out Hhl Hcl; cbn [stream_loop].
  - eapply triple_bind;
      [apply triple_reads_only, reads_only_read_list |]. intros items.
    destruct (negb (turns_left (length items) init_len max_turns)).
    + apply triple_ret. intros h Hgood.
      split; [exact Hgood | split; assumption].
    + apply triple_lift. discriminate.
  - eapply triple_bind;
      [apply triple_reads_only, reads_only_read_list |]. intros items.
    destruct (negb (turns_left (length items) init_len max_turns)).
    { apply triple_ret. intros h Hgood.
      split; [exact Hgood | split; assumption]. }
    eapply triple_bind;
      [apply triple_reads_only, request_completion_reads_only |].
    intros completion.
    eapply triple_bind; [apply triple_reads_only, reads_only_lift |].
    intros chunks.
    eapply triple_bind; [apply triple_reads_only, reads_only_external |].
    intros [message out'].
    eapply triple_bind; [apply triple_reads_only, reads_only_lift |].
    intros message'.
    apply (triple_bind (Q := fun _ => good hl cl)).
    { rewrite Hhl. apply append_new_good. }
    intros ?.
    destruct (dict_get "tool_calls" message') as [[| | | | [| tc tcs] |] |];
      try (apply triple_ret; intros h Hgood;
           split; [exact Hgood | split; assumption]).
    destruct (negb execute_tools).
    { apply triple_ret. intros h Hgood.
      split; [exact Hgood | split; assumption]. }
    eapply triple_bind; [apply triple_reads_only, reads_only_lift |].
    intros tool_calls.
    apply (triple_bind (Q := fun st' => at_objects hl cl st')).
    { rewrite <- Hhl, <- Hcl. apply dispatch_turn_good. }
    intros st' s (Hgood & Hhl' & Hcl'). now apply IH.
Qed.

Lemma In_skipn {A : Type} n (l : list A) x : In x (skipn n l) -> In x l.
Proof.
  intros H. rewrite <- (firstn_skipn n l). apply in_or_app. now right.
Qed.

(** What is left of [good] when a dict of the history has been written. *)
Definition weak (hl cl : nat) (h : heap) : Prop :=
  new cl
  /\ forall items, nth_error h hl = Some (OList items) -> Forall new items.

Lemma good_weak hl cl h : good hl cl h -> weak hl cl h.
Proof.
  intros (_ & Hcl & _ & items & Hitems & Hnew). split; [assumption |].
  intros items' H. congruence.
Qed.

(** The post-processing writes at a dict of the history, a new object. *)
Lemma postprocess_weak init_len hl cl :
  triple (good hl cl) (postprocess init_len hl) (fun _ => weak hl cl).
Proof.
  unfold postprocess.
  eapply triple_bind; [apply read_list_good |]. intros items.
  destruct (rev (skipn init_len items)) as [| last rest] eqn:Hrev.
  { apply triple_raise. }
  assert (In last items) as Hin.
  { apply (In_skipn init_len). apply in_rev. rewrite Hrev. now left. }
  eapply triple_bind; [apply triple_reads_only, reads_only_read_dict |].
  intros d.
  destruct (dict_get "content" d) as [content |]; [| apply triple_raise].
  eapply triple_bind; [apply triple_reads_only, reads_only_lift |].
  intros stripped.
  apply write_triple. intros h [Hgood Hitems]. split.
  - rewrite Forall_forall in Hitems. now apply Hitems.
  - intros Hlt. split; [apply Hgood |].
    intros items' Hread.
    destruct (Nat.eq_dec last hl) as [-> | Hne].
    + rewrite nth_error_set_nth_eq in Hread by assumption. discriminate.
    + rewrite nth_error_set_nth_ne in Hread by assumption.
      destruct Hgood as (_ & _ & _ & items0 & Hitems0 & Hnew0). congruence.
Qed.

(** The objects that the entry of the loops allocates. *)
Lemma deepcopy_dict_new l :
  triple (fun h => n0 <= length h) (deepcopy_dict l)
    (fun c h => new c /\ c < length h).
Proof.
  unfold deepcopy_dict.
  eapply triple_bind; [apply triple_reads_only, reads_only_read_dict |].
  intros d. apply alloc_triple. intros h Hlen.
  split; [assumption |]. split; [exact Hlen |].
  rewrite length_app. cbn. lia.
Qed.

Lemma copies_new cl items :
  forall acc,
    Forall new acc ->
    triple (fun h => new cl /\ cl < length h)
      (for_each (fun acc x => c <- deepcopy_dict x ;; ret (acc ++ [c]))
         items acc)
      (fun copies h => (new cl /\ cl < length h) /\ Forall new copies).
Proof.
  induction items as [| x items IH]; intros acc Hacc; cbn [for_each].
  - apply triple_ret. intros h Hh. now split.
  - apply (triple_bind
             (Q := fun acc' h => (new cl /\ cl < length h) /\ Forall new acc')).
    + unfold deepcopy_dict.
      eapply triple_bind; [| intros c; apply triple_ret; intros h Hh; exact Hh].
      eapply triple_bind;
        [apply triple_reads_only, reads_only_read_dict |].
      intros d. apply alloc_triple. intros h [Hcl Hlt].
      unfold new in *. split; [lia |].
      split; [split; [assumption | rewrite length_app; cbn; lia] |].
      apply Forall_app. split; [assumption |].
      constructor; [unfold new; lia | constructor].
    + intros acc' s [Hh Hacc']. now apply IH.
Qed.

Lemma enter_good (agent : Agent World) messages context_variables :
  triple (fun h => n0 <= length h) (enter agent messages context_variables)
    (fun r h => good (l_history (fst r)) (l_context_variables (fst r)) h).
Proof.
  unfold enter.
  eapply triple_bind; [apply deepcopy_dict_new |]. intros cl.
  apply (triple_bind (Q := fun hl h => good hl cl h)).
  - unfold deepcopy_list.
    eapply triple_bind; [apply triple_reads_only, reads_only_read_list |].
    intros items.
    eapply triple_bind; [apply copies_new; constructor |].
    intros copies. apply alloc_triple.
    intros h [[Hcl Hlt] Hcopies]. unfold new in *. split; [lia |].
    repeat split; try (unfold new; lia).
    exists copies. split; [| assumption].
    rewrite nth_error_app2 by lia. now rewrite Nat.sub_diag.
  - intros hl.
    eapply triple_bind; [apply triple_reads_only, reads_only_read_list |].
    intros items. apply triple_ret. auto.
Qed.

(** The objects of a response are new objects. *)
Definition new_response (r : ResponseRef World) : Prop :=
  Forall new (ref_messages r) /\ new (ref_context_variables r).

Lemma response_of_new init_len (st : loop_state World) :
  triple (weak (l_history st) (l_context_variables st))
    (response_of init_len st) (fun r _ => new_response r).
Proof.
  unfold response_of. intros [w h] [Hcl Hitems]. cbn [snd] in *.
  unfold bind, read_list, read, bind. cbn [snd fst].
  destruct (nth_error h (l_history st)) as [[items | d] |] eqn:Hread;
    cbn; (split; [apply unchanged_refl |]); try discriminate.
  intros r Hr. injection Hr as <-. split; cbn.
  - specialize (Hitems items eq_refl).
    rewrite Forall_forall in *. intros x Hx. apply Hitems.
    now apply (In_skipn init_len).
  - assumption.
Qed.

(** The responses among what is yielded. *)
Definition new_output (out : output World) : Prop :=
  match out with
  | Returns r => new_response r
  | Generates items =>
      forall r : ResponseRef World, In (YResponse r) items -> new_response r
  end.

Lemma yielded_dicts_no_response out (r : ResponseRef World) :
  ~ In (YResponse r) (yielded_dicts out).
Proof.
  induction out as [| [d | r'] out IH]; cbn; [tauto | | assumption].
  intros [H | H]; [discriminate | contradiction].
Qed.

Lemma run_and_stream_good fuel self agent messages context_variables
    model_override model_config max_turns execute_tools :
  triple (fun h => n0 <= length h)
    (run_and_stream function_to_json fuel self agent messages
       context_variables model_override model_config max_turns execute_tools)
    (fun items _ => new_output (Generates items)).
Proof.
  unfold run_and_stream.
  eapply triple_bind; [apply enter_good |]. intros [st init_len].
  cbn [fst].
  apply (triple_bind
           (Q := fun r => at_objects (l_history st) (l_context_variables st)
                            (fst r))).
  { now apply stream_loop_good. }
  intros [st' out].
  apply (triple_bind (Q := fun r _ => new_response r)).
  { intros s (Hgood & Hhl & Hcl). cbn [fst] in *.
    apply response_of_new. rewrite Hhl, Hcl. now apply good_weak. }
  intros response. apply triple_ret. intros h Hnew r Hin.
  apply in_app_or in Hin. destruct Hin as [Hin | [Heq | []]].
  - now apply yielded_dicts_no_response in Hin.
  - now injection Heq as <-.
Qed.

Lemma run_good fuel self agent messages context_variables model_override
    model_config stream max_turns execute_tools :
  triple (fun h => n0 <= length h)
    (run function_to_json fuel self agent messages context_variables
       model_override model_config stream max_turns execute_tools)
    (fun out _ => new_output out).
Proof.
  unfold run. destruct stream.
  - eapply triple_bind; [apply run_and_stream_good |].
    intros items. apply triple_ret. auto.
  - eapply triple_bind; [apply enter_good |]. intros [st init_len].
    cbn [fst].
    apply (triple_bind
             (Q := fun st' => at_objects (l_history st)
                                (l_context_variables st) st')).
    { now apply run_loop_good. }
    intros st'.
    apply (triple_bind
             (Q := fun _ => weak (l_history st') (l_context_variables st'))).
    { intros s (Hgood & Hhl & Hcl). rewrite Hhl, Hcl.
      destruct (Str.contains (mode self) "gemini").
      - now apply postprocess_weak.
      - cbn. split; [apply unchanged_refl |].
        intros a _. now apply good_weak. }
    intros ?.
    eapply triple_bind; [apply response_of_new |]. intros response.
    apply triple_ret. auto.
Qed.

End Frame.

(** C9: whatever a run does and however it ends, blocking or streaming,
    every object that exists when the call is made (the list of messages
    of the caller, its dicts, the dict of context variables among them) is
    the same after the call; the history and the mapping of the loop are
    copies, objects made by the call, and so are the objects of the
    response. *)
Theorem run_leaves_caller_objects_unchanged {World : Type}
    (function_to_json : AgentFunction World -> Tool) fuel self agent
    (messages context_variables : nat) model_override model_config stream
    max_turns execute_tools (s : Store.St World) :
  let result :=
    Store.run function_to_json fuel self agent messages context_variables
      model_override model_config stream max_turns execute_tools s in
  (forall l, l < length (snd s) ->
             nth_error (snd (snd result)) l = nth_error (snd s) l)
  /\ (forall out, fst result = Ok out -> new_output (length (snd s)) out).
Proof.
  cbv zeta.
  exact (run_good function_to_json fuel self agent messages
           context_variables model_override model_config stream max_turns
           execute_tools s (le_n _)).
Qed.

Module StoreScenario.
Import Scenario.

(** The objects of the caller: at 0 the list of two messages, at 1 and 2
    their dicts, at 3 the context variables. *)
Definition caller_heap : Store.heap :=
  [Store.OList [1; 2];
   Store.ODict [("role", JStr "user"); ("content", JStr "Hi")];
   Store.ODict [("role", JStr "user"); ("content", JStr "again")];
   Store.ODict [("k", JInt 0)]].

(** A first answer that calls [first], [foo] and [second], then a text. *)
Definition tool_calls_message : ChatCompletionMessage :=
  {| msg_content := None; msg_refusal := None; msg_role := "assistant";
     msg_function_call := JNull;
     msg_tool_calls :=
       Some [call_to "c1" "first"; call_foo; call_to "c2" "second"];
     msg_sender := None |}.

Definition engine : Swarm World :=
  {| mode := "openai";
     client :=
       Some (scripted [Ok (ChatCompletion [tool_calls_message]);
                       Ok (ChatCompletion [GeminiScenario.text_message "bye"])]) |}.

Definition start : Store.St World := ([], caller_heap).

Definition result : outcome (Store.output World) * Store.St World :=
  Store.run describe 2 engine agent_K 0 3 None [] false Infinity true start.

(** The response: five new dicts, and the copy of the mapping. *)
Definition response : Store.ResponseRef World :=
  {| Store.ref_messages := [8; 9; 10; 11; 12];
     Store.ref_agent := Some agent_K;
     Store.ref_context_variables := 4 |}.

End StoreScenario.

Lemma run_leaves_caller_objects_unchanged_witness :
  nth_error (snd (snd StoreScenario.result)) 0 = Some (Store.OList [1; 2])
  /\ nth_error (snd (snd StoreScenario.result)) 3
     = Some (Store.ODict [("k", JInt 0)])
  /\ new_output 4 (Store.Returns StoreScenario.response).
Proof.
  destruct (run_leaves_caller_objects_unchanged Scenario.describe 2
              StoreScenario.engine Scenario.agent_K 0 3 None [] false Infinity
              true StoreScenario.start) as [Hframe Hnew].
  split; [| split].
  - exact (Hframe 0 (Nat.lt_0_succ 3)).
  - exact (Hframe 3 (Nat.lt_succ_diag_r 3)).
  - apply (Hnew (Store.Returns StoreScenario.response)).
    vm_compute. reflexivity.
Defined.

(** What the run of the scenario leaves: the mapping of the loop has the
    value of the later call, the objects of the caller are as they
    were. *)
Example store_run_objects :
  firstn 5 (snd (snd StoreScenario.result))
  = StoreScenario.caller_heap ++ [Store.ODict [("k", JInt 2)]]
  /\ nth_error (snd (snd StoreScenario.result)) 7
     = Some (Store.OList [5; 6; 8; 9; 10; 11; 12]).
Proof. split; vm_compute; reflexivity. Qed.

(** * Further properties of the engine *)

(** ** The request *)

Section Request.
Context {World : Type}.
Variable function_to_json : AgentFunction World -> Tool.
Implicit Types (self : Swarm World) (agent : Agent World) (w : World).

(** The instructions of a request. *)
Definition resolve_instructions agent (context_variables : pydict json)
  : M World string :=
  match agent_instructions agent with
  | InstructionsFn f => f context_variables
  | InstructionsStr s => ret s
  end.

(** The request before [model_config] is laid over it. *)
Definition default_request agent (history : list Message)
    (model_override : option string) (stream : bool) (instructions : string)
  : pydict param :=
  [("model", param_of_opt (if Str.opt_truthy model_override
                           then model_override else agent_model agent));
   ("messages",
    PMessages ([("role", JStr "system"); ("content", JStr instructions)]
               :: history));
   ("tools", match build_tools function_to_json agent with
             | [] => PNone
             | _ => PTools (build_tools function_to_json agent)
             end);
   ("tool_choice", param_of_opt (agent_tool_choice agent));
   ("stream", PBool stream)].

(** What a request that is built is made of. *)
Lemma build_request_ok agent history context_variables model_override
    stream model_config w create_params tools w' :
  build_request function_to_json agent history context_variables
    model_override stream model_config w = (Ok (create_params, tools), w') ->
  exists instructions,
    resolve_instructions agent context_variables w = (Ok instructions, w')
    /\ (Str.opt_truthy (agent_model agent)
        || Str.opt_truthy model_override = true)
    /\ tools = build_tools function_to_json agent
    /\ create_params
       = dict_update
           (default_request agent history model_override stream instructions)
           model_config.
Proof.
  unfold build_request, resolve_instructions, bind. intros H.
  destruct (match agent_instructions agent with
            | InstructionsFn f => f context_variables
            | InstructionsStr s => ret s
            end w) as [[instructions | e |] w1]; try discriminate.
  destruct (negb (Str.opt_truthy (agent_model agent))
            && negb (Str.opt_truthy model_override)) eqn:E;
    [discriminate |].
  injection H as <- <- <-. exists instructions.
  split; [reflexivity |]. split; [| split; reflexivity].
  destruct (Str.opt_truthy (agent_model agent));
    destruct (Str.opt_truthy model_override); try reflexivity.
  discriminate E.
Qed.

(** X1: in a request that is built, a field that [model_config] sets has
    the value of [model_config], and a field of the request that
    [model_config] does not set keeps the value the request gave it: the
    model is the override when there is one and the model of the agent
    otherwise, the messages are the system message of the instructions
    followed by the history. *)
Theorem model_config_overlays_request agent history context_variables
    model_override stream model_config w create_params tools w' :
  NoDup (dict_keys model_config) ->
  build_request function_to_json agent history context_variables
    model_override stream model_config w = (Ok (create_params, tools), w') ->
  (forall k v, dict_get k model_config = Some v ->
               dict_get k create_params = Some v)
  /\ (dict_get "model" model_config = None ->
      dict_get "model" create_params
      = Some (param_of_opt (if Str.opt_truthy model_override
                            then model_override else agent_model agent)))
  /\ (dict_get "stream" model_config = None ->
      dict_get "stream" create_params = Some (PBool stream))
  /\ (dict_get "messages" model_config = None ->
      exists instructions,
        resolve_instructions agent context_variables w = (Ok instructions, w')
        /\ dict_get "messages" create_params
           = Some (PMessages
                     ([("role", JStr "system"); ("content", JStr instructions)]
                      :: history))).
Proof.
  intros Hnd H.
  destruct (build_request_ok _ _ _ _ _ _ _ H)
    as (instructions & Hinstr & _ & _ & ->).
  repeat split.
  - intros k v Hk. rewrite dict_get_update by assumption. now rewrite Hk.
  - intros Hk. rewrite dict_get_update by assumption. now rewrite Hk.
  - intros Hk. rewrite dict_get_update by assumption. now rewrite Hk.
  - intros Hk. exists instructions. split; [assumption |].
    rewrite dict_get_update by assumption. now rewrite Hk.
Qed.

(** X2: an agent without a model, called without an override, gets the
    configuration error from [get_chat_completion] whatever the mode and
    the client: with instructions that are a text the outside world is
    left as it is, so no request is sent. *)
Theorem no_model_no_request self agent history context_variables
    model_override stream model_config instructions w :
  agent_instructions agent = InstructionsStr instructions ->
  Str.opt_truthy (agent_model agent) = false ->
  Str.opt_truthy model_override = false ->
  get_chat_completion function_to_json self agent history context_variables
    model_override stream model_config w
  = (Raise model_error, w).
Proof.
  intros Hinstr Hmodel Hover.
  unfold get_chat_completion, build_request.
  rewrite Hinstr, Hmodel, Hover. reflexivity.
Qed.

(** X3: in the modes ["ollama"] and ["openai"], when the backend rejects
    the request and accepts it with [tools] and [tool_choice] set to
    [None], [get_chat_completion] returns the completion of the second
    call: two calls are made, the first request and the stripped one. *)
Theorem retry_without_tools_recovers self agent history context_variables
    model_override stream model_config w create_params tools w1 e w2 c w3 :
  Str.in_tuple (mode self) ["ollama"; "openai"] = true ->
  build_request function_to_json agent history context_variables
    model_override stream model_config w = (Ok (create_params, tools), w1) ->
  create self (first_request agent tools create_params) w1 = (Raise e, w2) ->
  create self (stripped_request (first_request agent tools create_params)) w2
  = (Ok c, w3) ->
  get_chat_completion function_to_json self agent history context_variables
    model_override stream model_config w
  = (Ok (Some c), w3).
Proof.
  intros Hmode Hreq H1 H2. unfold get_chat_completion.
  rewrite (bind_ok _ _ _ Hreq). cbn beta iota.
  erewrite invoke_retries_once; [| exact Hmode | exact H1].
  now rewrite H2.
Qed.

(** X4: in the mode ["gemini"] a request that the backend rejects is sent
    once: [get_chat_completion] raises the configuration error from the
    state that the single call left. *)
Theorem gemini_failure_is_configuration_error self agent history
    context_variables model_override stream model_config w create_params
    tools w1 e w2 :
  mode self = "gemini" ->
  build_request function_to_json agent history context_variables
    model_override stream model_config w = (Ok (create_params, tools), w1) ->
  create self create_params w1 = (Raise e, w2) ->
  get_chat_completion function_to_json self agent history context_variables
    model_override stream model_config w
  = (Raise model_error, w2).
Proof.
  intros Hmode Hreq H1. unfold get_chat_completion.
  rewrite (bind_ok _ _ _ Hreq). cbn beta iota.
  eapply invoke_gemini_no_retry; eassumption.
Qed.

(** X5: a mode that is none of the three sends nothing: the request is
    built, [get_chat_completion] returns [None] from the state that the
    instructions left, and a run that may make a turn fails on that
    [None] with an [AttributeError]. *)
Theorem unrecognized_mode_fails_at_first_turn fuel self agent messages
    context_variables model_override model_config max_turns execute_tools
    w create_params tools w1 :
  Str.in_tuple (mode self) ["ollama"; "openai"] = false ->
  String.eqb (mode self) "gemini" = false ->
  turns_left (length messages) (length messages) max_turns = true ->
  build_request function_to_json agent messages context_variables
    model_override false model_config w = (Ok (create_params, tools), w1) ->
  get_chat_completion function_to_json self agent messages context_variables
    model_override false model_config w
  = (Ok None, w1)
  /\ run function_to_json (S fuel) self agent messages context_variables
       model_override model_config false max_turns execute_tools w
     = (Raise (AttributeError "'NoneType' object has no attribute 'choices'"),
        w1).
Proof.
  intros Htuple Heq Hturns Hreq.
  assert (get_chat_completion function_to_json self agent messages
            context_variables model_override false model_config w
          = (Ok None, w1)) as Hget.
  { unfold get_chat_completion. rewrite (bind_ok _ _ _ Hreq). cbn beta iota.
    unfold invoke. rewrite Htuple, Heq. reflexivity. }
  split; [exact Hget |].
  unfold run. cbn [run_loop l_history l_active_agent l_context_variables].
  rewrite Hturns. cbn [negb].
  unfold bind at 1. unfold bind at 1. rewrite Hget. reflexivity.
Qed.

End Request.

Module RequestScenario.
Import Scenario.

(** Options of the backend, one of them a field of the request. *)
Definition config : pydict param :=
  [("temperature", PJson (JInt 0)); ("stream", PBool true)].

Definition request : pydict param :=
  dict_update (default_request describe agent_A [] None false "Be brief.")
    config.

(** An agent that names no model. *)
Definition agent_N : Agent World :=
  {| agent_name := "N";
     agent_model := None;
     agent_instructions := InstructionsStr "No model.";
     agent_functions := [];
     agent_tool_choice := None;
     agent_parallel_tool_calls := true |}.

Definition hello : Completion :=
  ChatCompletion
    [{| msg_content := Some "hello"; msg_refusal := None;
        msg_role := "assistant"; msg_function_call := JNull;
        msg_tool_calls := None; msg_sender := None |}].

(** A backend that rejects the first request and accepts the second. *)
Definition picky : Swarm World :=
  {| mode := "ollama";
     client := Some (scripted [Raise (OtherError "tools are not supported");
                               Ok hello]) |}.

Definition plain_request : pydict param :=
  default_request describe agent_A [] None false "Be brief.".

Definition gemini_down : Swarm World :=
  {| mode := "gemini"; client := Some failing_client |}.

Definition mistral : Swarm World := {| mode := "mistral"; client := None |}.

End RequestScenario.

Lemma model_config_overlays_request_witness :
  dict_get "temperature" RequestScenario.request = Some (PJson (JInt 0))
  /\ dict_get "stream" RequestScenario.request = Some (PBool true)
  /\ dict_get "model" RequestScenario.request = Some (PStr "gpt-4o").
Proof.
  assert (NoDup (dict_keys RequestScenario.config)) as Hnd.
  { repeat constructor; simpl; intuition discriminate. }
  destruct (model_config_overlays_request Scenario.describe Scenario.agent_A
              [] [] None false RequestScenario.config []
              (create_params := RequestScenario.request) Hnd eq_refl)
    as (Hcfg & Hmodel & _ & _).
  split; [| split].
  - apply Hcfg. reflexivity.
  - apply Hcfg. reflexivity.
  - apply Hmodel. reflexivity.
Defined.

Lemma no_model_no_request_witness :
  get_chat_completion Scenario.describe RequestScenario.gemini_down
    RequestScenario.agent_N [] [] None false [] []
  = (Raise model_error, []).
Proof.
  exact (no_model_no_request Scenario.describe RequestScenario.gemini_down
           RequestScenario.agent_N [] [] None false [] []
           eq_refl eq_refl eq_refl).
Defined.

Lemma retry_without_tools_recovers_witness :
  get_chat_completion Scenario.describe RequestScenario.picky Scenario.agent_A
    [] [] None false [] []
  = (Ok (Some RequestScenario.hello),
     [first_request Scenario.agent_A
        (build_tools Scenario.describe Scenario.agent_A)
        RequestScenario.plain_request;
      stripped_request
        (first_request Scenario.agent_A
           (build_tools Scenario.describe Scenario.agent_A)
           RequestScenario.plain_request)]).
Proof.
  apply (retry_without_tools_recovers Scenario.describe RequestScenario.picky
           Scenario.agent_A [] [] None false [] []
           (create_params := RequestScenario.plain_request)
           (tools := build_tools Scenario.describe Scenario.agent_A)
           (w1 := [])
           (e := OtherError "tools are not supported")
           (w2 := [first_request Scenario.agent_A
                     (build_tools Scenario.describe Scenario.agent_A)
                     RequestScenario.plain_request]));
    reflexivity.
Defined.

Lemma gemini_failure_is_configuration_error_witness :
  get_chat_completion Scenario.describe RequestScenario.gemini_down
    Scenario.agent_A [] [] None false [] []
  = (Raise model_error, [RequestScenario.plain_request]).
Proof.
  apply (gemini_failure_is_configuration_error Scenario.describe
           RequestScenario.gemini_down Scenario.agent_A [] [] None false []
           [] (create_params := RequestScenario.plain_request)
           (tools := build_tools Scenario.describe Scenario.agent_A)
           (w1 := []) (e := OtherError "Connection error."));
    reflexivity.
Defined.

Lemma unrecognized_mode_fails_at_first_turn_witness :
  get_chat_completion Scenario.describe RequestScenario.mistral
    Scenario.agent_A [] [] None false [] []
  = (Ok None, [])
  /\ run Scenario.describe 1 RequestScenario.mistral Scenario.agent_A [] []
       None [] false Infinity true []
     = (Raise (AttributeError "'NoneType' object has no attribute 'choices'"),
        []).
Proof.
  apply (unrecognized_mode_fails_at_first_turn Scenario.describe 0
           RequestScenario.mistral Scenario.agent_A [] [] None [] Infinity
           true [] (create_params := RequestScenario.plain_request)
           (tools := build_tools Scenario.describe Scenario.agent_A));
    reflexivity.
Defined.

(** ** The descriptors and the function map *)

Lemma list_remove_other x y l : x <> y -> In y (list_remove x l) <-> In y l.
Proof.
  intros Hne. induction l as [| z l IH]; simpl; [tauto |].
  destruct (String.eqb x z) eqn:E.
  - apply String.eqb_eq in E. subst z. split; [tauto |].
    intros [H | H]; [congruence | assumption].
  - simpl. rewrite IH. tauto.
Qed.

(** X6: hiding [context_variables] in a descriptor touches nothing else:
    the type, the name and the description stay, every other property
    keeps its schema, and every other required name stays required (and
    none is added). *)
Theorem hide_context_variables_keeps_the_rest (tool : Tool) :
  let tool' := hide_context_variables tool in
  tool_type tool' = tool_type tool
  /\ tf_name (tool_function tool') = tf_name (tool_function tool)
  /\ tf_description (tool_function tool')
     = tf_description (tool_function tool)
  /\ (forall k, k <> __CTX_VARS_NAME__ ->
        dict_get k (properties (parameters (tool_function tool')))
        = dict_get k (properties (parameters (tool_function tool))))
  /\ (forall x, x <> __CTX_VARS_NAME__ ->
        (In x (required (parameters (tool_function tool')))
         <-> In x (required (parameters (tool_function tool))))).
Proof.
  cbv zeta. unfold hide_context_variables. cbn.
  split; [reflexivity |]. split; [reflexivity |]. split; [reflexivity |].
  split.
  - intros k Hk. now apply dict_get_pop_ne.
  - intros x Hx.
    destruct (list_mem __CTX_VARS_NAME__ _); [| tauto].
    apply list_remove_other. congruence.
Qed.

Lemma hide_context_variables_keeps_the_rest_witness :
  dict_get "who"
    (properties (parameters (tool_function
       (hide_context_variables (Scenario.describe Scenario.greet)))))
  = Some (JDict [("type", JStr "string")])
  /\ In "who"
       (required (parameters (tool_function
          (hide_context_variables (Scenario.describe Scenario.greet))))).
Proof.
  destruct (hide_context_variables_keeps_the_rest
              (Scenario.describe Scenario.greet))
    as (_ & _ & _ & Hprops & Hreq).
  split.
  - rewrite Hprops by discriminate. reflexivity.
  - apply Hreq; [discriminate |]. simpl. tauto.
Defined.

Section FunctionMap.
Context {World : Type}.
Implicit Types (f : AgentFunction World)
  (functions : list (AgentFunction World)).

Lemma dict_update_app {V : Type} (d u1 u2 : pydict V) :
  dict_update d (u1 ++ u2) = dict_update (dict_update d u1) u2.
Proof. unfold dict_update. apply fold_left_app. Qed.

(** X7: when several functions of an agent have the same name, the
    function map resolves the name to the one that comes last in the
    list: a function after which no function has its name is the one that
    a call of that name reaches. *)
Theorem function_map_last_registered_wins functions_before f functions_after :
  ~ In (__name__ f) (map (@__name__ World _) functions_after) ->
  dict_get (__name__ f)
    (build_function_map (functions_before ++ f :: functions_after))
  = Some f.
Proof.
  intros Hafter. unfold build_function_map, dict_of_pairs.
  rewrite map_app, dict_update_app. cbn [map].
  change (dict_update ?d ((?k, ?v) :: ?u))
    with (dict_update (dict_set k v d) u).
  rewrite dict_get_update_other.
  - apply dict_get_set_eq.
  - apply dict_get_None_iff. unfold dict_keys. now rewrite map_map.
Qed.

End FunctionMap.

Module FunctionMapScenario.
Import Scenario.

(** A second function called [first]. *)
Definition first_again : AgentFunction World := set_k "first" 7.

End FunctionMapScenario.

Lemma function_map_last_registered_wins_witness :
  dict_get "first"
    (build_function_map
       [Scenario.set_k "first" 1; FunctionMapScenario.first_again;
        Scenario.greet])
  = Some FunctionMapScenario.first_again.
Proof.
  apply (function_map_last_registered_wins
           [Scenario.set_k "first" 1] FunctionMapScenario.first_again
           [Scenario.greet]).
  simpl. intros [E | []]. discriminate E.
Defined.

(** ** More on the dispatcher *)

Section DispatchMore.
Context {World : Type}.
Implicit Types (self : Swarm World) (w : World)
  (functions : list (AgentFunction World))
  (tool_call : ChatCompletionMessageToolCall).

(** X8: a call of a registered tool that fails (its arguments are not a
    JSON text, the function raises, what it returns cannot be rendered)
    ends the whole batch with its exception: the calls after it are not
    made and the messages of the calls before it are not returned. *)
Theorem failing_tool_call_aborts_batch self functions context_variables
    pre tool_call post w partial_response w1 e w2 :
  dispatch_from self functions context_variables empty_response pre w
  = (Ok partial_response, w1) ->
  dict_mem (fn_name (tc_function tool_call)) (build_function_map functions)
  = true ->
  call_tool (build_function_map functions) context_variables tool_call w1
  = (Raise e, w2) ->
  handle_tool_calls self (pre ++ tool_call :: post) functions
    context_variables w
  = (Raise e, w2).
Proof.
  intros Hpre Hreg Hcall.
  rewrite handle_tool_calls_dispatch. unfold dispatch_from in *.
  rewrite for_each_app, (bind_ok _ _ _ Hpre). cbn [for_each].
  apply bind_raise. unfold handle_tool_call. rewrite Hreg.
  now apply bind_raise.
Qed.

(** Arguments that are not a JSON text fail the call before the function
    is reached. *)
Lemma call_tool_malformed_arguments (function_map : pydict (AgentFunction World))
    context_variables tool_call w e :
  Json.loads (fn_arguments (tc_function tool_call)) = Raise e ->
  call_tool function_map context_variables tool_call w = (Raise e, w).
Proof. intros H. unfold call_tool, bind, lift. now rewrite H. Qed.

(** What one pass through the loop appends. *)
Lemma handle_tool_call_appends self (function_map : pydict (AgentFunction World))
    context_variables (partial_response partial_response' : Response World)
    tool_call w w' :
  dialect_mode self = true ->
  handle_tool_call self function_map context_variables partial_response
    tool_call w = (Ok partial_response', w') ->
  exists m,
    response_messages partial_response'
    = response_messages partial_response ++ [m]
    /\ (Str.in_tuple (mode self) ["ollama"; "openai"] = true ->
        dict_get "role" m = Some (JStr "tool")
        /\ dict_get "tool_call_id" m = Some (JStr (tc_id tool_call)))
    /\ (Str.in_tuple (mode self) ["ollama"; "openai"] = false ->
        dict_get "role" m = Some (JStr "assistant")).
Proof.
  unfold dialect_mode. intros Hmode H. unfold handle_tool_call in H.
  destruct (dict_mem (fn_name (tc_function tool_call)) function_map).
  - unfold bind in H.
    destruct (call_tool function_map context_variables tool_call w)
      as [[[args result] | e |] w1]; try discriminate.
    injection H as <- <-. unfold record_result.
    destruct (Str.in_tuple (mode self) ["ollama"; "openai"]).
    + eexists. split; [reflexivity |]. split; [now split | discriminate].
    + cbn [orb] in Hmode. rewrite Hmode.
      eexists. split; [reflexivity |]. split; [discriminate | reflexivity].
  - unfold missing_tool_message in H.
    destruct (Str.in_tuple (mode self) ["ollama"; "openai"]).
    + injection H as <- <-.
      eexists. split; [reflexivity |]. split; [now split | discriminate].
    + cbn [orb] in Hmode. rewrite Hmode in H. injection H as <- <-.
      eexists. split; [reflexivity |]. split; [discriminate | reflexivity].
Qed.

Lemma dispatch_appends self functions context_variables tool_calls :
  dialect_mode self = true ->
  forall (partial_response partial_response' : Response World) w w',
    dispatch_from self functions context_variables partial_response
      tool_calls w = (Ok partial_response', w') ->
    exists new_messages,
      response_messages partial_response'
      = response_messages partial_response ++ new_messages
      /\ length new_messages = length tool_calls
      /\ (Str.in_tuple (mode self) ["ollama"; "openai"] = true ->
          map (dict_get "tool_call_id") new_messages
          = map (fun tc => Some (JStr (tc_id tc))) tool_calls).
Proof.
  intros Hmode. unfold dispatch_from.
  induction tool_calls as [| tool_call tool_calls IH];
    intros partial_response partial_response' w w' H.
  - cbn in H. injection H as <- <-. exists [].
    rewrite app_nil_r. repeat split; reflexivity.
  - cbn [for_each] in H. unfold bind at 1 in H.
    destruct (handle_tool_call self (build_function_map functions)
                context_variables partial_response tool_call w)
      as [[partial_response1 | e |] w1] eqn:Hstep; try discriminate.
    apply handle_tool_call_appends in Hstep; [| exact Hmode].
    destruct Hstep as (m & Hm & Htool & _).
    destruct (IH _ _ _ _ H) as (rest & Hrest & Hlen & Hids).
    exists (m :: rest). split; [| split].
    + rewrite Hrest, Hm, <- app_assoc. reflexivity.
    + cbn [length]. now rewrite Hlen.
    + intros Htuple. cbn [map].
      rewrite (Hids Htuple). destruct (Htool Htuple) as [_ ->]. reflexivity.
Qed.

(** X9: in a mode of the two families a batch that is dispatched returns
    one message for each tool call, found or missing, in the order of the
    calls; in the modes ["ollama"] and ["openai"] the message of a call
    carries the id of the call. *)
Theorem one_message_per_tool_call self tool_calls functions
    context_variables w partial_response w' :
  dialect_mode self = true ->
  handle_tool_calls self tool_calls functions context_variables w
  = (Ok partial_response, w') ->
  length (response_messages partial_response) = length tool_calls
  /\ (Str.in_tuple (mode self) ["ollama"; "openai"] = true ->
      map (dict_get "tool_call_id") (response_messages partial_response)
      = map (fun tc => Some (JStr (tc_id tc))) tool_calls).
Proof.
  intros Hmode H. rewrite handle_tool_calls_dispatch in H.
  apply dispatch_appends in H; [| exact Hmode].
  destruct H as (new_messages & Hnew & Hlen & Hids).
  cbn [response_messages empty_response app] in Hnew. rewrite Hnew.
  split; assumption.
Qed.

(** The agents of the results, merged in their order. *)
Definition merge_agents (a : option (Agent World))
    (results : list (Result World)) : option (Agent World) :=
  fold_left (fun acc r => match result_agent r with
                          | Some a' => Some a'
                          | None => acc
                          end) results a.

Lemma record_result_agent self (partial_response : Response World)
    tool_call args result :
  response_agent (record_result self partial_response tool_call args result)
  = match result_agent result with
    | Some a => Some a
    | None => response_agent partial_response
    end.
Proof.
  unfold record_result. cbn [response_agent].
  destruct (Str.in_tuple (mode self) ["ollama"; "openai"]); [reflexivity |].
  destruct (Str.contains (mode self) "gemini"); reflexivity.
Qed.

Lemma dispatch_agent self function_map context_variables tool_calls :
  forall (partial_response partial_response' : Response World) w w',
    for_each (handle_tool_call self function_map context_variables)
      tool_calls partial_response w = (Ok partial_response', w') ->
    exists results,
      batch_results self function_map context_variables tool_calls w
      = (Ok results, w')
      /\ response_agent partial_response'
         = merge_agents (response_agent partial_response) results.
Proof.
  induction tool_calls as [| tool_call tool_calls IH];
    intros partial_response partial_response' w w' H.
  - cbn in H. injection H as <- <-. exists []. split; reflexivity.
  - cbn [for_each] in H. unfold handle_tool_call in H.
    cbn [batch_results].
    destruct (if dict_mem (fn_name (tc_function tool_call)) function_map
              then None else missing_tool_message self tool_call) as [m |].
    + unfold bind, ret in H.
      destruct (IH _ _ _ _ H) as [results [Hres Hagent]].
      exists results. split; assumption.
    + unfold bind in H. unfold bind.
      destruct (call_tool function_map context_variables tool_call w)
        as [[[args result] | e |] w1]; try discriminate.
      unfold ret in H.
      destruct (IH _ _ _ _ H) as [results [Hres Hagent]].
      rewrite Hres. exists (result :: results). split; [reflexivity |].
      rewrite Hagent. now rewrite record_result_agent.
Qed.

Lemma merge_agents_none (results : list (Result World)) :
  forall a,
    (forall r, In r results -> result_agent r = None) ->
    merge_agents a results = a.
Proof.
  induction results as [| r results IH]; intros a Hnone; [reflexivity |].
  cbn [merge_agents fold_left].
  rewrite (Hnone r) by now left.
  apply IH. intros r' Hin. apply Hnone. now right.
Qed.


(** X11: when no result of a batch carries an agent, the batch names no
    handoff and the active agent of the loop stays the same. *)
Theorem no_handoff_keeps_active_agent self (st : loop_state World)
    tool_calls w partial_response w' results :
  handle_tool_calls self tool_calls (agent_functions (l_active_agent st))
    (l_context_variables st) w = (Ok partial_response, w') ->
  batch_results self (build_function_map (agent_functions (l_active_agent st)))
    (l_context_variables st) tool_calls w = (Ok results, w') ->
  (forall r, In r results -> result_agent r = None) ->
  response_agent partial_response = None
  /\ exists st',
       dispatch_turn self st tool_calls w = (Ok st', w')
       /\ l_active_agent st' = l_active_agent st.
Proof.
  intros Hrun Hres Hnone.
  assert (response_agent partial_response = None) as Hagent.
  { unfold handle_tool_calls in Hrun.
    apply dispatch_agent in Hrun. destruct Hrun as [results' [Hres' ->]].
    rewrite Hres in Hres'. injection Hres' as <-.
    now apply merge_agents_none. }
  split; [assumption |].
  unfold dispatch_turn. rewrite (bind_ok _ _ _ Hrun).
  eexists. split; [reflexivity |].
  cbn [l_active_agent]. now rewrite Hagent.
Qed.

(** X12: in a mode of neither family a call of a tool that the agent
    does not have is not reported in the conversation: once its arguments
    are decoded the lookup of the function raises a [KeyError] of the
    name, and the batch ends with it. *)
Theorem missing_tool_outside_dialects_raises self functions
    context_variables pre tool_call post w partial_response w1 args :
  dialect_mode self = false ->
  ~ In (fn_name (tc_function tool_call)) (map (@__name__ World _) functions) ->
  dispatch_from self functions context_variables empty_response pre w
  = (Ok partial_response, w1) ->
  Json.loads (fn_arguments (tc_function tool_call)) = Ok args ->
  handle_tool_calls self (pre ++ tool_call :: post) functions
    context_variables w
  = (Raise (KeyError (fn_name (tc_function tool_call))), w1).
Proof.
  unfold dialect_mode. intros Hmode Hmissing Hpre Hargs.
  apply orb_false_iff in Hmode. destruct Hmode as [Htuple Hsub].
  rewrite handle_tool_calls_dispatch. unfold dispatch_from in *.
  rewrite for_each_app, (bind_ok _ _ _ Hpre). cbn [for_each].
  apply bind_raise. unfold handle_tool_call, missing_tool_message.
  pose proof (build_function_map_missing _ _ Hmissing) as Hmem.
  rewrite Hmem, Htuple, Hsub.
  apply bind_raise. unfold call_tool, bind, lift. rewrite Hargs.
  unfold dict_mem in Hmem.
  destruct (dict_get (fn_name (tc_function tool_call))
              (build_function_map functions)); [discriminate | reflexivity].
Qed.

(** X13: a function that names [context_variables] is called with the
    mapping of the run under that name, whatever the model wrote there in
    the arguments of the call; the other arguments are those of the
    model. *)
Theorem context_variables_cannot_be_spoofed
    (function_map : pydict (AgentFunction World)) context_variables
    tool_call func d w :
  dict_get (fn_name (tc_function tool_call)) function_map = Some func ->
  list_mem __CTX_VARS_NAME__ (co_varnames func) = true ->
  Json.loads (fn_arguments (tc_function tool_call)) = Ok (JDict d) ->
  exists kwargs,
    dict_get __CTX_VARS_NAME__ kwargs = Some (JDict context_variables)
    /\ (forall k, k <> __CTX_VARS_NAME__ -> dict_get k kwargs = dict_get k d)
    /\ call_tool function_map context_variables tool_call w
       = bind (call func kwargs)
           (fun raw_result =>
              bind (lift (handle_function_result raw_result))
                (fun result => ret (JDict kwargs, result))) w.
Proof.
  intros Hfunc Hdecl Hargs.
  exists (dict_set __CTX_VARS_NAME__ (JDict context_variables) d).
  split; [apply dict_get_set_eq |]. split.
  - intros k Hk. now apply dict_get_set_ne.
  - unfold call_tool. unfold bind at 1, lift at 1. rewrite Hargs.
    unfold bind at 1. rewrite Hfunc. unfold ret at 1.
    rewrite Hdecl. unfold bind at 1, lift at 1.
    cbn [inject_context_variables]. reflexivity.
Qed.

End DispatchMore.

Module DispatchMoreScenario.
Import Scenario.

(** A call of [greet] whose arguments are not a JSON text. *)
Definition call_garbled : ChatCompletionMessageToolCall :=
  {| tc_id := "call_3";
     tc_function := {| fn_arguments := "{who: Ann}"; fn_name := "greet" |};
     tc_type := "function" |}.

Definition greeted : Message :=
  [("role", JStr "tool"); ("tool_call_id", JStr "call_1");
   ("tool_name", JStr "greet"); ("content", JStr "hello")].

(** The partial response of the batch [greet], [foo], [greet]. *)
Definition three_messages : Response World :=
  {| response_messages :=
       [greeted; DispatchScenario.foo_not_found; greeted];
     response_agent := None;
     response_context_variables := [] |}.




Definition said_hello : Result World :=
  {| result_value := "hello"; result_agent := None;
     result_context_variables := [] |}.

Definition mistral : Swarm World :=
  {| mode := "mistral"; client := Some failing_client |}.

(** A call of [greet] in which the model wrote context variables. *)
Definition call_spoofing : ChatCompletionMessageToolCall :=
  {| tc_id := "call_4";
     tc_function :=
       {| fn_arguments :=
            dq "{`who`: `Ann`, `context_variables`: {`admin`: true}}";
          fn_name := "greet" |};
     tc_type := "function" |}.

End DispatchMoreScenario.

Lemma failing_tool_call_aborts_batch_witness :
  handle_tool_calls DispatchScenario.openai
    [Scenario.call_greet; DispatchMoreScenario.call_garbled;
     Scenario.call_greet]
    [Scenario.greet] [] []
  = (Raise (JSONDecodeError
              "Expecting property name enclosed in double quotes"), []).
Proof.
  apply (failing_tool_call_aborts_batch DispatchScenario.openai
           [Scenario.greet] [] [Scenario.call_greet]
           DispatchMoreScenario.call_garbled [Scenario.call_greet] []
           (partial_response := DispatchScenario.after_greet) (w1 := []));
    reflexivity.
Defined.

Lemma one_message_per_tool_call_witness :
  length (response_messages DispatchMoreScenario.three_messages) = 3
  /\ map (dict_get "tool_call_id")
       (response_messages DispatchMoreScenario.three_messages)
     = [Some (JStr "call_1"); Some (JStr "call_2"); Some (JStr "call_1")].
Proof.
  destruct (one_message_per_tool_call DispatchScenario.openai
              [Scenario.call_greet; Scenario.call_foo; Scenario.call_greet]
              [Scenario.greet] [] []
              (partial_response := DispatchMoreScenario.three_messages)
              (w' := []) eq_refl eq_refl) as [Hlen Hids].
  split; [exact Hlen | exact (Hids eq_refl)].
Defined.


Lemma no_handoff_keeps_active_agent_witness :
  response_agent DispatchScenario.after_batch = None
  /\ exists st',
       dispatch_turn DispatchScenario.openai DispatchScenario.state_K
         [Scenario.call_to "c1" "first"; Scenario.call_to "c2" "second";
          Scenario.call_greet] []
       = (Ok st', [])
       /\ l_active_agent st' = Scenario.agent_K.
Proof.
  apply (@no_handoff_keeps_active_agent Scenario.World DispatchScenario.openai
           DispatchScenario.state_K
           [Scenario.call_to "c1" "first"; Scenario.call_to "c2" "second";
            Scenario.call_greet] [] DispatchScenario.after_batch []
           [DispatchScenario.wrote 1; DispatchScenario.wrote 2;
            DispatchMoreScenario.said_hello]).
  - reflexivity.
  - reflexivity.
  - intros r [<- | [<- | [<- | []]]]; reflexivity.
Defined.

Lemma missing_tool_outside_dialects_raises_witness :
  handle_tool_calls DispatchMoreScenario.mistral
    [Scenario.call_foo; Scenario.call_greet] [Scenario.greet] [] []
  = (Raise (KeyError "foo"), []).
Proof.
  apply (missing_tool_outside_dialects_raises DispatchMoreScenario.mistral
           [Scenario.greet] [] [] Scenario.call_foo [Scenario.call_greet] []
           (partial_response := empty_response) (w1 := [])
           (args := JDict [])).
  - reflexivity.
  - simpl. intros [E | []]. discriminate E.
  - reflexivity.
  - reflexivity.
Defined.

Lemma context_variables_cannot_be_spoofed_witness :
  exists kwargs,
    dict_get "context_variables" kwargs
    = Some (JDict [("user", JStr "Ann")])
    /\ (forall k, k <> "context_variables" ->
          dict_get k kwargs
          = dict_get k [("who", JStr "Ann");
                        ("context_variables", JDict [("admin", JBool true)])])
    /\ call_tool (build_function_map [Scenario.greet])
         [("user", JStr "Ann")] DispatchMoreScenario.call_spoofing []
       = bind (call Scenario.greet kwargs)
           (fun raw_result =>
              bind (lift (handle_function_result raw_result))
                (fun result => ret (JDict kwargs, result))) [].
Proof.
  apply (context_variables_cannot_be_spoofed
           (build_function_map [Scenario.greet]) [("user", JStr "Ann")]
           DispatchMoreScenario.call_spoofing (func := Scenario.greet) []);
    reflexivity.
Defined.

(** ** Turns *)

Lemma bind_ext_ok {S A B} (m : M S A) (k1 k2 : A -> M S B) w :
  (forall a w', m w = (Ok a, w') -> k1 a w' = k2 a w') ->
  bind m k1 w = bind m k2 w.
Proof.
  intros H. unfold bind. destruct (m w) as [[a | e |] w']; auto.
Qed.

Lemma bind_lift_ok {S A B} (a : A) (k : A -> M S B) w :
  bind (lift (Ok a)) k w = k a w.
Proof. reflexivity. Qed.

Lemma bind_ret {S A B} (a : A) (k : A -> M S B) w : bind (ret a) k w = k a w.
Proof. reflexivity. Qed.

Lemma tuple_mode_not_gemini (mode : string) :
  Str.in_tuple mode ["openai"; "ollama"] = true ->
  Str.contains mode "gemini" = false.
Proof.
  unfold Str.in_tuple. cbn [existsb]. intros H.
  apply orb_true_iff in H. destruct H as [H | H].
  - apply String.eqb_eq in H. now subst.
  - apply orb_true_iff in H. destruct H as [H | H]; [| discriminate].
    apply String.eqb_eq in H. now subst.
Qed.

Lemma skipn_length_app {A : Type} (l l' : list A) :
  skipn (length l) (l ++ l') = l'.
Proof. induction l; simpl; auto. Qed.

Section Turns.
Context {World : Type}.
Variable function_to_json : AgentFunction World -> Tool.
Implicit Types (self : Swarm World) (agent : Agent World) (w : World).

(** A turn after which the loop stops. *)
Lemma run_loop_last_turn fuel self model_override model_config max_turns
    execute_tools init_len (st : loop_state World) w m others w1 :
  turns_left (length (l_history st)) init_len max_turns = true ->
  get_chat_completion function_to_json self (l_active_agent st) (l_history st)
    (l_context_variables st) model_override false model_config w
  = (Ok (Some (ChatCompletion (m :: others))), w1) ->
  tool_calls_truthy (msg_tool_calls m) && execute_tools = false ->
  run_loop function_to_json (S fuel) self model_override model_config
    max_turns execute_tools init_len st w
  = (Ok {| l_active_agent := l_active_agent st;
           l_context_variables := l_context_variables st;
           l_history :=
             update_history self (l_history st)
               (set_sender m (agent_name (l_active_agent st))) |}, w1).
Proof.
  intros Hturns Hget Hstop. cbn [run_loop].
  rewrite Hturns. cbn [negb].
  rewrite (bind_ok _ _ _ Hget). cbn [first_message]. rewrite bind_lift_ok.
  cbn [set_sender msg_tool_calls].
  destruct (tool_calls_truthy (msg_tool_calls m)), execute_tools;
    try reflexivity; discriminate Hstop.
Qed.

(** X14: in the modes ["openai"] and ["ollama"], when the first answer of
    the model asks for no tool, or tools are not to be executed, a run
    that may make a turn makes exactly one: one completion is requested,
    and the response holds one message, the dumped message of the model
    with the name of the agent as sender, the agent of the call and the
    context variables of the call. *)
Theorem run_ends_after_turn_without_tools fuel self agent messages
    context_variables model_override model_config max_turns execute_tools
    w m others w1 :
  Str.in_tuple (mode self) ["openai"; "ollama"] = true ->
  turns_left (length messages) (length messages) max_turns = true ->
  get_chat_completion function_to_json self agent messages context_variables
    model_override false model_config w
  = (Ok (Some (ChatCompletion (m :: others))), w1) ->
  tool_calls_truthy (msg_tool_calls m) && execute_tools = false ->
  run function_to_json (S fuel) self agent messages context_variables
    model_override model_config false max_turns execute_tools w
  = (Ok (Returned
           {| response_messages :=
                [model_dump (set_sender m (agent_name agent))];
              response_agent := Some agent;
              response_context_variables := context_variables |}), w1).
Proof.
  intros Hmode Hturns Hget Hstop.
  unfold run.
  erewrite bind_ok
    by (eapply run_loop_last_turn with (others := others); eassumption).
  rewrite (tuple_mode_not_gemini _ Hmode).
  cbn [l_history l_active_agent l_context_variables].
  rewrite bind_ret.
  unfold update_history, history_entry. rewrite Hmode.
  unfold ret. now rewrite skipn_length_app.
Qed.

Lemma dispatch_turn_history self (st st' : loop_state World) tool_calls w w' :
  dispatch_turn self st tool_calls w = (Ok st', w') ->
  exists new_messages, l_history st' = l_history st ++ new_messages.
Proof.
  unfold dispatch_turn, bind. intros H.
  destruct (handle_tool_calls self tool_calls _ _ w)
    as [[partial_response | e |] w1]; try discriminate.
  injection H as <- <-. eexists. reflexivity.
Qed.

(** A mode in which a completion comes back is a mode in which [run]
    appends an entry for it. *)
Lemma completion_means_entry self agent history context_variables
    model_override stream model_config w c w1 m :
  get_chat_completion function_to_json self agent history context_variables
    model_override stream model_config w = (Ok (Some c), w1) ->
  exists entry, history_entry self m = Some entry.
Proof.
  unfold get_chat_completion, bind. intros H.
  destruct (build_request _ _ _ _ _ _ _ w) as [[[create_params tools] | e |] w0];
    try discriminate.
  unfold invoke, history_entry in *.
  unfold Str.in_tuple in *. cbn [existsb] in *.
  destruct (String.eqb (mode self) "ollama") eqn:Eo;
    [rewrite orb_true_r; eexists; reflexivity |].
  destruct (String.eqb (mode self) "openai") eqn:Ea;
    [eexists; reflexivity |].
  cbn [orb] in *.
  destruct (String.eqb (mode self) "gemini") eqn:Eg; [| discriminate].
  apply String.eqb_eq in Eg. rewrite Eg. eexists. reflexivity.
Qed.

Lemma first_message_some completion m :
  first_message completion = Ok m ->
  exists others, completion = Some (ChatCompletion (m :: others)).
Proof.
  destruct completion as [[[| m' others] | chunks] |]; try discriminate.
  intros H. injection H as ->. now exists others.
Qed.

(** The history of the loop only grows at its end. *)
Lemma run_loop_history_grows self model_override model_config max_turns
    execute_tools init_len fuel :
  forall (st st' : loop_state World) w w',
    run_loop function_to_json fuel self model_override model_config max_turns
      execute_tools init_len st w = (Ok st', w') ->
    exists appended, l_history st' = l_history st ++ appended.
Proof.
  induction fuel as [| fuel IH]; intros st st' w w' H; cbn [run_loop] in H.
  - destruct (negb (turns_left _ init_len max_turns)); [| discriminate].
    injection H as <- <-. exists []. now rewrite app_nil_r.
  - destruct (negb (turns_left _ init_len max_turns)).
    { injection H as <- <-. exists []. now rewrite app_nil_r. }
    unfold bind at 1 in H.
    destruct (get_chat_completion _ _ _ _ _ _ _ _ w)
      as [[completion | e |] w1]; try discriminate.
    unfold bind at 1, lift at 1 in H.
    destruct (first_message completion) as [m | e |]; try discriminate.
    assert (exists entry_list,
              update_history self (l_history st)
                (set_sender m (agent_name (l_active_agent st)))
              = l_history st ++ entry_list) as [entry_list Hentry].
    { unfold update_history. destruct (history_entry self _) as [entry |].
      - now exists [entry].
      - exists []. now rewrite app_nil_r. }
    destruct (negb (tool_calls_truthy _) || negb execute_tools).
    { injection H as <- <-. cbn [l_history]. now exists entry_list. }
    unfold bind at 1 in H.
    destruct (dispatch_turn self _ _ w1) as [[st1 | e |] w2] eqn:Hd;
      try discriminate.
    apply dispatch_turn_history in Hd. destruct Hd as [new_messages Hd].
    cbn [l_history] in Hd.
    destruct (IH _ _ _ _ H) as [appended Happ].
    exists (entry_list ++ new_messages ++ appended).
    rewrite Happ, Hd, Hentry. now rewrite !app_assoc.
Qed.

(** X15: a blocking run keeps the messages of the caller and appends
    after them: in a mode that is not part of the text ["gemini"], the
    history at the end of the loop is the messages of the call followed by
    the messages of the response, and the response has the agent and the
    context variables of the end of the loop. *)
Theorem response_is_what_the_run_appended fuel self agent messages
    context_variables model_override model_config max_turns execute_tools
    w r w' :
  Str.contains (mode self) "gemini" = false ->
  run function_to_json fuel self agent messages context_variables
    model_override model_config false max_turns execute_tools w
  = (Ok (Returned r), w') ->
  exists st',
    run_loop function_to_json fuel self model_override model_config
      max_turns execute_tools (length messages)
      {| l_active_agent := agent;
         l_context_variables := context_variables;
         l_history := messages |} w
    = (Ok st', w')
    /\ l_history st' = messages ++ response_messages r
    /\ response_agent r = Some (l_active_agent st')
    /\ response_context_variables r = l_context_variables st'.
Proof.
  intros Hmode H. unfold run in H. rewrite Hmode in H.
  unfold bind at 1 in H.
  destruct (run_loop _ fuel self _ _ _ _ _ _ w) as [[st' | e |] w1] eqn:Hloop;
    try discriminate.
  rewrite bind_ret in H. unfold ret in H. injection H as <- <-.
  exists st'. split; [reflexivity |].
  cbn [response_messages response_agent response_context_variables].
  apply run_loop_history_grows in Hloop. destruct Hloop as [appended Happ].
  cbn [l_history] in Happ. rewrite Happ.
  now rewrite skipn_length_app.
Qed.

(** The turns that a loop may still make. *)
Definition turns_to_go (n : Z) (init_len : nat) (st : loop_state World) : nat :=
  Z.to_nat (n - (Z.of_nat (length (l_history st)) - Z.of_nat init_len)).

Lemma run_loop_enough_fuel self model_override model_config n execute_tools
    init_len fuel1 :
  forall fuel2 (st : loop_state World) w,
    turns_to_go n init_len st <= fuel1 ->
    turns_to_go n init_len st <= fuel2 ->
    run_loop function_to_json fuel1 self model_override model_config (Turns n)
      execute_tools init_len st w
    = run_loop function_to_json fuel2 self model_override model_config
        (Turns n) execute_tools init_len st w.
Proof.
  unfold turns_to_go.
  induction fuel1 as [| fuel1 IH]; intros fuel2 st w H1 H2.
  - assert (turns_left (length (l_history st)) init_len (Turns n) = false)
      as Hstop by (unfold turns_left; apply Z.ltb_ge; lia).
    destruct fuel2; cbn [run_loop]; now rewrite Hstop.
  - destruct (turns_left (length (l_history st)) init_len (Turns n)) eqn:Hgo.
    2: { destruct fuel2; cbn [run_loop]; now rewrite Hgo. }
    assert (0 < n - (Z.of_nat (length (l_history st)) - Z.of_nat init_len))%Z
      as Hpos by (unfold turns_left in Hgo; apply Z.ltb_lt in Hgo; lia).
    destruct fuel2 as [| fuel2]; [lia |].
    cbn [run_loop]. rewrite Hgo. cbn [negb].
    apply bind_ext_ok. intros completion w1 Hget.
    apply bind_ext_ok. intros m w2 Hm.
    unfold lift in Hm. injection Hm as Hm <-.
    destruct (first_message_some _ Hm) as [others ->].
    pose proof Hget as Hentry.
    apply completion_means_entry
      with (m := set_sender m (agent_name (l_active_agent st))) in Hentry.
    destruct Hentry as [entry Hentry].
    destruct (negb (tool_calls_truthy _) || negb execute_tools);
      [reflexivity |].
    apply bind_ext_ok. intros st1 w3 Hd.
    apply dispatch_turn_history in Hd. destruct Hd as [new_messages Hd].
    cbn [l_history] in Hd. unfold update_history in Hd.
    rewrite Hentry in Hd.
    assert (length (l_history st1)
            = length (l_history st) + 1 + length new_messages) as Hlen
      by (rewrite Hd, !length_app; reflexivity).
    apply IH; lia.
Qed.

(** X16: a blocking run with [max_turns=n] goes through its loop at most
    [n] times: the fuel [n] is enough, and more fuel gives the same
    outcome and leaves the outside world in the same state. *)
Theorem run_needs_at_most_max_turns fuel self agent messages
    context_variables model_override model_config n execute_tools w :
  Z.to_nat n <= fuel ->
  run function_to_json fuel self agent messages context_variables
    model_override model_config false (Turns n) execute_tools w
  = run function_to_json (Z.to_nat n) self agent messages context_variables
      model_override model_config false (Turns n) execute_tools w.
Proof.
  intros Hfuel. unfold run.
  assert (run_loop function_to_json fuel self model_override model_config
            (Turns n) execute_tools (length messages)
            {| l_active_agent := agent;
               l_context_variables := context_variables;
               l_history := messages |} w
          = run_loop function_to_json (Z.to_nat n) self model_override
              model_config (Turns n) execute_tools (length messages)
              {| l_active_agent := agent;
                 l_context_variables := context_variables;
                 l_history := messages |} w) as Hloop.
  { apply run_loop_enough_fuel; unfold turns_to_go; cbn [l_history]; lia. }
  unfold bind at 1 3. now rewrite Hloop.
Qed.

End Turns.

(** ** The last output when it is the outcome of a tool *)

(** A text that starts with a capital letter of a word is no JSON text. *)
Lemma loads_tool_text (c : ascii) (rest : string) :
  In c ["T"%char; "E"%char] ->
  Json.loads (String c rest) = Raise (JSONDecodeError "Expecting value").
Proof.
  intros [<- | [<- | []]]; unfold Json.loads;
    cbn [String.length Nat.mul Nat.add]; reflexivity.
Qed.

Lemma loads_tool_result_content name value args :
  Json.loads (tool_result_content name value args)
  = Raise (JSONDecodeError "Expecting value").
Proof. apply loads_tool_text. simpl. tauto. Qed.

Lemma loads_missing_tool_content name :
  Json.loads (missing_tool_content name)
  = Raise (JSONDecodeError "Expecting value").
Proof. apply loads_tool_text. simpl. tauto. Qed.

(** A message whose content the post-processing cannot decode. *)
Definition undecodable (m : Message) : Prop :=
  exists content,
    dict_get "content" m = Some (JStr content)
    /\ Json.loads content = Raise (JSONDecodeError "Expecting value").

Section GeminiOutcome.
Context {World : Type}.
Variable function_to_json : AgentFunction World -> Tool.
Implicit Types (self : Swarm World) (agent : Agent World) (w : World).

Lemma gemini_handle_tool_call_appends self
    (function_map : pydict (AgentFunction World)) context_variables
    (partial_response partial_response' : Response World) tool_call w w' :
  mode self = "gemini" ->
  handle_tool_call self function_map context_variables partial_response
    tool_call w = (Ok partial_response', w') ->
  exists m,
    response_messages partial_response'
    = response_messages partial_response ++ [m]
    /\ undecodable m.
Proof.
  intros Hmode H. unfold handle_tool_call in H.
  destruct (dict_mem (fn_name (tc_function tool_call)) function_map).
  - unfold bind in H.
    destruct (call_tool function_map context_variables tool_call w)
      as [[[args result] | e |] w1]; try discriminate.
    injection H as <- <-. unfold record_result. rewrite Hmode.
    eexists. split; [reflexivity |].
    eexists. split; [reflexivity | apply loads_tool_result_content].
  - unfold missing_tool_message in H. rewrite Hmode in H.
    injection H as <- <-.
    eexists. split; [reflexivity |].
    eexists. split; [reflexivity | apply loads_missing_tool_content].
Qed.

Lemma gemini_dispatch_appends self functions context_variables tool_calls :
  mode self = "gemini" ->
  forall (partial_response partial_response' : Response World) w w',
    dispatch_from self functions context_variables partial_response
      tool_calls w = (Ok partial_response', w') ->
    exists new_messages,
      response_messages partial_response'
      = response_messages partial_response ++ new_messages
      /\ length new_messages = length tool_calls
      /\ Forall undecodable new_messages.
Proof.
  intros Hmode. unfold dispatch_from.
  induction tool_calls as [| tool_call tool_calls IH];
    intros partial_response partial_response' w w' H.
  - cbn in H. injection H as <- <-. exists [].
    rewrite app_nil_r. repeat split. constructor.
  - cbn [for_each] in H. unfold bind at 1 in H.
    destruct (handle_tool_call self (build_function_map functions)
                context_variables partial_response tool_call w)
      as [[partial_response1 | e |] w1] eqn:Hstep; try discriminate.
    apply gemini_handle_tool_call_appends in Hstep; [| exact Hmode].
    destruct Hstep as (m & Hm & Hbad).
    destruct (IH _ _ _ _ H) as (rest & Hrest & Hlen & Hall).
    exists (m :: rest). split; [| split].
    + rewrite Hrest, Hm, <- app_assoc. reflexivity.
    + cbn [length]. now rewrite Hlen.
    + now constructor.
Qed.

(** The post-processing fails on a history that ends with such a
    message. *)
Lemma postprocess_undecodable init_len (history : list Message) m :
  init_len <= length history ->
  undecodable m ->
  postprocess init_len (history ++ [m])
  = Raise (JSONDecodeError "Expecting value").
Proof.
  intros Hlen (content & Hcontent & Hloads). unfold postprocess.
  rewrite skipn_app.
  replace (init_len - length history) with 0 by lia.
  cbn [skipn]. rewrite rev_app_distr. cbn [rev app].
  rewrite Hcontent. unfold unwrap_content. now rewrite Hloads.
Qed.

(** X17: in the mode ["gemini"], a run whose turns are used up by a turn
    that dispatched tool calls ends with an error, not with a response:
    the last message of the history is then the outcome of a tool, a plain
    text, and the post-processing of the last output raises the error of
    the JSON decoder on it. *)
Theorem gemini_run_ending_on_tool_outcome_raises fuel self agent messages
    context_variables model_override model_config n w m others w1
    tool_call tool_calls partial_response w2 :
  mode self = "gemini" ->
  (0 < n <= 1 + Z.of_nat (length (tool_call :: tool_calls)))%Z ->
  get_chat_completion function_to_json self agent messages context_variables
    model_override false model_config w
  = (Ok (Some (ChatCompletion (m :: others))), w1) ->
  msg_tool_calls m = Some (tool_call :: tool_calls) ->
  handle_tool_calls self (tool_call :: tool_calls) (agent_functions agent)
    context_variables w1 = (Ok partial_response, w2) ->
  run function_to_json (S fuel) self agent messages context_variables
    model_override model_config false (Turns n) true w
  = (Raise (JSONDecodeError "Expecting value"), w2).
Proof.
  intros Hmode Hn Hget Hcalls Hdispatch.
  pose proof Hdispatch as Hnew. rewrite handle_tool_calls_dispatch in Hnew.
  apply gemini_dispatch_appends in Hnew; [| exact Hmode].
  destruct Hnew as (new_messages & Hmsgs & Hlen & Hall).
  cbn [response_messages empty_response app] in Hmsgs.
  destruct (exists_last (l := new_messages)) as (front & last & ->).
  { intros ->. discriminate Hlen. }
  apply Forall_app in Hall. destruct Hall as [_ Hlast].
  inversion Hlast as [| ? ? Hbad _]; subst.
  unfold run. cbn [run_loop l_history l_active_agent l_context_variables].
  assert (turns_left (length messages) (length messages) (Turns n) = true)
    as Hgo by (unfold turns_left; apply Z.ltb_lt; lia).
  rewrite Hgo. cbn [negb].
  rewrite bind_assoc. rewrite (bind_ok _ _ _ Hget).
  rewrite bind_assoc. cbn [first_message]. rewrite bind_lift_ok.
  cbn [set_sender msg_tool_calls]. rewrite Hcalls.
  cbn [tool_calls_truthy negb orb].
  rewrite bind_assoc. unfold dispatch_turn. rewrite bind_assoc.
  cbn [l_active_agent l_context_variables l_history].
  rewrite (bind_ok _ _ _ Hdispatch). rewrite bind_ret.
  unfold update_history, history_entry. rewrite Hmode.
  replace (Str.in_tuple "gemini" ["openai"; "ollama"]) with false
    by reflexivity.
  replace (Str.contains "gemini" "gemini") with true by reflexivity.
  rewrite Hmsgs.
  set (history := (messages ++ [_]) ++ front ++ [last]).
  assert (turns_left (length history) (length messages) (Turns n) = false)
    as Hstop.
  { unfold turns_left, history. apply Z.ltb_ge.
    rewrite !length_app in *. cbn [length] in *. lia. }
  destruct fuel; cbn [run_loop l_history]; rewrite Hstop; cbn [negb];
    rewrite bind_ret; cbn [l_history];
    unfold history; rewrite app_assoc;
    (rewrite postprocess_undecodable;
     [reflexivity | rewrite !length_app; lia | assumption]).
Qed.

End GeminiOutcome.

Module TurnsScenario.
Import Scenario.

Definition hello_message : ChatCompletionMessage :=
  GeminiScenario.text_message "hello".

Definition one_answer : Swarm World :=
  {| mode := "openai";
     client := Some (scripted [Ok (ChatCompletion [hello_message])]) |}.

Definition user_says_hi : Message :=
  [("role", JStr "user"); ("content", JStr "Hi")].

(** The run of [StoreScenario] on values: a turn with three tool calls,
    then a text. *)
Definition two_turns : outcome (run_output World) * World :=
  run describe 2 StoreScenario.engine agent_K [user_says_hi]
    [("k", JInt 0)] None [] false Infinity true [].

Definition two_turns_response : Response World :=
  Eval vm_compute in
    match fst two_turns with
    | Ok (Returned r) => r
    | _ => empty_response
    end.

(** A backend of the mode ["gemini"] that asks for [greet]. *)
Definition asks_greet : ChatCompletionMessage :=
  {| msg_content := None; msg_refusal := None; msg_role := "assistant";
     msg_function_call := JNull;
     msg_tool_calls := Some [call_greet];
     msg_sender := None |}.

Definition gemini_tools : Swarm World :=
  {| mode := "gemini";
     client := Some (scripted [Ok (ChatCompletion [asks_greet])]) |}.

Definition gemini_greeted : Response World :=
  {| response_messages :=
       [[("role", JStr "assistant");
         ("content",
          JStr (tool_result_content "greet" "hello"
                  (JDict [("who", JStr "Ann");
                          ("context_variables", JDict [])])))]];
     response_agent := None;
     response_context_variables := [] |}.

End TurnsScenario.

Lemma run_ends_after_turn_without_tools_witness :
  run Scenario.describe 1 TurnsScenario.one_answer Scenario.agent_A
    [TurnsScenario.user_says_hi] [] None [] false Infinity true []
  = (Ok (Returned
           {| response_messages :=
                [model_dump (set_sender TurnsScenario.hello_message "A")];
              response_agent := Some Scenario.agent_A;
              response_context_variables := [] |}),
     snd (get_chat_completion Scenario.describe TurnsScenario.one_answer
            Scenario.agent_A [TurnsScenario.user_says_hi] [] None false []
            [])).
Proof.
  apply (run_ends_after_turn_without_tools Scenario.describe 0
           TurnsScenario.one_answer Scenario.agent_A
           [TurnsScenario.user_says_hi] [] None [] Infinity true []
           (others := [])); reflexivity.
Defined.

Lemma response_is_what_the_run_appended_witness :
  exists st',
    run_loop Scenario.describe 2 StoreScenario.engine None [] Infinity true 1
      {| l_active_agent := Scenario.agent_K;
         l_context_variables := [("k", JInt 0)];
         l_history := [TurnsScenario.user_says_hi] |} []
    = (Ok st', snd TurnsScenario.two_turns)
    /\ l_history st'
       = [TurnsScenario.user_says_hi]
         ++ response_messages TurnsScenario.two_turns_response
    /\ response_agent TurnsScenario.two_turns_response
       = Some (l_active_agent st')
    /\ response_context_variables TurnsScenario.two_turns_response
       = l_context_variables st'.
Proof.
  apply (response_is_what_the_run_appended Scenario.describe 2
           StoreScenario.engine Scenario.agent_K [TurnsScenario.user_says_hi]
           [("k", JInt 0)] None [] Infinity true []).
  - reflexivity.
  - vm_compute. reflexivity.
Defined.

Lemma run_needs_at_most_max_turns_witness :
  run Scenario.describe 5 StoreScenario.engine Scenario.agent_K
    [TurnsScenario.user_says_hi] [("k", JInt 0)] None [] false (Turns 2)
    true []
  = run Scenario.describe 2 StoreScenario.engine Scenario.agent_K
      [TurnsScenario.user_says_hi] [("k", JInt 0)] None [] false (Turns 2)
      true [].
Proof.
  apply (run_needs_at_most_max_turns Scenario.describe (fuel := 5)
           StoreScenario.engine Scenario.agent_K
           [TurnsScenario.user_says_hi] [("k", JInt 0)] None [] 2 true []).
  simpl. lia.
Defined.

Lemma gemini_run_ending_on_tool_outcome_raises_witness :
  run Scenario.describe 1 TurnsScenario.gemini_tools Scenario.agent_A
    [TurnsScenario.user_says_hi] [] None [] false (Turns 1) true []
  = (Raise (JSONDecodeError "Expecting value"),
     snd (get_chat_completion Scenario.describe TurnsScenario.gemini_tools
            Scenario.agent_A [TurnsScenario.user_says_hi] [] None false []
            [])).
Proof.
  apply (gemini_run_ending_on_tool_outcome_raises Scenario.describe 0
           TurnsScenario.gemini_tools Scenario.agent_A
           [TurnsScenario.user_says_hi] [] None [] (n := 1) []
           (m := TurnsScenario.asks_greet) (others := [])
           (w1 := snd (get_chat_completion Scenario.describe
                         TurnsScenario.gemini_tools Scenario.agent_A
                         [TurnsScenario.user_says_hi] [] None false [] []))
           (tool_call := Scenario.call_greet) (tool_calls := [])
           (partial_response := TurnsScenario.gemini_greeted)).
  - reflexivity.
  - simpl. lia.
  - reflexivity.
  - reflexivity.
  - reflexivity.
Defined.

(** ** What the generator of [run_and_stream] yields *)

Definition delim_start : Message := [("delim", JStr "start")].
Definition delim_end : Message := [("delim", JStr "end")].

(** The dict yielded for a chunk: the delta of its first choice, with the
    name of the active agent for sender when its role is ["assistant"]. *)
Definition tagged {World : Type} (active : Agent World)
    (chunk : list Message) (yielded : Message) : Prop :=
  exists delta rest,
    chunk = delta :: rest
    /\ ((dict_get "role" delta = Some (JStr "assistant")
         /\ yielded = dict_set "sender" (JStr (agent_name active)) delta)
        \/ (dict_get "role" delta <> Some (JStr "assistant")
            /\ yielded = delta)).

Lemma turns_left_nonpositive (len : nat) (n : Z) :
  (n <= 0)%Z -> turns_left len len (Turns n) = false.
Proof. intros Hn. unfold turns_left. apply Z.ltb_ge. lia. Qed.

Section Streaming.
Context {World : Type}.
Variable function_to_json : AgentFunction World -> Tool.
Implicit Types (self : Swarm World) (agent active : Agent World) (w : World).

(** The chunks of a turn: one dict is yielded for each, in order, and
    the outside world is left alone. *)
Lemma handle_chunks_yield active chunks :
  forall (message : Message) (out : list (item World)) w message' out' w',
    for_each (handle_chunk active) chunks (message, out) w
    = (Ok (message', out'), w') ->
    w' = w
    /\ exists deltas,
         out' = out ++ map YieldDict deltas
         /\ Forall2 (tagged active) chunks deltas.
Proof.
  induction chunks as [| chunk chunks IH];
    intros message out w message' out' w' H.
  - cbn in H. injection H as <- <- <-. split; [reflexivity |].
    exists []. split; [now rewrite app_nil_r | constructor].
  - cbn [for_each] in H. unfold bind at 1 in H.
    destruct (handle_chunk active (message, out) chunk w)
      as [[[message1 out1] | e |] w1] eqn:Hstep; try discriminate.
    destruct (IH _ _ _ _ _ _ H) as [-> [deltas [-> Hdeltas]]].
    unfold handle_chunk in Hstep.
    destruct chunk as [| delta chunk']; [discriminate |].
    unfold bind, ret, raise, lift in Hstep.
    destruct (dict_get "role" delta) as [role |] eqn:Hrole; [| discriminate].
    match type of Hstep with
    | context [merge_chunk message (dict_pop "sender" (dict_pop "role" ?d))] =>
        assert ((role = JStr "assistant"
                 /\ d = dict_set "sender" (JStr (agent_name active)) delta)
                \/ (role <> JStr "assistant" /\ d = delta)) as Hd;
        [| destruct (merge_chunk message
                       (dict_pop "sender" (dict_pop "role" d)))
             as [merged | |]; try discriminate;
           set (yielded := d) in *; clearbody yielded ]
    end.
    { destruct role as [| b | z | s | l | d0];
        try (right; split; [discriminate | reflexivity]).
      destruct (string_dec s "assistant") as [-> | Hne];
        [left; split; reflexivity |].
      right. split; [congruence |].
      repeat (destruct s as [| [[] [] [] [] [] [] [] []] s];
              try reflexivity).
      now elim Hne. }
    injection Hstep as <- <- <-. split; [reflexivity |].
    exists (yielded :: deltas). split.
    + now rewrite <- app_assoc.
    + constructor; [| exact Hdeltas].
      exists delta, chunk'. split; [reflexivity |].
      destruct Hd as [[-> ->] | [Hne ->]]; [left | right]; split;
        try reflexivity; congruence.
Qed.

(** What the loop adds to the items yielded so far: dicts only, none or
    a sequence that opens with the delimiter of a start and closes with
    the delimiter of an end. *)
Lemma stream_loop_yields fuel self agent model_override model_config
    max_turns execute_tools init_len :
  forall (st : loop_state World) out w st' out' w',
    stream_loop function_to_json fuel self agent model_override
      model_config max_turns execute_tools init_len st out w
    = (Ok (st', out'), w') ->
    exists dicts,
      out' = out ++ map YieldDict dicts
      /\ (dicts = []
          \/ exists middle, dicts = delim_start :: middle ++ [delim_end]).
Proof.
  induction fuel as [| fuel IH]; intros st out w st' out' w' H;
    cbn [stream_loop] in H;
    destruct (turns_left (length (l_history st)) init_len max_turns);
    cbn [negb] in H;
    try (injection H as <- <- <-; exists [];
         split; [now rewrite app_nil_r | now left]);
    try discriminate.
  unfold bind at 1 in H.
  destruct (get_chat_completion _ _ _ _ _ _ _ _ w)
    as [[completion | e |] w1]; try discriminate.
  unfold bind at 1, lift at 1 in H.
  destruct (chunks_of completion) as [chunks | e |]; try discriminate.
  unfold bind at 1 in H.
  destruct (for_each _ chunks _ w1) as [[[message out1] | e |] w2] eqn:Hchunks;
    try discriminate.
  apply handle_chunks_yield in Hchunks.
  destruct Hchunks as [-> [deltas [-> _]]].
  unfold bind at 1, lift at 1 in H.
  destruct (close_tool_calls message) as [entry | e |]; try discriminate.
  assert (forall (st0 st1 : loop_state World) out0 w0,
             @ret World _ (st0,
                  ((out ++ [YieldDict delim_start]) ++ map YieldDict deltas)
                  ++ [YieldDict delim_end]) w1
             = (Ok (st1, out0), w0) ->
             exists dicts,
               out0 = out ++ map YieldDict dicts
               /\ (dicts = []
                   \/ exists middle,
                        dicts = delim_start :: middle ++ [delim_end]))
    as Hend.
  { intros st0 st1 out0 w0 H0. injection H0 as <- <- <-.
    exists (delim_start :: deltas ++ [delim_end]). split.
    - cbn [map]. rewrite map_app. cbn [map].
      now rewrite <- !app_assoc.
    - right. now exists deltas. }
  destruct (dict_get "tool_calls" entry) as [[| | | | [| tc tcs] |] |];
    try (now apply Hend in H).
  destruct execute_tools; cbn [negb] in H; [| now apply Hend in H].
  unfold bind at 1, lift at 1 in H.
  destruct (tool_call_objects (tc :: tcs)) as [tool_calls | e |];
    try discriminate.
  unfold bind at 1 in H.
  destruct (dispatch_turn self _ tool_calls w1) as [[st1 | e |] w3];
    try discriminate.
  apply IH in H. destruct H as [dicts [-> Hdicts]].
  exists (delim_start :: deltas ++ [delim_end] ++ dicts). split.
  - cbn [map]. rewrite !map_app. cbn [map].
    now rewrite <- !app_assoc.
  - right. destruct Hdicts as [-> | [middle ->]].
    + exists deltas. now rewrite app_nil_r.
    + exists (deltas ++ [delim_end] ++ delim_start :: middle).
      now rewrite <- !app_assoc.
Qed.

(** X18: with [max_turns] zero or negative, a streaming run yields its
    response at once, in every mode and for every client: no delimiter
    and no delta, no request to the backend, and a response with no
    message, the agent of the call and the context variables of the
    call. *)
Theorem stream_of_no_turn_yields_only_the_response fuel self agent messages
    context_variables model_override model_config n execute_tools w :
  (n <= 0)%Z ->
  run function_to_json fuel self agent messages context_variables
    model_override model_config true (Turns n) execute_tools w
  = (Ok (Generator
           [YieldResponse
              {| response_messages := [];
                 response_agent := Some agent;
                 response_context_variables := context_variables |}]),
     w).
Proof.
  intros Hn. unfold run, run_and_stream.
  assert (stream_loop function_to_json fuel self agent model_override
            model_config (Turns n) execute_tools (length messages)
            {| l_active_agent := agent;
               l_context_variables := context_variables;
               l_history := messages |} [] w
          = (Ok ({| l_active_agent := agent;
                    l_context_variables := context_variables;
                    l_history := messages |}, []), w)) as Hloop.
  { destruct fuel; cbn [stream_loop l_history];
      rewrite (turns_left_nonpositive _ Hn); reflexivity. }
  rewrite bind_assoc, (bind_ok _ _ _ Hloop).
  cbn [l_history l_active_agent l_context_variables].
  unfold bind, ret. cbn [app]. now rewrite skipn_all.
Qed.

(** X19: a streaming run that comes to its end yields dicts and then one
    response, which is its last item; the dicts, when there are any, open
    with the delimiter of a start and close with the delimiter of an
    end. *)
Theorem stream_yields_dicts_then_the_response fuel self agent messages
    context_variables model_override model_config max_turns execute_tools
    w items w' :
  run_and_stream function_to_json fuel self agent messages context_variables
    model_override model_config max_turns execute_tools w
  = (Ok items, w') ->
  exists dicts r,
    items = map YieldDict dicts ++ [YieldResponse r]
    /\ (dicts = []
        \/ exists middle, dicts = delim_start :: middle ++ [delim_end]).
Proof.
  unfold run_and_stream. intros H. unfold bind at 1 in H.
  destruct (stream_loop _ _ _ _ _ _ _ _ _ _ _ w)
    as [[[st out] | e |] w1] eqn:Hloop; try discriminate.
  apply stream_loop_yields in Hloop. destruct Hloop as [dicts [-> Hdicts]].
  injection H as <- <-. cbn [app].
  now exists dicts, {| response_messages :=
                         skipn (length messages) (l_history st);
                       response_agent := Some (l_active_agent st);
                       response_context_variables := l_context_variables st |}.
Qed.

(** X20: a streaming run with [execute_tools=False] is one turn.  When
    the backend answers the request with a stream, the run yields the
    delimiter of a start, one dict for each chunk in order (the delta of
    the chunk, with the name of the agent for sender when its role is
    ["assistant"]), the delimiter of an end, and the response: one
    message, whose sender is the agent of the call, that agent, and the
    context variables of the call.  No other request is made. *)
Theorem stream_without_tool_execution_is_one_turn fuel self agent messages
    context_variables model_override model_config max_turns w chunks w1
    items w' :
  turns_left (length messages) (length messages) max_turns = true ->
  get_chat_completion function_to_json self agent messages context_variables
    model_override true model_config w
  = (Ok (Some (ChatStream chunks)), w1) ->
  run_and_stream function_to_json (S fuel) self agent messages
    context_variables model_override model_config max_turns false w
  = (Ok items, w') ->
  exists deltas message,
    items = YieldDict delim_start :: map YieldDict deltas
            ++ [YieldDict delim_end;
                YieldResponse
                  {| response_messages := [message];
                     response_agent := Some agent;
                     response_context_variables := context_variables |}]
    /\ Forall2 (tagged agent) chunks deltas
    /\ dict_get "sender" message = Some (JStr (agent_name agent))
    /\ w' = w1.
Proof.
  intros Hturns Hget H. unfold run_and_stream in H.
  cbn [stream_loop l_history l_active_agent l_context_variables] in H.
  rewrite Hturns in H. cbn [negb] in H.
  rewrite bind_assoc in H. rewrite (bind_ok _ _ _ Hget) in H.
  rewrite bind_assoc in H. unfold bind at 1, lift at 1 in H.
  cbn [chunks_of] in H.
  rewrite bind_assoc in H. unfold bind at 1 in H.
  destruct (for_each _ chunks _ w1) as [[[message out1] | e |] w2] eqn:Hchunks;
    try discriminate.
  rewrite bind_assoc in H. unfold bind at 1, lift at 1 in H.
  destruct (close_tool_calls message) as [entry | e |] eqn:Hclose;
    try discriminate.
  pose proof (stream_turn_sender _ _ _ _ _ Hchunks Hclose) as Hsender.
  apply handle_chunks_yield in Hchunks.
  destruct Hchunks as [-> [deltas [-> Hdeltas]]].
  assert (items
          = (([] ++ [YieldDict delim_start]) ++ map YieldDict deltas)
            ++ [YieldDict delim_end]
            ++ [YieldResponse
                  {| response_messages := [entry];
                     response_agent := Some agent;
                     response_context_variables := context_variables |}]
          /\ w' = w1) as [-> ->].
  { destruct (dict_get "tool_calls" entry) as [[| | | | [| tc tcs] |] |];
      cbn [negb] in H; unfold bind, ret in H;
      cbn [l_history l_active_agent l_context_variables] in H;
      rewrite skipn_app, skipn_all, Nat.sub_diag in H;
      injection H as <- <-; now rewrite <- !app_assoc. }
  exists deltas, entry. repeat split; auto.
Qed.

End Streaming.

Module StreamingScenario.
Import Scenario.

(** The chunks of the first stream of [HandoffScenario]. *)
Definition first_chunks : list (list Message) :=
  match HandoffScenario.first_stream with
  | ChatStream chunks => chunks
  | ChatCompletion _ => []
  end.

(** The run of [HandoffScenario], to its end. *)
Definition handoff_run : outcome (list (item World)) * World :=
  run_and_stream describe 2 HandoffScenario.engine HandoffScenario.agent_A
    [HandoffScenario.user_says_hi] [] None [] Infinity true [].

Definition handoff_items : list (item World) :=
  Eval vm_compute in
    match fst handoff_run with
    | Ok items => items
    | _ => []
    end.

(** The same call with [execute_tools=False]. *)
Definition held_run : outcome (list (item World)) * World :=
  run_and_stream describe 1 HandoffScenario.engine HandoffScenario.agent_A
    [HandoffScenario.user_says_hi] [] None [] Infinity false [].

Definition held_items : list (item World) :=
  Eval vm_compute in
    match fst held_run with
    | Ok items => items
    | _ => []
    end.

End StreamingScenario.

Lemma stream_of_no_turn_yields_only_the_response_witness :
  run Scenario.describe 0 TurnsScenario.gemini_tools Scenario.agent_A
    [TurnsScenario.user_says_hi] [("k", JInt 0)] None [] true (Turns 0)
    true []
  = (Ok (Generator
           [YieldResponse
              {| response_messages := [];
                 response_agent := Some Scenario.agent_A;
                 response_context_variables := [("k", JInt 0)] |}]),
     []).
Proof.
  apply (stream_of_no_turn_yields_only_the_response Scenario.describe 0
           TurnsScenario.gemini_tools Scenario.agent_A
           [TurnsScenario.user_says_hi] [("k", JInt 0)] None [] true []).
  lia.
Defined.

Lemma stream_yields_dicts_then_the_response_witness :
  exists dicts r,
    StreamingScenario.handoff_items
    = map YieldDict dicts ++ [YieldResponse r]
    /\ (dicts = []
        \/ exists middle, dicts = delim_start :: middle ++ [delim_end]).
Proof.
  apply (stream_yields_dicts_then_the_response Scenario.describe 2
           HandoffScenario.engine HandoffScenario.agent_A
           [HandoffScenario.user_says_hi] [] None [] Infinity true []
           (w' := snd StreamingScenario.handoff_run)).
  vm_compute. reflexivity.
Defined.

Lemma stream_without_tool_execution_is_one_turn_witness :
  exists deltas message,
    StreamingScenario.held_items
    = YieldDict delim_start :: map YieldDict deltas
      ++ [YieldDict delim_end;
          YieldResponse
            {| response_messages := [message];
               response_agent := Some HandoffScenario.agent_A;
               response_context_variables := [] |}]
    /\ Forall2 (tagged HandoffScenario.agent_A)
         StreamingScenario.first_chunks deltas
    /\ dict_get "sender" message = Some (JStr "A")
    /\ snd StreamingScenario.held_run
       = snd (get_chat_completion Scenario.describe HandoffScenario.engine
                HandoffScenario.agent_A [HandoffScenario.user_says_hi] []
                None true [] []).
Proof.
  apply (stream_without_tool_execution_is_one_turn Scenario.describe 0
           HandoffScenario.engine HandoffScenario.agent_A
           [HandoffScenario.user_says_hi] [] None [] Infinity []).
  - reflexivity.
  - reflexivity.
  - vm_compute. reflexivity.
Defined.

(** ** The one field of a request that comes after [model_config] *)


Section Overridden.
Context {V : Type}.
Implicit Types (d u : pydict V) (k : string).







End Overridden.

Section ParallelToolCalls.
Context {World : Type}.
Variable function_to_json : AgentFunction World -> Tool.
Implicit Types (self : Swarm World) (agent : Agent World) (w : World).


End ParallelToolCalls.


(** ** An engine that was constructed *)

Section Constructed.
Context {World : Type}.
Variable OpenAI : option string -> option string -> outcome (Client World).

(** X22: an engine that the constructor returns has the mode it was
    asked for, which is not empty, and the client it was given when it
    was given one; in each of the modes ["openai"], ["gemini"] and
    ["ollama"] it has a client, and in the mode ["gemini"] without a
    client of the caller the key is not empty. *)
Theorem constructed_engine_has_client (given : option (Client World))
    (name key : string) (self : Swarm World) :
  __init__ OpenAI given name key = Ok self ->
  mode self = name
  /\ Str.truthy name = true
  /\ (forall c, given = Some c -> client self = Some c)
  /\ (Str.in_tuple name ["openai"; "gemini"; "ollama"] = true ->
      client self <> None)
  /\ (name = "gemini" -> given = None -> Str.truthy key = true).
Proof.
  unfold __init__. intros H.
  destruct (Str.truthy name) eqn:Hname; cbn [negb] in H; [| discriminate].
  destruct given as [c |].
  - cbn in H. injection H as <-. cbn [mode client].
    repeat split; try congruence.
  - unfold Str.in_tuple. cbn [existsb].
    destruct (String.eqb name "ollama") eqn:Hollama.
    { destruct (OpenAI _ _) as [c | e |]; try discriminate.
      cbn in H. injection H as <-. cbn [mode client].
      apply String.eqb_eq in Hollama.
      repeat split; try congruence. }
    destruct (String.eqb name "gemini") eqn:Hgemini.
    { destruct (Str.truthy key) eqn:Hkey; [| discriminate].
      destruct (OpenAI _ _) as [c | e |]; try discriminate.
      cbn in H. injection H as <-. cbn [mode client].
      repeat split; try congruence. }
    destruct (String.eqb name "openai") eqn:Hopenai.
    { destruct (OpenAI _ _) as [c | e |]; try discriminate.
      cbn in H. injection H as <-. cbn [mode client].
      apply String.eqb_neq in Hgemini.
      repeat split; try congruence. }
    cbn in H. injection H as <-. cbn [mode client orb].
    apply String.eqb_neq in Hgemini.
    repeat split; try congruence.
Qed.

End Constructed.

Lemma constructed_engine_has_client_witness :
  mode TurnsScenario.gemini_tools = "gemini"
  /\ Str.truthy "gemini" = true
  /\ (forall c, client TurnsScenario.gemini_tools = Some c ->
                client TurnsScenario.gemini_tools = Some c)
  /\ (Str.in_tuple "gemini" ["openai"; "gemini"; "ollama"] = true ->
      client TurnsScenario.gemini_tools <> None)
  /\ ("gemini" = "gemini" -> client TurnsScenario.gemini_tools = None ->
      Str.truthy "" = true).
Proof.
  apply (constructed_engine_has_client Scenario.no_OpenAI
           (client TurnsScenario.gemini_tools) "gemini" ""
           (self := TurnsScenario.gemini_tools)).
  reflexivity.
Defined.
